(** * Warm-transfer front end: API client, LiveKit manager and the useLiveKit hook

    A shallow embedding of the TypeScript client of the warm-transfer system
    ([frontend/src/lib/api.ts], [frontend/src/lib/livekit.ts] and
    [frontend/src/hooks/useLiveKit.ts]) together with the properties that its
    specification states about it.

    Conventions of the embedding.
    - TypeScript's types are erased at run time, so the arguments of the
      client functions and everything read from a response are JavaScript
      values ([JS.value]); the theorems assume the declared types where the
      specification does.
    - A promise that settled, and a synchronous completion, is a value of
      [settled]: [Resolved] (fulfilled, returned) or [Rejected] (rejected,
      thrown).
    - The network is an oracle that answers every request, given the requests
      made so far; the requests handed to [fetch] are logged in order.
    - Numbers are integers ([Z]): the numbers this client handles are HTTP
      status codes, participant counts and clock readings.
    - A string is held as the bytes of its UTF-8 encoding, so that equality,
      concatenation and prefixes are those of the JavaScript string; white
      space is recognised by its encoding ([Text]). Of the [console] output
      only the errors that the data listener writes are kept. *)

From Stdlib Require Import ZArith String Ascii.
From stdpp Require Import base tactics option list strings pretty gmap.

Set Warnings "-register-all".
Local Open Scope Z_scope.

(** ** Settled computations *)

Inductive settled (E A : Type) : Type :=
  | Resolved (a : A)
  | Rejected (e : E).
Arguments Resolved {E A} a.
Arguments Rejected {E A} e.

Definition settled_bind {E A B} (m : settled E A) (k : A -> settled E B) : settled E B :=
  match m with
  | Resolved a => k a
  | Rejected e => Rejected e
  end.

Notation "'try!' x <- m ; k" := (settled_bind m (fun x => k))
  (at level 10, x name, m at level 100, k at level 200).

Definition is_resolved {E A} (m : settled E A) : bool :=
  match m with Resolved _ => true | Rejected _ => false end.

(** ** JavaScript values *)

Module JS.

Inductive value : Type :=
  | VUndefined
  | VNull
  | VBool (b : bool)
  | VNum (n : Z)
  | VStr (s : string)
  | VArr (items : list value)
  | VObj (props : list (string * value)).

(** The documents [JSON.stringify] can produce. *)
Inductive json : Type :=
  | JNull
  | JBool (b : bool)
  | JNum (n : Z)
  | JStr (s : string)
  | JArr (items : list json)
  | JObj (members : list (string * json)).

(** ToBoolean. *)
Definition truthy (v : value) : bool :=
  match v with
  | VUndefined | VNull => false
  | VBool b => b
  | VNum n => negb (n =? 0)
  | VStr s => negb (String.eqb s "")
  | VArr _ | VObj _ => true
  end.

(** [a || b] *)
Definition or_else (a b : value) : value := if truthy a then a else b.

(** [a === 'literal'] *)
Definition strict_eq_str (v : value) (s : string) : bool :=
  match v with
  | VStr s' => String.eqb s' s
  | _ => false
  end.

(** Own property of an object, first binding of the key. *)
Fixpoint assoc {V : Type} (k : string) (ps : list (string * V)) : option V :=
  match ps with
  | [] => None
  | (k', v) :: rest => if String.eqb k' k then Some v else assoc k rest
  end.

(** Thrown values: the [ApiError] record of api.ts, or an instance of
    [Error] (or of a subclass, [name] tells which). *)
Record ApiError : Type := mkApiError {
  message : value;
  status : Z;
  details : value
}.

Inductive exn : Type :=
  | ApiErr (e : ApiError)
  | ErrorObj (name : string) (msg : string).

(** [err.message] *)
Definition exn_message (e : exn) : value :=
  match e with
  | ApiErr a => message a
  | ErrorObj _ m => VStr m
  end.

(** [err instanceof Error] *)
Definition instanceof_Error (e : exn) : bool :=
  match e with
  | ApiErr _ => false
  | ErrorObj _ _ => true
  end.

(** [v.k] for a key [k] that is no built-in property of strings, numbers,
    booleans or arrays (the client reads [type], [text], [detail],
    [message], [token], [url], [room_id]): reading a property of
    [undefined] or [null] throws a TypeError, whose text is the engine's. *)
Definition get_prop (v : value) (k : string) : settled exn value :=
  match v with
  | VUndefined =>
      Rejected (ErrorObj "TypeError" ("Cannot read properties of undefined (reading '" +:+ k +:+ "')"))
  | VNull =>
      Rejected (ErrorObj "TypeError" ("Cannot read properties of null (reading '" +:+ k +:+ "')"))
  | VObj ps => Resolved (default VUndefined (assoc k ps))
  | VBool _ | VNum _ | VStr _ | VArr _ => Resolved VUndefined
  end.

(** [v?.k] *)
Definition get_prop_opt (v : value) (k : string) : value :=
  match v with
  | VObj ps => default VUndefined (assoc k ps)
  | _ => VUndefined
  end.

(** [JSON.stringify]: [None] is the result [undefined]. Inside an array
    [undefined] becomes [null]; a property whose value is [undefined] is
    left out. *)
Fixpoint stringify (v : value) : option json :=
  match v with
  | VUndefined => None
  | VNull => Some JNull
  | VBool b => Some (JBool b)
  | VNum n => Some (JNum n)
  | VStr s => Some (JStr s)
  | VArr items =>
      Some (JArr (map (fun x => default JNull (stringify x)) items))
  | VObj props =>
      Some (JObj ((fix members (ps : list (string * value)) : list (string * json) :=
                     match ps with
                     | [] => []
                     | (k, x) :: rest =>
                         match stringify x with
                         | Some j => (k, j) :: members rest
                         | None => members rest
                         end
                     end) props))
  end.

(** The members of a stringified object, as a function of its own. *)
Fixpoint stringify_members (ps : list (string * value)) : list (string * json) :=
  match ps with
  | [] => []
  | (k, x) :: rest =>
      match stringify x with
      | Some j => (k, j) :: stringify_members rest
      | None => stringify_members rest
      end
  end.

(** ToString, as used by template literals and by [new Error(v)]. *)
Fixpoint to_string (v : value) : string :=
  match v with
  | VUndefined => "undefined"
  | VNull => "null"
  | VBool true => "true"
  | VBool false => "false"
  | VNum n => pretty n
  | VStr s => s
  | VArr items =>
      String.concat ","
        (map (fun x => match x with
                       | VUndefined | VNull => ""
                       | _ => to_string x
                       end) items)
  | VObj _ => "[object Object]"
  end.

(** [haystack.includes(needle)] *)
Fixpoint includes (needle haystack : string) : bool :=
  String.prefix needle haystack
  || match haystack with
     | EmptyString => false
     | String _ rest => includes needle rest
     end.

(** [{...a, ...b}] on objects: a key of [b] that [a] has keeps its place
    and takes [b]'s value, the other keys of [b] follow in order. *)
Fixpoint set_prop {V : Type} (k : string) (v : V) (ps : list (string * V)) : list (string * V) :=
  match ps with
  | [] => [(k, v)]
  | (k', v') :: rest =>
      if String.eqb k' k then (k', v) :: rest else (k', v') :: set_prop k v rest
  end.

Definition spread {V : Type} (a b : list (string * V)) : list (string * V) :=
  fold_left (fun acc kv => set_prop kv.1 kv.2 acc) b a.

(** An optional string argument. *)
Definition opt_str (o : option string) : value :=
  match o with
  | Some s => VStr s
  | None => VUndefined
  end.

End JS.
Import JS.

(** [a === b] where one side was parsed from a response: primitives are
    compared by value; an object or an array is only identical to itself, and
    a freshly parsed one is identical to nothing the caller holds. *)
Definition strict_eq (a b : value) : bool :=
  match a, b with
  | VUndefined, VUndefined => true
  | VNull, VNull => true
  | VBool x, VBool y => Bool.eqb x y
  | VNum x, VNum y => x =? y
  | VStr x, VStr y => String.eqb x y
  | _, _ => false
  end.

(** [items.find(p)]: the first element on which the callback answers a truthy
    value, [undefined] when there is none; a callback that throws ends the
    search. *)
Fixpoint array_find (p : value -> settled exn bool) (items : list value) : settled exn value :=
  match items with
  | [] => Resolved VUndefined
  | x :: rest =>
      try! b <- p x;
      if b then Resolved x else array_find p rest
  end.

(** ** HTTP: requests, responses and the network *)

Module Http.

(** The second argument of [fetch], as this client builds it. [method] is
    [None] when the option is absent (a GET), [body] is [None] when
    [JSON.stringify] gave [undefined] or no body was given. [headers] is
    always a plain object here, written as an object literal: its
    properties, each with the string that [fetch] reads as the header's
    value. *)
Record RequestInit : Type := mkInit {
  method : option string;
  headers : list (string * string);
  body : option json
}.

Record Request : Type := mkRequest {
  url : string;
  init : RequestInit
}.

(** What the client reads of a [Response]. [content_type] is
    [headers.get('content-type')] ([None] for [null]); [json] is what
    [await response.json()] settles to. *)
Record Response : Type := mkResponse {
  ok : bool;
  status : Z;
  statusText : string;
  content_type : option string;
  json : settled exn value
}.

(** The network: what [fetch] settles to for a request, given the requests
    made before it. *)
Definition network : Type := list Request -> Request -> settled exn Response.

(** An asynchronous computation: it threads the log of the requests handed
    to [fetch] and settles. *)
Definition Async (A : Type) : Type := list Request -> settled exn A * list Request.

Definition async_ret {A} (r : settled exn A) : Async A := fun log => (r, log).

Definition async_bind {A B} (m : Async A) (k : A -> Async B) : Async B :=
  fun log =>
    match m log with
    | (Resolved a, log') => k a log'
    | (Rejected e, log') => (Rejected e, log')
    end.

(** [await fetch(url, config)] *)
Definition fetch (net : network) (u : string) (config : RequestInit) : Async Response :=
  fun log => let req := mkRequest u config in (net log req, log ++ [req]).

End Http.

Notation "'await!' x <- m ; k" := (Http.async_bind m (fun x => k))
  (at level 10, x name, m at level 100, k at level 200).

(** ** api.ts *)

(** [process.env.NEXT_PUBLIC_API_URL || 'http://localhost:8000'] *)
Definition API_BASE_URL (env : value) : value := or_else env (VStr "http://localhost:8000").

Module ApiClient.

(** [HeadersInit], what the [headers] of the options of [request] may be: a
    plain object, a [Headers] object, or an array of pairs of a name and a
    value. *)
Inductive HeadersInit : Type :=
  | HeadersRecord (entries : list (string * string))
  | HeadersObject (entries : list (string * string))
  | HeadersPairs (pairs : list (string * string)).

(** The [options] of [request], a [RequestInit] of TypeScript; an option is
    [None] when it is absent. *)
Record Options : Type := mkOptions {
  method : option string;
  headers : option HeadersInit;
  body : option json
}.

(** The own enumerable properties of [options.headers], which are what
    [{...options.headers}] copies: the entries of a plain object; nothing of
    a [Headers] object, whose headers are no properties of it, and nothing
    when there are no headers; of an array its indices, each with its pair,
    which [fetch] reads as the string of the name, a comma and the value. *)
Definition own_properties (h : option HeadersInit) : list (string * string) :=
  match h with
  | Some (HeadersRecord entries) => entries
  | Some (HeadersObject _) | None => []
  | Some (HeadersPairs pairs) =>
      imap (fun (i : nat) pair => (pretty i, pair.1 +:+ "," +:+ pair.2)) pairs
  end.

Section WithNetwork.

Context (net : Http.network) (baseUrl : string).

Definition handleResponse (response : Http.Response) : settled exn value :=
  if negb (Http.ok response) then
    let errorMessage :=
      VStr ("HTTP " +:+ to_string (VNum (Http.status response)) +:+ ": " +:+ Http.statusText response) in
    let parsed :=
      try! errorData <- Http.json response;
      try! detail <- get_prop errorData "detail";
      try! msg <- get_prop errorData "message";
      Resolved (or_else detail (or_else msg errorMessage), errorData) in
    let '(errorMessage', errorDetails) :=
      match parsed with
      | Resolved p => p
      | Rejected _ => (errorMessage, VUndefined)
      end in
    Rejected (ApiErr {| message := errorMessage';
                        status := Http.status response;
                        details := errorDetails |})
  else
    match Http.content_type response with
    | Some contentType =>
        if truthy (VStr contentType) && includes "application/json" contentType
        then Http.json response
        else Resolved (VObj [])
    | None => Resolved (VObj [])
    end.

Definition defaultHeaders : list (string * string) :=
  [("Content-Type", "application/json")].

(** [request]: the [catch] logs and throws the error again. *)
Definition request (endpoint : string) (options : Options) : Http.Async value :=
  let url := baseUrl +:+ endpoint in
  let config :=
    {| Http.method := method options;
       Http.headers := spread defaultHeaders (own_properties (headers options));
       Http.body := body options |} in
  await! response <- Http.fetch net url config;
  Http.async_ret (handleResponse response).

Definition no_options : Options :=
  {| method := None; headers := None; body := None |}.

Definition post (b : option json) : Options :=
  {| method := Some "POST"; headers := None; body := b |}.

Definition healthCheck : Http.Async value := request "/api/health" no_options.

Record CreateRoomData : Type := {
  cr_room_name : value;
  cr_room_type : value;
  cr_max_participants : value
}.

Definition CreateRoomData_obj (data : CreateRoomData) : value :=
  VObj [("room_name", cr_room_name data);
        ("room_type", cr_room_type data);
        ("max_participants", cr_max_participants data)].

Definition createRoom (data : CreateRoomData) : Http.Async value :=
  request "/api/rooms/create" (post (stringify (CreateRoomData_obj data))).

Definition listRooms : Http.Async value := request "/api/rooms/" no_options.

(** [room => room.room_name === roomName && room.is_active] *)
Definition is_named_active (roomName : value) (room : value) : settled exn bool :=
  try! room_name <- get_prop room "room_name";
  if strict_eq room_name roomName
  then try! is_active <- get_prop room "is_active"; Resolved (truthy is_active)
  else Resolved false.

(** [rooms.find] exists on arrays only; on anything else the call throws. *)
Definition findRoomByName (roomName : value) : Http.Async value :=
  await! rooms <- listRooms;
  Http.async_ret
    match rooms with
    | VArr items => array_find (is_named_active roomName) items
    | VUndefined | VNull =>
        try! _ <- get_prop rooms "find"; Resolved VUndefined
    | _ => Rejected (ErrorObj "TypeError" "rooms.find is not a function")
    end.

Record TransferData : Type := {
  td_targetAgentId : value;
  td_roomId : value;
  td_callSummary : value
}.

Definition transferCall (data : TransferData) : Http.Async value :=
  request "/api/rooms/transfer"
    (post (stringify (VObj [("room_id", td_roomId data);
                            ("target_agent_id", td_targetAgentId data);
                            ("call_summary", td_callSummary data)]))).

Definition completeConsultation (transferId agentIdentity : value) : Http.Async value :=
  request ("/api/rooms/transfer/" +:+ to_string transferId +:+ "/complete-consultation")
    (post (stringify (VObj [("agent_identity", agentIdentity)]))).

Record JoinTokenData : Type := {
  jt_room_id : value;
  jt_identity : value;
  jt_name : value;
  jt_role : value;
  jt_metadata : value
}.

Definition JoinTokenData_obj (data : JoinTokenData) : value :=
  VObj [("room_id", jt_room_id data);
        ("identity", jt_identity data);
        ("name", jt_name data);
        ("role", jt_role data);
        ("metadata", jt_metadata data)].

Definition generateJoinToken (data : JoinTokenData) : Http.Async value :=
  request "/api/participants/token" (post (stringify (JoinTokenData_obj data))).

Definition removeParticipant (identity roomId : value) : Http.Async value :=
  request ("/api/participants/" +:+ to_string identity +:+ "?room_id=" +:+ to_string roomId)
    {| method := Some "DELETE"; headers := None; body := None |}.

Definition generateCallSummary (callId : value) : Http.Async value :=
  request ("/api/calls/" +:+ to_string callId +:+ "/summary") (post None).

Definition getCallTranscript (callId : value) : Http.Async value :=
  request ("/api/calls/" +:+ to_string callId +:+ "/transcript") no_options.

(** A parameter with a default takes it when the argument is [undefined]. *)
Definition default_param (arg dflt : value) : value :=
  match arg with
  | VUndefined => dflt
  | _ => arg
  end.

Definition holdCall (callId : value) (hold : value) : Http.Async value :=
  let hold := default_param hold (VBool true) in
  request ("/api/calls/" +:+ to_string callId +:+ "/hold")
    (post (stringify (VObj [("hold", hold)]))).

(** The operations of the client, and their dispatch. *)
Inductive Call : Type :=
  | HealthCheck
  | CreateRoom (data : CreateRoomData)
  | ListRooms
  | FindRoomByName (roomName : value)
  | TransferCall (data : TransferData)
  | CompleteConsultation (transferId agentIdentity : value)
  | GenerateJoinToken (data : JoinTokenData)
  | RemoveParticipant (identity roomId : value)
  | GenerateCallSummary (callId : value)
  | GetCallTranscript (callId : value)
  | HoldCall (callId hold : value).

Definition invoke (c : Call) : Http.Async value :=
  match c with
  | HealthCheck => healthCheck
  | CreateRoom data => createRoom data
  | ListRooms => listRooms
  | FindRoomByName roomName => findRoomByName roomName
  | TransferCall data => transferCall data
  | CompleteConsultation transferId agentIdentity => completeConsultation transferId agentIdentity
  | GenerateJoinToken data => generateJoinToken data
  | RemoveParticipant identity roomId => removeParticipant identity roomId
  | GenerateCallSummary callId => generateCallSummary callId
  | GetCallTranscript callId => getCallTranscript callId
  | HoldCall callId hold => holdCall callId hold
  end.

End WithNetwork.
End ApiClient.

(** The [api] object: convenience wrappers around the singleton client. *)
Module Api.
Section WithNetwork.

Context (net : Http.network) (baseUrl : string).

Definition health : Http.Async value := ApiClient.healthCheck net baseUrl.

Definition rooms_create (roomName options : value) : Http.Async value :=
  ApiClient.createRoom net baseUrl
    {| ApiClient.cr_room_name := roomName;
       ApiClient.cr_room_type := or_else (get_prop_opt options "roomType") (VStr "call");
       ApiClient.cr_max_participants := or_else (get_prop_opt options "maxParticipants") (VNum 10) |}.

Definition rooms_list : Http.Async value := ApiClient.listRooms net baseUrl.

Definition rooms_findByName (roomName : value) : Http.Async value :=
  ApiClient.findRoomByName net baseUrl roomName.

Definition rooms_transfer (targetAgentId roomId callSummary : value) : Http.Async value :=
  ApiClient.transferCall net baseUrl
    {| ApiClient.td_targetAgentId := targetAgentId;
       ApiClient.td_roomId := roomId;
       ApiClient.td_callSummary := callSummary |}.

Definition rooms_completeConsultation (transferId agentIdentity : value) : Http.Async value :=
  ApiClient.completeConsultation net baseUrl transferId agentIdentity.

Definition participants_getToken (roomId identity name options : value) : Http.Async value :=
  ApiClient.generateJoinToken net baseUrl
    {| ApiClient.jt_room_id := roomId;
       ApiClient.jt_identity := identity;
       ApiClient.jt_name := name;
       ApiClient.jt_role := or_else (get_prop_opt options "role") (VStr "caller");
       ApiClient.jt_metadata := get_prop_opt options "metadata" |}.

Definition participants_remove (identity roomId : value) : Http.Async value :=
  ApiClient.removeParticipant net baseUrl identity roomId.

Definition calls_getSummary (callId : value) : Http.Async value :=
  ApiClient.generateCallSummary net baseUrl callId.

Definition calls_getTranscript (callId : value) : Http.Async value :=
  ApiClient.getCallTranscript net baseUrl callId.

Definition calls_hold (callId hold : value) : Http.Async value :=
  let hold := ApiClient.default_param hold (VBool true) in
  ApiClient.holdCall net baseUrl callId hold.

End WithNetwork.
End Api.

(** ** livekit.ts *)

Module LiveKit.

Record LiveKitConfig : Type := { cfg_url : value; cfg_token : value }.

Record ParticipantInfo : Type := {
  pi_identity : string;
  pi_name : string;
  isLocal : bool;
  isSpeaking : bool;
  audioEnabled : bool;
  videoEnabled : bool;
  joinedAt : Z
}.

Record TransferRequest : Type := {
  targetAgentId : value;
  callSummary : value;
  roomId : value
}.

Definition TransferRequest_obj (request : TransferRequest) : value :=
  VObj [("targetAgentId", targetAgentId request);
        ("callSummary", callSummary request);
        ("roomId", roomId request)].

(** The sender of a data packet, as the SDK hands it to the listener. *)
Record RemoteParticipant : Type := { rp_identity : string }.

(** *** The listener of [RoomEvent.DataReceived] *)
Section DataReceived.

(** [new TextDecoder().decode] and [JSON.parse] are the platform's. *)
Context (decode : list Byte.byte -> string).
Context (JSON_parse : string -> settled exn value).
(** The state the registered callback works on. *)
Context {S : Type}.

(** What a run of the listener has done so far: the calls made to the
    transcript callback, the errors written with [console.error], and the
    state the callback works on. *)
Record Effects : Type := mkEffects {
  calls : list (value * value);
  logged : list exn;
  listener : S
}.

(** Synchronous code of the listener: it completes or throws, and what it
    did before it threw stays done. *)
Definition Sync (A : Type) : Type := Effects -> settled exn A * Effects.

Definition lift {A} (r : settled exn A) : Sync A := fun fx => (r, fx).

Definition sync_bind {A B} (m : Sync A) (k : A -> Sync B) : Sync B :=
  fun fx =>
    match m fx with
    | (Resolved a, fx') => k a fx'
    | (Rejected e, fx') => (Rejected e, fx')
    end.

(** [try { body } catch (error) { handler }] *)
Definition try_catch (body : Sync unit) (handler : exn -> Sync unit) : Sync unit :=
  fun fx =>
    match body fx with
    | (Resolved r, fx') => (Resolved r, fx')
    | (Rejected error, fx') => handler error fx'
    end.

Definition console_error (error : exn) : Sync unit :=
  fun fx => (Resolved tt, mkEffects (calls fx) (logged fx ++ [error]) (listener fx)).

(** The callback registered with [onTranscript]: it may change its state,
    and it may throw. *)
Definition TranscriptCallback : Type := value -> value -> S -> settled exn unit * S.

(** A call of the callback. *)
Definition call_back (callback : TranscriptCallback) (text speaker : value) : Sync unit :=
  fun fx =>
    let '(r, s') := callback text speaker (listener fx) in
    (r, mkEffects (calls fx ++ [(text, speaker)]) (logged fx) s').

(** The listener. With no callback registered, [?.] skips the call and the
    evaluation of its arguments. *)
Definition onDataReceived (onTranscriptUpdate : option TranscriptCallback)
    (payload : list Byte.byte) (participant : option RemoteParticipant) : Sync unit :=
  try_catch
    (sync_bind (lift (JSON_parse (decode payload))) (fun data =>
     sync_bind (lift (get_prop data "type")) (fun type =>
     if strict_eq type (VStr "transcript") then
       match onTranscriptUpdate with
       | Some callback =>
           sync_bind (lift (get_prop data "text")) (fun text =>
           let identity :=
             match participant with
             | Some p => VStr (rp_identity p)
             | None => VUndefined
             end in
           call_back callback text (or_else identity (VStr "Unknown")))
       | None => lift (Resolved tt)
       end
     else lift (Resolved tt))))
    console_error.

End DataReceived.

(** *** The stand-alone request functions at the end of livekit.ts *)
Section WithNetwork.

Context (net : Http.network).

Definition json_headers : list (string * string) := [("Content-Type", "application/json")].

Definition post (b : option json) : Http.RequestInit :=
  {| Http.method := Some "POST"; Http.headers := json_headers; Http.body := b |}.

Definition createRoom (roomName : value) : Http.Async value :=
  await! response <- Http.fetch net "/api/rooms/create"
                       (post (stringify (VObj [("roomName", roomName)])));
  Http.async_ret
    (if negb (Http.ok response)
     then Rejected (ErrorObj "Error" "Failed to create room")
     else Http.json response).

Definition getJoinToken (roomId identity name : value) : Http.Async value :=
  await! response <- Http.fetch net "/api/participants/token"
                       (post (stringify (VObj [("roomId", roomId);
                                               ("identity", identity);
                                               ("name", name)])));
  Http.async_ret
    (if negb (Http.ok response)
     then Rejected (ErrorObj "Error" "Failed to get join token")
     else try! data <- Http.json response; get_prop data "token").

Definition initiateTransfer (request : TransferRequest) : Http.Async value :=
  await! response <- Http.fetch net "/api/rooms/transfer"
                       (post (stringify (TransferRequest_obj request)));
  Http.async_ret
    (if negb (Http.ok response)
     then Rejected (ErrorObj "Error" "Failed to initiate transfer")
     else Http.json response).

Definition generateCallSummary (roomId : value) : Http.Async value :=
  await! response <- Http.fetch net ("/api/calls/" +:+ to_string roomId +:+ "/summary")
                       (post None);
  Http.async_ret
    (if negb (Http.ok response)
     then Rejected (ErrorObj "Error" "Failed to generate call summary")
     else Http.json response).

End WithNetwork.

End LiveKit.

(** ** White space and [String.prototype.trim]

    [s.trim()] removes from both ends of [s] the code points of WhiteSpace
    and LineTerminator of ECMAScript: U+0009 to U+000D, U+0020, U+00A0,
    U+1680, U+2000 to U+200A, U+2028, U+2029, U+202F, U+205F, U+3000 and
    U+FEFF. In UTF-8 the first six are one byte each, U+00A0 is the two
    bytes C2 A0 and the others are three bytes each. *)

Module Text.

Definition byte (c : ascii) : N := N_of_ascii c.

(** U+0009 to U+000D and U+0020. *)
Definition one_byte (c1 : ascii) : bool :=
  ((9 <=? byte c1) && (byte c1 <=? 13) || (byte c1 =? 32))%N.

(** U+00A0. *)
Definition two_bytes (c1 c2 : ascii) : bool :=
  ((byte c1 =? 0xC2) && (byte c2 =? 0xA0))%N.

(** U+1680 (E1 9A 80); U+2000 to U+200A, U+2028, U+2029 and U+202F
    (E2 80 80 to E2 80 8A, E2 80 A8, E2 80 A9, E2 80 AF); U+205F (E2 81 9F);
    U+3000 (E3 80 80); U+FEFF (EF BB BF). *)
Definition three_bytes (c1 c2 c3 : ascii) : bool :=
  ((byte c1 =? 0xE1) && (byte c2 =? 0x9A) && (byte c3 =? 0x80)
   || (byte c1 =? 0xE2) && (byte c2 =? 0x80)
      && ((0x80 <=? byte c3) && (byte c3 <=? 0x8A)
          || (byte c3 =? 0xA8) || (byte c3 =? 0xA9) || (byte c3 =? 0xAF))
   || (byte c1 =? 0xE2) && (byte c2 =? 0x81) && (byte c3 =? 0x9F)
   || (byte c1 =? 0xE3) && (byte c2 =? 0x80) && (byte c3 =? 0x80)
   || (byte c1 =? 0xEF) && (byte c2 =? 0xBB) && (byte c3 =? 0xBF))%N.

(** What follows the white space that [s] begins with, if it begins with
    one. *)
Definition skip (s : string) : option string :=
  match s with
  | String c1 r1 =>
      if one_byte c1 then Some r1
      else match r1 with
           | String c2 r2 =>
               if two_bytes c1 c2 then Some r2
               else match r2 with
                    | String c3 r3 => if three_bytes c1 c2 c3 then Some r3 else None
                    | EmptyString => None
                    end
           | EmptyString => None
           end
  | EmptyString => None
  end.

(** Whether [s] begins with a white space. *)
Definition head_space (s : string) : bool :=
  match skip s with
  | Some _ => true
  | None => false
  end.

(** Whether [s] is one white space. *)
Definition white (s : string) : bool :=
  match skip s with
  | Some EmptyString => true
  | _ => false
  end.

(** Whether [s] ends with a white space: one of its suffixes is one. *)
Fixpoint last_space (s : string) : bool :=
  match s with
  | EmptyString => false
  | String _ rest => white s || last_space rest
  end.

(** A string of white space only (the empty string is one). *)
Fixpoint all_space (s : string) : bool :=
  match s with
  | String c1 r1 =>
      if one_byte c1 then all_space r1
      else match r1 with
           | String c2 r2 =>
               if two_bytes c1 c2 then all_space r2
               else match r2 with
                    | String c3 r3 => three_bytes c1 c2 c3 && all_space r3
                    | EmptyString => false
                    end
           | EmptyString => false
           end
  | EmptyString => true
  end.

(** [s] without the white space it begins with. *)
Fixpoint trim_start (s : string) : string :=
  match s with
  | String c1 r1 =>
      if one_byte c1 then trim_start r1
      else match r1 with
           | String c2 r2 =>
               if two_bytes c1 c2 then trim_start r2
               else match r2 with
                    | String c3 r3 => if three_bytes c1 c2 c3 then trim_start r3 else s
                    | EmptyString => s
                    end
           | EmptyString => s
           end
  | EmptyString => s
  end.

(** [s] without the white space it ends with: without its longest suffix of
    white space. *)
Fixpoint trim_end (s : string) : string :=
  match s with
  | EmptyString => EmptyString
  | String c rest => if all_space s then EmptyString else String c (trim_end rest)
  end.

(** A string from the numbers of its bytes. *)
Definition of_bytes (bytes : list N) : string :=
  fold_right (fun b s => String (ascii_of_N b) s) EmptyString bytes.

End Text.

(** ** useLiveKit.ts *)

Module Hook.

Record Entry : Type := { speaker : value; text : value; timestamp : Z }.

(** Web Speech API results, as far as [onresult] reads them. *)
Record SpeechRecognitionAlternative : Type := { alt_transcript : string }.

Record SpeechRecognitionResult : Type := {
  alternatives : list SpeechRecognitionAlternative;
  isFinal : bool
}.

Record SpeechRecognitionEvent : Type := {
  results : list SpeechRecognitionResult;
  resultIndex : nat
}.

Record Options : Type := {
  opt_roomId : value;
  opt_identity : value;
  opt_name : value;
  opt_autoConnect : bool
}.

(** The [useState] cells of the hook, and whether [managerRef.current] is
    set. [error], [actualRoomId] and [transferError] hold [VNull] or the
    value stored last. *)
Record State : Type := mkState {
  manager : bool;
  isConnected : bool;
  isConnecting : bool;
  error : value;
  actualRoomId : value;
  participants : list LiveKit.ParticipantInfo;
  isMicrophoneEnabled : bool;
  isCameraEnabled : bool;
  isScreenSharing : bool;
  transcript : list Entry;
  isTransferring : bool;
  transferError : value;
  isTranscribing : bool
}.

Definition initial : State :=
  mkState false false false VNull VNull [] false false false [] false VNull false.

Definition setManager (x : bool) (s : State) : State :=
  mkState x (isConnected s) (isConnecting s) (error s) (actualRoomId s) (participants s)
    (isMicrophoneEnabled s) (isCameraEnabled s) (isScreenSharing s) (transcript s)
    (isTransferring s) (transferError s) (isTranscribing s).
Definition setIsConnected (x : bool) (s : State) : State :=
  mkState (manager s) x (isConnecting s) (error s) (actualRoomId s) (participants s)
    (isMicrophoneEnabled s) (isCameraEnabled s) (isScreenSharing s) (transcript s)
    (isTransferring s) (transferError s) (isTranscribing s).
Definition setIsConnecting (x : bool) (s : State) : State :=
  mkState (manager s) (isConnected s) x (error s) (actualRoomId s) (participants s)
    (isMicrophoneEnabled s) (isCameraEnabled s) (isScreenSharing s) (transcript s)
    (isTransferring s) (transferError s) (isTranscribing s).
Definition setError (x : value) (s : State) : State :=
  mkState (manager s) (isConnected s) (isConnecting s) x (actualRoomId s) (participants s)
    (isMicrophoneEnabled s) (isCameraEnabled s) (isScreenSharing s) (transcript s)
    (isTransferring s) (transferError s) (isTranscribing s).
Definition setActualRoomId (x : value) (s : State) : State :=
  mkState (manager s) (isConnected s) (isConnecting s) (error s) x (participants s)
    (isMicrophoneEnabled s) (isCameraEnabled s) (isScreenSharing s) (transcript s)
    (isTransferring s) (transferError s) (isTranscribing s).
Definition setParticipants (x : list LiveKit.ParticipantInfo) (s : State) : State :=
  mkState (manager s) (isConnected s) (isConnecting s) (error s) (actualRoomId s) x
    (isMicrophoneEnabled s) (isCameraEnabled s) (isScreenSharing s) (transcript s)
    (isTransferring s) (transferError s) (isTranscribing s).
Definition setIsMicrophoneEnabled (x : bool) (s : State) : State :=
  mkState (manager s) (isConnected s) (isConnecting s) (error s) (actualRoomId s) (participants s)
    x (isCameraEnabled s) (isScreenSharing s) (transcript s)
    (isTransferring s) (transferError s) (isTranscribing s).
Definition setIsCameraEnabled (x : bool) (s : State) : State :=
  mkState (manager s) (isConnected s) (isConnecting s) (error s) (actualRoomId s) (participants s)
    (isMicrophoneEnabled s) x (isScreenSharing s) (transcript s)
    (isTransferring s) (transferError s) (isTranscribing s).
Definition setIsScreenSharing (x : bool) (s : State) : State :=
  mkState (manager s) (isConnected s) (isConnecting s) (error s) (actualRoomId s) (participants s)
    (isMicrophoneEnabled s) (isCameraEnabled s) x (transcript s)
    (isTransferring s) (transferError s) (isTranscribing s).
(** [setTranscript(prev => f(prev))] *)
Definition setTranscript (f : list Entry -> list Entry) (s : State) : State :=
  mkState (manager s) (isConnected s) (isConnecting s) (error s) (actualRoomId s) (participants s)
    (isMicrophoneEnabled s) (isCameraEnabled s) (isScreenSharing s) (f (transcript s))
    (isTransferring s) (transferError s) (isTranscribing s).
Definition setIsTransferring (x : bool) (s : State) : State :=
  mkState (manager s) (isConnected s) (isConnecting s) (error s) (actualRoomId s) (participants s)
    (isMicrophoneEnabled s) (isCameraEnabled s) (isScreenSharing s) (transcript s)
    x (transferError s) (isTranscribing s).
Definition setTransferError (x : value) (s : State) : State :=
  mkState (manager s) (isConnected s) (isConnecting s) (error s) (actualRoomId s) (participants s)
    (isMicrophoneEnabled s) (isCameraEnabled s) (isScreenSharing s) (transcript s)
    (isTransferring s) x (isTranscribing s).
Definition setIsTranscribing (x : bool) (s : State) : State :=
  mkState (manager s) (isConnected s) (isConnecting s) (error s) (actualRoomId s) (participants s)
    (isMicrophoneEnabled s) (isCameraEnabled s) (isScreenSharing s) (transcript s)
    (isTransferring s) (transferError s) x.

(** An action of the hook: it reads and writes the state cells, may issue
    requests, and settles. *)
Definition Action (A : Type) : Type :=
  State -> list Http.Request -> settled exn A * State * list Http.Request.

(** [err instanceof Error ? err.message : fallback] *)
Definition error_text (err : exn) (fallback : string) : value :=
  if instanceof_Error err then exn_message err else VStr fallback.

(** [s.trim()] *)
Definition trim (s : string) : string := Text.trim_end (Text.trim_start s).

(** The loop of [onresult]: the transcripts of the final results, joined.
    [result[0]] of a result without alternatives is [undefined], and reading
    its [transcript] throws. *)
Fixpoint final_text (rs : list SpeechRecognitionResult) (finalTranscript : string)
  : settled exn string :=
  match rs with
  | [] => Resolved finalTranscript
  | result :: rest =>
      match alternatives result with
      | [] => Rejected (ErrorObj "TypeError" "Cannot read properties of undefined (reading 'transcript')")
      | alt :: _ =>
          final_text rest
            (if isFinal result then finalTranscript +:+ alt_transcript alt else finalTranscript)
      end
  end.

Section WithEnvironment.

Context (net : Http.network) (baseUrl : string).
(** What [managerRef.current.connect(config)] settles to. *)
Context (manager_connect : LiveKit.LiveKitConfig -> settled exn unit).
Context (decode : list Byte.byte -> string) (JSON_parse : string -> settled exn value).
Context (options : Options).

(** The first effect: the manager is created and the listeners are set. *)
Definition mount (s : State) : State := setManager true s.

Definition onConnectionChanged (connected : bool) (s : State) : State :=
  let s := setIsConnecting false (setIsConnected connected s) in
  if negb connected then setError VNull s else s.

Definition onParticipantsChanged (participantList : list LiveKit.ParticipantInfo) (s : State) : State :=
  setParticipants participantList s.

(** The callback given to [onTranscript]; [now] is [new Date()]. *)
Definition onTranscript (now : Z) : LiveKit.TranscriptCallback (S := State) :=
  fun text speaker s =>
    (Resolved tt,
     setTranscript (fun prev => prev ++ [{| speaker := speaker; text := text; timestamp := now |}]) s).

(** A data packet arrives: the manager's listener runs with the hook's
    callback, which is registered from the first effect on. *)
Definition onData (now : Z) (payload : list Byte.byte)
    (participant : option LiveKit.RemoteParticipant) (s : State) : State :=
  LiveKit.listener
    (LiveKit.onDataReceived decode JSON_parse
       (if manager s then Some (onTranscript now) else None) payload participant
       (LiveKit.mkEffects [] [] s)).2.

Definition connect (config : LiveKit.LiveKitConfig) (s : State) : State :=
  if negb (manager s) then s
  else
    let s := setError VNull (setIsConnecting true s) in
    match manager_connect config with
    | Resolved _ => s
    | Rejected err => setIsConnecting false (setError (error_text err "Connection failed") s)
    end.

Definition handleAutoConnect : Action unit := fun s log =>
  let roomId := opt_roomId options in
  let identity := opt_identity options in
  let name := opt_name options in
  if negb (truthy roomId) || negb (truthy identity) || negb (truthy name)
  then (Resolved tt, s, log)
  else
    let s := setError VNull (setIsConnecting true s) in
    let failed (err : exn) (s : State) : State :=
      setIsConnecting false
        (setError (or_else (exn_message err) (VStr "Failed to auto-connect")) s) in
    match Api.participants_getToken net baseUrl roomId identity name VUndefined log with
    | (Resolved response, log) =>
        match get_prop response "room_id" with
        | Resolved room_id =>
            let s := setActualRoomId room_id s in
            let config := {| LiveKit.cfg_url := get_prop_opt response "url";
                             LiveKit.cfg_token := get_prop_opt response "token" |} in
            (Resolved tt, connect config s, log)
        | Rejected err => (Resolved tt, failed err s, log)
        end
    | (Rejected err, log) => (Resolved tt, failed err s, log)
    end.

(** [outcome] is what [managerRef.current.disconnect()] settled to. *)
Definition disconnect (outcome : settled exn unit) (s : State) : State :=
  if negb (manager s) then s
  else
    match outcome with
    | Resolved _ => setTranscript (fun _ => []) s
    | Rejected err => setError (error_text err "Disconnect failed") s
    end.

Definition toggleMicrophone (outcome : settled exn unit) (s : State) : State :=
  if negb (manager s) then s
  else
    let newState := negb (isMicrophoneEnabled s) in
    match outcome with
    | Resolved _ => setIsMicrophoneEnabled newState s
    | Rejected err => setError (error_text err "Failed to toggle microphone") s
    end.

Definition toggleCamera (outcome : settled exn unit) (s : State) : State :=
  if negb (manager s) then s
  else
    let newState := negb (isCameraEnabled s) in
    match outcome with
    | Resolved _ => setIsCameraEnabled newState s
    | Rejected err => setError (error_text err "Failed to toggle camera") s
    end.

Definition toggleScreenShare (outcome : settled exn unit) (s : State) : State :=
  if negb (manager s) then s
  else
    let newState := negb (isScreenSharing s) in
    match outcome with
    | Resolved _ => setIsScreenSharing newState s
    | Rejected err => setError (error_text err "Failed to toggle screen share") s
    end.

Definition initiateTransfer (targetAgentId : value) : Action value := fun s log =>
  if negb (manager s) || negb (truthy (actualRoomId s))
  then (Rejected (ErrorObj "Error" "Not connected to a room"), s, log)
  else
    let s := setTransferError VNull (setIsTransferring true s) in
    match Api.rooms_transfer net baseUrl targetAgentId (actualRoomId s) VUndefined log with
    | (Resolved response, log) =>
        (Resolved response, setIsTransferring false s, log)
    | (Rejected err, log) =>
        let errorMessage := or_else (exn_message err) (VStr "Transfer failed") in
        (Rejected (ErrorObj "Error" (to_string errorMessage)),
         setIsTransferring false (setTransferError errorMessage s), log)
    end.

Definition generateSummary : Action value := fun s log =>
  if negb (truthy (actualRoomId s))
  then (Rejected (ErrorObj "Error" "No active room"), s, log)
  else
    match Api.calls_getSummary net baseUrl (actualRoomId s) log with
    | (Resolved response, log) => (Resolved response, s, log)
    | (Rejected err, log) =>
        let errorMessage := or_else (exn_message err) (VStr "Summary generation failed") in
        (Rejected (ErrorObj "Error" (to_string errorMessage)), s, log)
    end.

Definition recognition_onstart (s : State) : State := setIsTranscribing true s.
Definition recognition_onend (s : State) : State := setIsTranscribing false s.
Definition recognition_onerror (s : State) : State := setIsTranscribing false s.

(** [recognition.onresult]; a handler that throws leaves the state as it
    was. *)
Definition recognition_onresult (now : Z) (event : SpeechRecognitionEvent) (s : State) : State :=
  match final_text (drop (resultIndex event) (results event)) "" with
  | Resolved finalTranscript =>
      if truthy (VStr finalTranscript) then
        let newEntry := {| speaker := or_else (opt_identity options) (VStr "You");
                           text := VStr (trim finalTranscript);
                           timestamp := now |} in
        setTranscript (fun prev => prev ++ [newEntry]) s
      else s
  | Rejected _ => s
  end.

(** Everything that can happen to a mounted hook. *)
Inductive Event : Type :=
  | ConnectionChanged (connected : bool)
  | ParticipantsChanged (participantList : list LiveKit.ParticipantInfo)
  | DataReceived (now : Z) (payload : list Byte.byte) (participant : option LiveKit.RemoteParticipant)
  | Connect (config : LiveKit.LiveKitConfig)
  | AutoConnect
  | Disconnect (outcome : settled exn unit)
  | ToggleMicrophone (outcome : settled exn unit)
  | ToggleCamera (outcome : settled exn unit)
  | ToggleScreenShare (outcome : settled exn unit)
  | InitiateTransfer (targetAgentId : value)
  | GenerateSummary
  | RecognitionStart
  | RecognitionEnd
  | RecognitionError
  | RecognitionResult (now : Z) (event : SpeechRecognitionEvent).

Definition step (ev : Event) (sl : State * list Http.Request) : State * list Http.Request :=
  let '(s, log) := sl in
  match ev with
  | ConnectionChanged connected => (onConnectionChanged connected s, log)
  | ParticipantsChanged l => (onParticipantsChanged l s, log)
  | DataReceived now payload participant => (onData now payload participant s, log)
  | Connect config => (connect config s, log)
  | AutoConnect => let '(_, s', log') := handleAutoConnect s log in (s', log')
  | Disconnect outcome => (disconnect outcome s, log)
  | ToggleMicrophone outcome => (toggleMicrophone outcome s, log)
  | ToggleCamera outcome => (toggleCamera outcome s, log)
  | ToggleScreenShare outcome => (toggleScreenShare outcome s, log)
  | InitiateTransfer targetAgentId =>
      let '(_, s', log') := initiateTransfer targetAgentId s log in (s', log')
  | GenerateSummary => let '(_, s', log') := generateSummary s log in (s', log')
  | RecognitionStart => (recognition_onstart s, log)
  | RecognitionEnd => (recognition_onend s, log)
  | RecognitionError => (recognition_onerror s, log)
  | RecognitionResult now event => (recognition_onresult now event s, log)
  end.

End WithEnvironment.

End Hook.

(** ** The transfer registry of the orchestrator

    The orchestrator (the back end) is not among the client sources; the
    client only calls it through [ApiClient.transferCall]. Its registry of
    transfers is modelled from the specification. The per-room mutual
    exclusion of the specification makes every operation on a room atomic, so
    that operations racing on a room run one after the other, in the order in
    which they take the room's lock. *)

Module Registry.

(** Modelled from the spec: the states of a Transfer, section 4.5; the
    orchestrator's code is missing from the sources. *)
Inductive TransferState : Type :=
  | Active | ConsultPending | ConsultReady | SummaryPending
  | SummaryReady | SummaryUnavailable | Consulting | Completing
  | Completed | Cancelled | Failed.

(** Modelled from the spec: "terminals Completed, Failed, Cancelled";
    the state machine's code is missing. *)
Definition terminal (st : TransferState) : bool :=
  match st with
  | Completed | Cancelled | Failed => true
  | _ => false
  end.

(** Modelled from the spec: the column "Next states" of the table of
    section 4.5; the state machine's code is missing. *)
Definition next_states (st : TransferState) : list TransferState :=
  match st with
  | Active => [ConsultPending]
  | ConsultPending => [ConsultReady; Failed]
  | ConsultReady => [SummaryPending]
  | SummaryPending => [SummaryReady; SummaryUnavailable]
  | SummaryReady | SummaryUnavailable => [Consulting]
  | Consulting => [Completing; Cancelled]
  | Completing => [Completed; Failed]
  | Completed | Cancelled | Failed => []
  end.

(** Modelled from the spec: cancellation "is only honored while the
    Transfer is in ConsultPending through Consulting"; the state machine's
    code is missing. *)
Definition cancellable (st : TransferState) : bool :=
  match st with
  | ConsultPending | ConsultReady | SummaryPending
  | SummaryReady | SummaryUnavailable | Consulting => true
  | _ => false
  end.

#[global] Instance TransferState_eq_dec : EqDecision TransferState.
Proof. solve_decision. Defined.

(** Modelled from the spec: the Transfer record of section 3, without its
    time stamps; the orchestrator's code is missing. *)
Record Transfer : Type := mkTransfer {
  source_room : string;
  consult_room : option string;
  initiator : string;
  target : string;
  caller : string;
  state : TransferState;
  summary : option string;
  failure_reason : option string
}.

Definition with_state (st : TransferState) (reason : option string) (t : Transfer) : Transfer :=
  mkTransfer (source_room t) (consult_room t) (initiator t) (target t) (caller t)
    st (summary t) reason.

(** Modelled from the spec: the transfers, by id, and the next unused id
    ("id (unique)"); the registry's code is missing. *)
Record Registry : Type := mkRegistry {
  transfers : gmap nat Transfer;
  next_id : nat
}.

Definition empty : Registry := mkRegistry ∅ 0%nat.

(** Modelled from the spec: the errors of section 7 that the transfer
    state machine reports; its code is missing. *)
Inductive Error : Type :=
  | TransferConflict
  | TransferNotFound
  | InvalidTransition
  | TooLateToCancel.

(** A transfer of the room that is in a non-terminal state. *)
Definition in_flight (room : string) (t : Transfer) : Prop :=
  source_room t = room ∧ terminal (state t) = false.

#[global] Instance in_flight_dec room t : Decision (in_flight room t).
Proof. unfold in_flight. apply _. Defined.

Definition busy (room : string) (reg : Registry) : bool :=
  bool_decide (map_Exists (fun _ t => in_flight room t) (transfers reg)).

(** Modelled from the spec: "entry to ConsultPending is rejected with
    TransferConflict if the source room already has a non-terminal
    Transfer"; an accepted call creates the Transfer and returns its id.
    The orchestrator's code is missing. *)
Definition initiate (room agent target_agent caller_id : string) (reg : Registry)
  : settled Error nat * Registry :=
  if busy room reg then (Rejected TransferConflict, reg)
  else
    let id := next_id reg in
    let t := mkTransfer room None agent target_agent caller_id ConsultPending None None in
    (Resolved id, mkRegistry (<[id := t]> (transfers reg)) (S id)).

(** Modelled from the spec: a transition of the table of section 4.5; the
    state machine's code is missing. *)
Definition advance (id : nat) (to : TransferState) (reg : Registry)
  : settled Error unit * Registry :=
  match transfers reg !! id with
  | None => (Rejected TransferNotFound, reg)
  | Some t =>
      if bool_decide (to ∈ next_states (state t))
      then (Resolved tt, mkRegistry (<[id := with_state to (failure_reason t) t]> (transfers reg)) (next_id reg))
      else (Rejected InvalidTransition, reg)
  end.

(** Modelled from the spec: cooperative cancellation, rejected with
    TooLateToCancel once Completing has started; the state machine's code
    is missing. *)
Definition cancel (id : nat) (reg : Registry) : settled Error unit * Registry :=
  match transfers reg !! id with
  | None => (Rejected TransferNotFound, reg)
  | Some t =>
      if cancellable (state t)
      then (Resolved tt, mkRegistry (<[id := with_state Cancelled (failure_reason t) t]> (transfers reg)) (next_id reg))
      else if terminal (state t) then (Rejected InvalidTransition, reg)
      else (Rejected TooLateToCancel, reg)
  end.

(** Modelled from the spec: "any step exhausting retries transitions the
    Transfer to Failed"; the state machine's code is missing. *)
Definition fail (id : nat) (reason : string) (reg : Registry) : settled Error unit * Registry :=
  match transfers reg !! id with
  | None => (Rejected TransferNotFound, reg)
  | Some t =>
      if terminal (state t) then (Rejected InvalidTransition, reg)
      else (Resolved tt, mkRegistry (<[id := with_state Failed (Some reason) t]> (transfers reg)) (next_id reg))
  end.

(** Modelled from the spec: the requests of section 4.5 that the registry
    serves; the orchestrator's code is missing. *)
Inductive Op : Type :=
  | Initiate (room agent target_agent caller_id : string)
  | Advance (id : nat) (to : TransferState)
  | Cancel (id : nat)
  | MarkFailed (id : nat) (reason : string).

Definition apply (op : Op) (reg : Registry) : Registry :=
  match op with
  | Initiate room agent target_agent caller_id => (initiate room agent target_agent caller_id reg).2
  | Advance id to => (advance id to reg).2
  | Cancel id => (cancel id reg).2
  | MarkFailed id reason => (fail id reason reg).2
  end.

(** The registry after a history of requests, oldest first. *)
Definition run (ops : list Op) (reg : Registry) : Registry :=
  fold_left (fun r op => apply op r) ops reg.

(** Modelled from the spec: "all operations that read or mutate a given
    room id are serialized" (section 5), so [initiate] calls that race on
    one room run in the order in which they take the room's lock; the
    orchestrator's code is missing. What each call receives, and the
    registry afterwards. *)
Fixpoint race (room : string) (calls : list (string * string * string)) (reg : Registry)
  : list (settled Error nat) * Registry :=
  match calls with
  | [] => ([], reg)
  | (agent, target_agent, caller_id) :: rest =>
      let '(r, reg') := initiate room agent target_agent caller_id reg in
      let '(rs, reg'') := race room rest reg' in
      (r :: rs, reg'')
  end.

(** At most one transfer of each source room is in a non-terminal state. *)
Definition at_most_one (reg : Registry) : Prop :=
  ∀ i j ti tj,
    transfers reg !! i = Some ti → transfers reg !! j = Some tj →
    source_room ti = source_room tj →
    terminal (state ti) = false → terminal (state tj) = false →
    i = j.

Definition ids_below (reg : Registry) : Prop :=
  ∀ i t, transfers reg !! i = Some t → (i < next_id reg)%nat.

Definition well_formed (reg : Registry) : Prop := at_most_one reg ∧ ids_below reg.

End Registry.

(** ** Vocabulary of the specification *)

Module Spec.

(** The request that [ApiClient.request] hands to [fetch]: the endpoint
    appended to the base URL, the JSON content type unless the caller set
    its own, method and body as given. *)
Definition api_request (baseUrl endpoint : string) (method : option string) (body : option json)
  : Http.Request :=
  {| Http.url := baseUrl +:+ endpoint;
     Http.init := {| Http.method := method;
                     Http.headers := [("Content-Type", "application/json")];
                     Http.body := body |} |}.

(** The request the stand-alone functions of livekit.ts hand to [fetch]:
    a POST to a path relative to the page. *)
Definition page_post (path : string) (body : option json) : Http.Request :=
  {| Http.url := path;
     Http.init := {| Http.method := Some "POST";
                     Http.headers := [("Content-Type", "application/json")];
                     Http.body := body |} |}.

Definition default_message (response : Http.Response) : string :=
  "HTTP " +:+ pretty (Http.status response) +:+ ": " +:+ Http.statusText response.

(** A field of a response body that counts: present and not falsy. *)
Definition field (k : string) (fields : list (string * value)) : option value :=
  match assoc k fields with
  | Some v => if truthy v then Some v else None
  | None => None
  end.

(** The message of the error for a response that is not ok: the body's
    [detail], else its [message], else the default text. *)
Definition error_message (response : Http.Response) : value :=
  match Http.json response with
  | Resolved (VObj fields) =>
      match field "detail" fields with
      | Some d => d
      | None =>
          match field "message" fields with
          | Some m => m
          | None => VStr (default_message response)
          end
      end
  | _ => VStr (default_message response)
  end.

Definition is_json (response : Http.Response) : bool :=
  match Http.content_type response with
  | Some ct => includes "application/json" ct
  | None => false
  end.

(** The details of that error: the parsed body, when there is one. *)
Definition error_details (response : Http.Response) : value :=
  match Http.json response with
  | Resolved VNull | Resolved VUndefined | Rejected _ => VUndefined
  | Resolved data => data
  end.

(** What the client makes of a response: an error that carries the status
    code when the response is not ok, the parsed body of a JSON response,
    an empty object otherwise. *)
Definition respond (response : Http.Response) : settled exn value :=
  if Http.ok response then
    if is_json response then Http.json response else Resolved (VObj [])
  else
    Rejected (ApiErr {| message := error_message response;
                        status := Http.status response;
                        details := error_details response |}).

(** What a request settles to when it is sent once, after the requests of
    [log]: a failure of the network is passed on as it is. *)
Definition answer (net : Http.network) (log : list Http.Request) (req : Http.Request)
  : settled exn value :=
  match net log req with
  | Resolved response => respond response
  | Rejected err => Rejected err
  end.


(** A room as the listing endpoint returns it. *)
Record Room : Type := {
  room_id : string;
  room_name : string;
  room_type : string;
  created_at : string;
  room_participants : list value;
  is_active : bool;
  metadata : value
}.

Definition Room_value (r : Room) : value :=
  VObj [("room_id", VStr (room_id r));
        ("room_name", VStr (room_name r));
        ("room_type", VStr (room_type r));
        ("created_at", VStr (created_at r));
        ("participants", VArr (room_participants r));
        ("is_active", VBool (is_active r));
        ("metadata", metadata r)].

(** The rooms a search for the name [n] may return. *)
Definition named_active (n : string) (r : Room) : Prop :=
  room_name r = n ∧ is_active r = true.

(** The listing endpoint answered with these rooms. *)
Definition lists_rooms (net : Http.network) (baseUrl : string) (log : list Http.Request)
    (rooms : list Room) : Prop :=
  ∃ response,
    net log (api_request baseUrl "/api/rooms/" None None) = Resolved response
    ∧ Http.ok response = true
    ∧ is_json response = true
    ∧ Http.json response = Resolved (VArr (map Room_value rooms)).

(** The transfer endpoint's answer. *)
Record TransferResponse : Type := {
  consultRoomId : string;
  consultToken : string;
  transferId : string;
  transfer_status : string
}.

Definition TransferResponse_value (r : TransferResponse) : value :=
  VObj [("consultRoomId", VStr (consultRoomId r));
        ("consultToken", VStr (consultToken r));
        ("transferId", VStr (transferId r));
        ("status", VStr (transfer_status r))].

(** The token endpoint's answer. *)
Record TokenResponse : Type := {
  token : string;
  token_url : string;
  token_room_id : string;
  token_identity : string;
  expires_at : string
}.

Definition TokenResponse_value (r : TokenResponse) : value :=
  VObj [("token", VStr (token r));
        ("url", VStr (token_url r));
        ("room_id", VStr (token_room_id r));
        ("identity", VStr (token_identity r));
        ("expires_at", VStr (expires_at r))].

(** A successful JSON answer carrying [v]. *)
Definition success (v : value) : Http.Response :=
  {| Http.ok := true; Http.status := 200; Http.statusText := "OK";
     Http.content_type := Some "application/json"; Http.json := Resolved v |}.

(** A network that answers every request with the same response. *)
Definition always (response : Http.Response) : Http.network :=
  fun _ _ => Resolved response.

(** The members of a JSON body for an optional string field. *)
Definition optional_member (k : string) (o : option string) : list (string * json) :=
  match o with
  | Some s => [(k, JStr s)]
  | None => []
  end.

(** The members of a JSON body for a field of any type, left out when it is
    [undefined]. *)
Definition any_member (k : string) (v : value) : list (string * json) :=
  match stringify v with
  | Some j => [(k, j)]
  | None => []
  end.

(** The body of a transfer request, as the endpoint takes it. *)
Definition transfer_body (roomId targetAgentId : string) (callSummary : option string) : json :=
  JObj ([("room_id", JStr roomId); ("target_agent_id", JStr targetAgentId)]
        ++ optional_member "call_summary" callSummary).

Definition transfer_request (baseUrl roomId targetAgentId : string) (callSummary : option string)
  : Http.Request :=
  api_request baseUrl "/api/rooms/transfer" (Some "POST")
    (Some (transfer_body roomId targetAgentId callSummary)).

(** The body of a token request, as the endpoint takes it. *)
Definition token_body (roomId identity name : string) (role : option string) (meta : value) : json :=
  JObj ([("room_id", JStr roomId); ("identity", JStr identity); ("name", JStr name)]
        ++ optional_member "role" role ++ any_member "metadata" meta).

Definition token_request (baseUrl roomId identity name : string) (role : option string)
    (meta : value) : Http.Request :=
  api_request baseUrl "/api/participants/token" (Some "POST")
    (Some (token_body roomId identity name role meta)).


  (** The text of a transcript message: the payload parsed to a value whose
    [type] is 'transcript'; the text is its [text]. *)
Definition transcript_text (parsed : settled exn value) : option value :=
  match parsed with
  | Resolved (VObj fields) =>
      if strict_eq (default VUndefined (assoc "type" fields)) (VStr "transcript")
      then Some (default VUndefined (assoc "text" fields))
      else None
  | _ => None
  end.

(** The speaker of a data packet: the sender's identity, 'Unknown' for a
    packet without sender (and for an identity that is empty). *)
Definition speaker_of (participant : option LiveKit.RemoteParticipant) : value :=
  match participant with
  | Some p =>
      if decide (LiveKit.rp_identity p = ""%string) then VStr "Unknown"
      else VStr (LiveKit.rp_identity p)
  | None => VStr "Unknown"
  end.

End Spec.

(** Sample data for the concrete instances below. *)
Module Sample.

Definition base : string := "http://localhost:8000".

Definition closed_room : Spec.Room :=
  {| Spec.room_id := "room-1"; Spec.room_name := "call-123"; Spec.room_type := "call";
     Spec.created_at := "2025-01-01T10:00:00Z"; Spec.room_participants := [];
     Spec.is_active := false; Spec.metadata := VNull |}.

Definition open_room : Spec.Room :=
  {| Spec.room_id := "room-2"; Spec.room_name := "call-123"; Spec.room_type := "call";
     Spec.created_at := "2025-01-02T10:00:00Z"; Spec.room_participants := [];
     Spec.is_active := true; Spec.metadata := VNull |}.

Definition other_room : Spec.Room :=
  {| Spec.room_id := "room-3"; Spec.room_name := "call-456"; Spec.room_type := "call";
     Spec.created_at := "2025-01-03T10:00:00Z"; Spec.room_participants := [];
     Spec.is_active := true; Spec.metadata := VNull |}.

Definition rooms : list Spec.Room := [closed_room; other_room; open_room].

Definition token_response : Spec.TokenResponse :=
  {| Spec.token := "jwt"; Spec.token_url := "wss://livekit.example";
     Spec.token_room_id := "room-2"; Spec.token_identity := "alice";
     Spec.expires_at := "2025-01-02T11:00:00Z" |}.

Definition transfer_response : Spec.TransferResponse :=
  {| Spec.consultRoomId := "consult-1"; Spec.consultToken := "jwt-consult";
     Spec.transferId := "transfer-1"; Spec.transfer_status := "consult_pending" |}.

(** A server that is down for maintenance. *)
Definition unavailable : Http.Response :=
  {| Http.ok := false; Http.status := 503; Http.statusText := "Service Unavailable";
     Http.content_type := Some "text/html";
     Http.json := Rejected (ErrorObj "SyntaxError" "Unexpected token < in JSON at position 0") |}.

(** A final speech-recognition result with one alternative. *)
Definition final (t : string) : Hook.SpeechRecognitionResult :=
  {| Hook.alternatives := [{| Hook.alt_transcript := t |}]; Hook.isFinal := true |}.



Definition anonymous : Hook.Options :=
  {| Hook.opt_roomId := VUndefined; Hook.opt_identity := VUndefined;
     Hook.opt_name := VUndefined; Hook.opt_autoConnect := false |}.

(** Stand-ins for the platform's decoder and parser: every packet is read
    as a transcript message whose text is the packet's bytes. *)
Definition decode (payload : list Byte.byte) : string := string_of_list_byte payload.

Definition parse (s : string) : settled exn value :=
  Resolved (VObj [("type", VStr "transcript"); ("text", VStr s)]).

Definition agent_a : LiveKit.RemoteParticipant := {| LiveKit.rp_identity := "agent-a" |}.

(** A hook without options, on a network whose server is down. *)
Definition after (ev : Hook.Event) (s : Hook.State) : Hook.State :=
  (Hook.step (Spec.always unavailable) base (fun _ => Resolved tt) decode parse
     anonymous ev (s, [])).1.



(** A registry in which the one transfer of room-1 has failed. *)
Definition history : list Registry.Op :=
  [Registry.Initiate "room-1" "agent-a" "agent-b" "caller-1";
   Registry.MarkFailed 0 "consult room could not be created";
   Registry.Initiate "room-2" "agent-c" "agent-d" "caller-2"].

Definition racing_calls : list (string * string * string) :=
  [("agent-a", "agent-b", "caller-1"); ("agent-a", "agent-e", "caller-1")]%string.

End Sample.

(** ** livekit.ts: the manager of a room *)

Module Manager.

(** A participant object of the SDK, as far as the manager reads it.
    [sdk_name] and [sdk_joinedAt] may be [undefined]; [sdk_local] is
    [participant instanceof LocalParticipant]. *)
Record SdkParticipant : Type := {
  sdk_identity : string;
  sdk_name : option string;
  sdk_local : bool;
  sdk_microphone : bool;
  sdk_camera : bool;
  sdk_joinedAt : option Z
}.

(** The fields of the class. [participants] is the [Map], in insertion
    order; the callbacks are kept as whether one is registered, and a call of
    a callback is a notification. The [room] is set by the constructor and
    never unset, so the tests [if (!this.room)] never fire. *)
Record State : Type := mkState {
  isConnected : bool;
  participants : list (string * LiveKit.ParticipantInfo);
  onParticipantUpdate : bool;
  onConnectionStateChange : bool
}.

Inductive Notification : Type :=
  | ParticipantUpdate (participantList : list LiveKit.ParticipantInfo)
  | ConnectionStateChange (connected : bool).

(** A data packet handed to [publishData]. *)
Record Packet : Type := { packet_payload : list Byte.byte; packet_reliable : bool }.

(** [new LiveKitManager()] *)
Definition create : State := mkState false [] false false.

(** [Array.from(this.participants.values())] *)
Definition participantList (st : State) : list LiveKit.ParticipantInfo :=
  map snd (participants st).

Definition with_participants (ps : list (string * LiveKit.ParticipantInfo)) (st : State) : State :=
  mkState (isConnected st) ps (onParticipantUpdate st) (onConnectionStateChange st).

Definition with_isConnected (connected : bool) (st : State) : State :=
  mkState connected (participants st) (onParticipantUpdate st) (onConnectionStateChange st).

Definition notifyParticipantUpdate (st : State) : list Notification :=
  if onParticipantUpdate st then [ParticipantUpdate (participantList st)] else [].

(** [name || identity] for a name that may be [undefined]. *)
Definition display_name (participant : SdkParticipant) : string :=
  match sdk_name participant with
  | Some n => if String.eqb n "" then sdk_identity participant else n
  | None => sdk_identity participant
  end.

(** [updateParticipantInfo]; [now] is [Date.now()]. *)
Definition updateParticipantInfo (now : Z) (participant : SdkParticipant) (st : State)
  : State * list Notification :=
  let info :=
    {| LiveKit.pi_identity := sdk_identity participant;
       LiveKit.pi_name := display_name participant;
       LiveKit.isLocal := sdk_local participant;
       LiveKit.isSpeaking := false;
       LiveKit.audioEnabled := sdk_microphone participant;
       LiveKit.videoEnabled := sdk_camera participant;
       LiveKit.joinedAt := default now (sdk_joinedAt participant) |} in
  let st := with_participants (set_prop (sdk_identity participant) info (participants st)) st in
  (st, notifyParticipantUpdate st).

(** [this.participants.delete(identity)] *)
Definition map_delete {V : Type} (k : string) (ps : list (string * V)) : list (string * V) :=
  filter (fun kv => kv.1 ≠ k) ps.

Definition set_isSpeaking (speaking : bool) (info : LiveKit.ParticipantInfo) : LiveKit.ParticipantInfo :=
  {| LiveKit.pi_identity := LiveKit.pi_identity info;
     LiveKit.pi_name := LiveKit.pi_name info;
     LiveKit.isLocal := LiveKit.isLocal info;
     LiveKit.isSpeaking := speaking;
     LiveKit.audioEnabled := LiveKit.audioEnabled info;
     LiveKit.videoEnabled := LiveKit.videoEnabled info;
     LiveKit.joinedAt := LiveKit.joinedAt info |}.

(** [speakers.some(speaker => speaker.identity === identity)] *)
Definition some_speaker (speakers : list SdkParticipant) (identity : string) : bool :=
  existsb (fun speaker => String.eqb (sdk_identity speaker) identity) speakers.

(** The events of the room that the manager listens to. *)
Inductive RoomEvent : Type :=
  | Connected
  | Disconnected
  | ParticipantConnected (participant : SdkParticipant)
  | ParticipantDisconnected (participant : SdkParticipant)
  | TrackMuted (participant : SdkParticipant)
  | TrackUnmuted (participant : SdkParticipant)
  | ActiveSpeakersChanged (speakers : list SdkParticipant).

(** The listeners of [setupEventListeners], but the one for data packets
    ([LiveKit.onDataReceived]). *)
Definition on (now : Z) (ev : RoomEvent) (st : State) : State * list Notification :=
  match ev with
  | Connected =>
      (with_isConnected true st,
       if onConnectionStateChange st then [ConnectionStateChange true] else [])
  | Disconnected =>
      (with_isConnected false st,
       if onConnectionStateChange st then [ConnectionStateChange false] else [])
  | ParticipantConnected participant => updateParticipantInfo now participant st
  | ParticipantDisconnected participant =>
      let st := with_participants (map_delete (sdk_identity participant) (participants st)) st in
      (st, notifyParticipantUpdate st)
  | TrackMuted participant => updateParticipantInfo now participant st
  | TrackUnmuted participant => updateParticipantInfo now participant st
  | ActiveSpeakersChanged speakers =>
      let st :=
        with_participants
          (map (fun kv => (kv.1, set_isSpeaking (some_speaker speakers kv.1) kv.2))
             (participants st)) st in
      (st, notifyParticipantUpdate st)
  end.

(** [connect(config)]: [outcome] is what [room.connect] settled to,
    [localParticipant] is [room.localParticipant] afterwards. *)
Definition connect (now : Z) (outcome : settled exn unit) (localParticipant : option SdkParticipant)
    (st : State) : settled exn unit * State * list Notification :=
  match outcome with
  | Resolved _ =>
      match localParticipant with
      | Some participant =>
          let '(st, ns) := updateParticipantInfo now participant st in (Resolved tt, st, ns)
      | None => (Resolved tt, st, [])
      end
  | Rejected error => (Rejected error, st, [])
  end.

(** [disconnect()]: [outcome] is what [room.disconnect] settled to. *)
Definition disconnect (outcome : settled exn unit) (st : State)
  : settled exn unit * State * list Notification :=
  match outcome with
  | Resolved _ =>
      let st := with_participants [] st in
      (Resolved tt, st, notifyParticipantUpdate st)
  | Rejected error => (Rejected error, st, [])
  end.

(** [enableMicrophone] and [enableCamera]: [outcome] is what the SDK's setter
    settled to, [localParticipant] is [room.localParticipant], read after
    it. *)
Definition enableMedia (now : Z) (outcome : settled exn unit)
    (localParticipant : option SdkParticipant) (st : State)
  : settled exn unit * State * list Notification :=
  match localParticipant with
  | Some participant =>
      match outcome with
      | Resolved _ =>
          let '(st, ns) := updateParticipantInfo now participant st in (Resolved tt, st, ns)
      | Rejected error => (Rejected error, st, [])
      end
  | None => (Resolved tt, st, [])
  end.

Section SendMessage.

(** [JSON.stringify] as text and [new TextEncoder().encode] are the
    platform's. *)
Context (JSON_text : json -> string) (encode : string -> list Byte.byte).

(** [sendMessage(message)]: the packets handed to [publishData]; [now] is
    [Date.now()]. *)
Definition chat_message (now : Z) (message : value) : option json :=
  stringify (VObj [("type", VStr "chat"); ("message", message); ("timestamp", VNum now)]).

Definition sendMessage (now : Z) (message : value) (localParticipant : option SdkParticipant)
  : list Packet :=
  match localParticipant, chat_message now message with
  | Some _, Some data =>
      [{| packet_payload := encode (JSON_text data); packet_reliable := true |}]
  | _, _ => []
  end.

End SendMessage.

(** [onParticipantsChanged(callback)] and [onConnectionChanged(callback)] *)
Definition onParticipantsChanged (st : State) : State :=
  mkState (isConnected st) (participants st) true (onConnectionStateChange st).

Definition onConnectionChanged (st : State) : State :=
  mkState (isConnected st) (participants st) (onParticipantUpdate st) true.

(** Everything that is done to a manager: a room event, or a call of one of
    its methods with what the SDK answered. *)
Inductive Op : Type :=
  | Event (now : Z) (ev : RoomEvent)
  | Connect (now : Z) (outcome : settled exn unit) (localParticipant : option SdkParticipant)
  | Disconnect (outcome : settled exn unit)
  | EnableMedia (now : Z) (outcome : settled exn unit) (localParticipant : option SdkParticipant)
  | RegisterParticipants
  | RegisterConnection.

Definition perform (op : Op) (st : State) : State * list Notification :=
  match op with
  | Event now ev => on now ev st
  | Connect now outcome localParticipant =>
      let '(_, st, ns) := connect now outcome localParticipant st in (st, ns)
  | Disconnect outcome => let '(_, st, ns) := disconnect outcome st in (st, ns)
  | EnableMedia now outcome localParticipant =>
      let '(_, st, ns) := enableMedia now outcome localParticipant st in (st, ns)
  | RegisterParticipants => (onParticipantsChanged st, [])
  | RegisterConnection => (onConnectionChanged st, [])
  end.

(** A history, oldest first: the state and the notifications. *)
Fixpoint run (ops : list Op) (st : State) : State * list Notification :=
  match ops with
  | [] => (st, [])
  | op :: rest =>
      let '(st1, ns1) := perform op st in
      let '(st2, ns2) := run rest st1 in
      (st2, ns1 ++ ns2)
  end.

(** The map is keyed by identity, each identity once. *)
Definition consistent (st : State) : Prop :=
  NoDup (map fst (participants st))
  ∧ Forall (fun kv => LiveKit.pi_identity kv.2 = kv.1) (participants st).

(** The identities of the participants, in the order of the list. *)
Definition identities (st : State) : list string :=
  map LiveKit.pi_identity (participantList st).

(** The callbacks that the hook registers, run on the notifications. *)
Definition deliver (ns : list Notification) (s : Hook.State) : Hook.State :=
  fold_left
    (fun s n =>
       match n with
       | ParticipantUpdate participantList => Hook.onParticipantsChanged participantList s
       | ConnectionStateChange connected => Hook.onConnectionChanged connected s
       end) ns s.

(** The hook shows what the manager holds. *)
Definition mirrors (s : Hook.State) (st : State) : Prop :=
  Hook.participants s = participantList st ∧ Hook.isConnected s = isConnected st.

(** The manager as the first effect of the hook leaves it: created, with the
    callbacks for the connection and for the participants registered. *)
Definition mounted : State := onParticipantsChanged (onConnectionChanged create).

End Manager.

(** The value that [JSON.parse] makes of a document. *)
Fixpoint of_json (j : json) : value :=
  match j with
  | JNull => VNull
  | JBool b => VBool b
  | JNum n => VNum n
  | JStr s => VStr s
  | JArr items => VArr (map of_json items)
  | JObj members =>
      VObj ((fix props (ms : list (string * json)) : list (string * value) :=
               match ms with
               | [] => []
               | (k, x) :: rest => (k, of_json x) :: props rest
               end) members)
  end.

(** ** app/room/[code]/page.tsx: the room page *)

(** [s.padStart(targetLength, pad)] for a pad of one character and a string
    [s] of ASCII characters (here the digits of a number), whose length is
    the number of its bytes. *)
Definition padStart (targetLength : nat) (pad : ascii) (s : string) : string :=
  string_of_list_ascii (replicate (targetLength - String.length s) pad) +:+ s.

Module RoomPage.

Record ConnectionDetails : Type := {
  wsUrl : value;
  token : value;
  shouldConnect : bool
}.

Inductive Toast : Type :=
  | ToastSuccess (msg : string)
  | ToastError (msg : string).

(** [Number.isSafeInteger]: the integers that a double holds exactly,
    together with their neighbours. *)
Definition isSafeInteger (n : Z) : bool := Z.abs n <? 2 ^ 53.

(** [formatDuration(seconds)] for a whole number of seconds, as the page
    counts them. For a safe integer the double arithmetic of the code is
    that of the integers: [Math.floor(a / b)] is the floor of the quotient
    (the quotient is rounded by less than its distance to the next integer),
    [a % b] is the remainder that takes the sign of [a], and a number prints
    as its decimal digits. Beyond the safe integers the doubles round, which
    this embedding does not follow: it gives [None] there. *)
Definition formatDuration (seconds : Z) : option string :=
  if isSafeInteger seconds then
    let hours := seconds `div` 3600 in
    let minutes := (seconds `rem` 3600) `div` 60 in
    let secs := seconds `rem` 60 in
    Some (if 0 <? hours then
            pretty hours +:+ ":" +:+ padStart 2 "0" (pretty minutes)
              +:+ ":" +:+ padStart 2 "0" (pretty secs)
          else
            pretty minutes +:+ ":" +:+ padStart 2 "0" (pretty secs))
  else None.

Section WithNetwork.

Context (net : Http.network) (baseUrl : string).
(** [process.env.NEXT_PUBLIC_LIVEKIT_URL] *)
Context (NEXT_PUBLIC_LIVEKIT_URL : value).

(** The inner [try] of [connectToRoom]: the room id to join, and whether the
    toast for a created room was shown. The [catch] falls back to the room
    code. *)
Definition resolveRoom (roomCode : value) : list Http.Request -> value * list Toast * list Http.Request :=
  fun log =>
    match Api.rooms_findByName net baseUrl roomCode log with
    | (Resolved existingRoom, log) =>
        if truthy existingRoom then
          match get_prop existingRoom "room_id" with
          | Resolved room_id => (room_id, [], log)
          | Rejected _ => (roomCode, [], log)
          end
        else
          match Api.rooms_create net baseUrl roomCode
                  (VObj [("roomType", VStr "call"); ("maxParticipants", VNum 10)]) log with
          | (Resolved createResponse, log) =>
              match get_prop createResponse "room_id" with
              | Resolved room_id => (room_id, [ToastSuccess "Room created successfully"], log)
              | Rejected _ => (roomCode, [], log)
              end
          | (Rejected _, log) => (roomCode, [], log)
          end
    | (Rejected _, log) => (roomCode, [], log)
    end.

(** [connectToRoom], the body of the second effect. *)
Definition connectToRoom (roomCode userIdentity userName : value) (connectionDetails : ConnectionDetails)
  : list Http.Request -> ConnectionDetails * list Toast * list Http.Request :=
  fun log =>
    if truthy userName && negb (shouldConnect connectionDetails) then
      let '(actualRoomId, toasts, log) := resolveRoom roomCode log in
      let failed := toasts ++ [ToastError "Failed to connect to room"] in
      match Api.participants_getToken net baseUrl actualRoomId userIdentity userName VUndefined log with
      | (Resolved response, log) =>
          if negb (truthy NEXT_PUBLIC_LIVEKIT_URL) then (connectionDetails, failed, log)
          else
            match get_prop response "token" with
            | Resolved token =>
                ({| wsUrl := NEXT_PUBLIC_LIVEKIT_URL; token := token; shouldConnect := true |},
                 toasts, log)
            | Rejected _ => (connectionDetails, failed, log)
            end
      | (Rejected _, log) => (connectionDetails, failed, log)
      end
    else (connectionDetails, [], log).

End WithNetwork.

End RoomPage.

(** ** app/page.tsx: the home page *)

Module HomePage.

Inductive Effect : Type :=
  | Alert (msg : string)
  | SetItem (key item : string)
  | Push (route : string).

(** [handleJoinRoom], with the inputs [name] and [meetingId]. *)
Definition handleJoinRoom (name meetingId : string) : list Effect :=
  if negb (truthy (VStr (Hook.trim name))) then [Alert "Please enter your name"]
  else if negb (truthy (VStr (Hook.trim meetingId))) then [Alert "Please enter a meeting ID"]
  else [SetItem "userName" name; Push ("/room/" +:+ meetingId)].

End HomePage.

(** ** The room page of the demonstration (chat) *)

Module DemoRoom.

Record ChatMessage : Type := {
  id : string;
  sender : string;
  message : string;
  timestamp : Z
}.

Record Chat : Type := {
  chatMessage : string;
  chatMessages : list ChatMessage
}.

(** [sendMessage]; [now] is [Date.now()]. *)
Definition sendMessage (now : Z) (userName : string) (c : Chat) : Chat :=
  if truthy (VStr (Hook.trim (chatMessage c))) then
    let newMessage := {| id := pretty now; sender := userName;
                         message := chatMessage c; timestamp := now |} in
    {| chatMessage := ""; chatMessages := chatMessages c ++ [newMessage] |}
  else c.

(** [handleKeyDown] *)
Definition handleKeyDown (now : Z) (userName key : string) (c : Chat) : Chat :=
  if String.eqb key "Enter" then sendMessage now userName c else c.

End DemoRoom.


(** More sample data. *)
Module Sample2.

Definition second_open_room : Spec.Room :=
  {| Spec.room_id := "room-4"; Spec.room_name := "call-123"; Spec.room_type := "call";
     Spec.created_at := "2025-01-04T10:00:00Z"; Spec.room_participants := [];
     Spec.is_active := true; Spec.metadata := VNull |}.

(** An answer without content, as a server gives to a request it has nothing
    to say to. *)
Definition no_content : Http.Response :=
  {| Http.ok := true; Http.status := 204; Http.statusText := "No Content";
     Http.content_type := None;
     Http.json := Rejected (ErrorObj "SyntaxError" "Unexpected end of JSON input") |}.

Definition conflict : Http.Response :=
  {| Http.ok := false; Http.status := 409; Http.statusText := "Conflict";
     Http.content_type := Some "application/json";
     Http.json := Resolved (VObj [("detail", VStr "Room already exists")]) |}.

Definition me : Manager.SdkParticipant :=
  {| Manager.sdk_identity := "agent-a"; Manager.sdk_name := None;
     Manager.sdk_local := true; Manager.sdk_microphone := true;
     Manager.sdk_camera := false; Manager.sdk_joinedAt := None |}.

(** A final result of speech recognition that is a pause. *)
Definition pause : Hook.SpeechRecognitionEvent :=
  {| Hook.results := [Sample.final "  "]; Hook.resultIndex := 0 |}.

(** A no-break space (U+00A0) and an ideographic space (U+3000). *)
Definition nbsp : string := Text.of_bytes [0xC2; 0xA0]%N.

Definition ideographic_space : string := Text.of_bytes [0xE3; 0x80; 0x80]%N.

(** Final results that are 'hello' between such spaces. *)
Definition wide_hello : Hook.SpeechRecognitionEvent :=
  {| Hook.results := [Sample.final (nbsp +:+ "hello" +:+ ideographic_space)];
     Hook.resultIndex := 0 |}.

End Sample2.

(** Vocabulary for the room page. *)
Module RoomSpec.

Definition list_request (baseUrl : string) : Http.Request :=
  Spec.api_request baseUrl "/api/rooms/" None None.

(** The request that creates the room of a code, as the room page asks for
    it. *)
Definition create_request (baseUrl roomCode : string) : Http.Request :=
  Spec.api_request baseUrl "/api/rooms/create" (Some "POST")
    (Some (JObj [("room_name", JStr roomCode); ("room_type", JStr "call");
                 ("max_participants", JNum 10)])).

(** The token request of the room page for a room id. *)
Definition token_request (baseUrl roomId userIdentity userName : string) : Http.Request :=
  Spec.token_request baseUrl roomId userIdentity userName (Some "caller") VUndefined.

(** The page before it connected. *)
Definition idle : RoomPage.ConnectionDetails :=
  {| RoomPage.wsUrl := VUndefined; RoomPage.token := VUndefined; RoomPage.shouldConnect := false |}.

(** A back end that lists [rooms], answers the creation of a room as
    [created] says, and issues the sample token. *)
Definition backend (rooms : list Spec.Room) (created : Http.Response) : Http.network :=
  fun _ req =>
    if String.eqb (Http.url req) (Sample.base +:+ "/api/rooms/")
    then Resolved (Spec.success (VArr (map Spec.Room_value rooms)))
    else if String.eqb (Http.url req) (Sample.base +:+ "/api/rooms/create")
    then Resolved created
    else Resolved (Spec.success (Spec.TokenResponse_value Sample.token_response)).

End RoomSpec.

(** * Properties *)

(** ** JavaScript values *)

Lemma stringify_obj ps : stringify (VObj ps) = Some (JObj (stringify_members ps)).
Proof. reflexivity. Qed.

Lemma or_else_truthy a b : truthy b = true → truthy (or_else a b) = true.
Proof. intros Hb. unfold or_else. by destruct (truthy a) eqn:Ha. Qed.



Example stringify_drops_undefined :
  stringify (VObj [("a", VStr "x"); ("b", VUndefined); ("c", VArr [VUndefined; VNum 1])])
  = Some (JObj [("a", JStr "x"); ("c", JArr [JNull; JNum 1])]).
Proof. reflexivity. Qed.

Example to_string_status : to_string (VNum 404) = "404"%string.
Proof. reflexivity. Qed.

Example includes_json : includes "application/json" "application/json; charset=utf-8" = true.
Proof. reflexivity. Qed.

(** ** The API client *)

Section ApiClientFacts.

Context (net : Http.network) (baseUrl : string).

Lemma handleResponse_respond response :
  ApiClient.handleResponse response = Spec.respond response.
Proof.
  unfold ApiClient.handleResponse, Spec.respond, Spec.is_json.
  destruct (Http.ok response); simpl.
  - destruct (Http.content_type response) as [ct|]; [|done].
    by destruct ct.
  - unfold Spec.error_message, Spec.error_details, Spec.field.
    destruct (Http.json response) as [data|err]; simpl; [|done].
    destruct data as [| |b|n|s|items|fields]; simpl; try done.
    unfold or_else.
    destruct (assoc "detail" fields) as [d|]; simpl.
    + destruct (truthy d); simpl; [done|].
      destruct (assoc "message" fields) as [m|]; simpl; [|done].
      by destruct (truthy m).
    + destruct (assoc "message" fields) as [m|]; simpl; [|done].
      by destruct (truthy m).
Qed.

(** What [request] does with options that carry no headers of their own,
    as all the client's operations use it. *)
Lemma request_unfold endpoint method body log :
  ApiClient.request net baseUrl endpoint (ApiClient.mkOptions method None body) log
  = (Spec.answer net log (Spec.api_request baseUrl endpoint method body),
     log ++ [Spec.api_request baseUrl endpoint method body]).
Proof.
  unfold ApiClient.request, Http.async_bind, Http.fetch, Http.async_ret,
    Spec.api_request, Spec.answer.
  simpl. destruct (net log _); [|done].
  by rewrite handleResponse_respond.
Qed.

(** Every operation of the client goes through [request] once. *)
Lemma invoke_request call log :
  ∃ endpoint method body (k : value → settled exn value),
    ApiClient.invoke net baseUrl call log
    = ((try! v <- (ApiClient.request net baseUrl endpoint (ApiClient.mkOptions method None body) log).1; k v),
       (ApiClient.request net baseUrl endpoint (ApiClient.mkOptions method None body) log).2)
    ∧ (∀ v e, k v = Rejected e → ∃ n m, e = ErrorObj n m).
Proof.
  destruct call as [ |data| |roomName|data|tid agent|data|ident rid|cid|cid|cid hold].
  all: try (cbn [ApiClient.invoke];
            cbv [ApiClient.healthCheck ApiClient.createRoom ApiClient.listRooms
                 ApiClient.transferCall ApiClient.completeConsultation
                 ApiClient.generateJoinToken ApiClient.removeParticipant
                 ApiClient.generateCallSummary ApiClient.getCallTranscript
                 ApiClient.holdCall ApiClient.no_options ApiClient.post];
            match goal with
            | |- context [ApiClient.request _ _ ?ep (ApiClient.mkOptions ?m None ?b) _] =>
                exists ep, m, b, Resolved
            end;
            split; [|by intros v e [=]];
            destruct (ApiClient.request _ _ _ _ _) as [[?|?] ?]; reflexivity).
  (* findRoomByName *)
  exists "/api/rooms/"%string, None, None.
  eexists (fun rooms => match rooms with
                        | VArr items => array_find (ApiClient.is_named_active roomName) items
                        | VUndefined | VNull => try! _ <- get_prop rooms "find"; Resolved VUndefined
                        | _ => Rejected (ErrorObj "TypeError" "rooms.find is not a function")
                        end).
  split.
  - simpl. unfold ApiClient.findRoomByName, ApiClient.listRooms, ApiClient.no_options, Http.async_bind.
    destruct (ApiClient.request _ _ _ _ _) as [[?|?] ?]; reflexivity.
  - intros v e Hv. destruct v; simpl in Hv; simplify_eq; eauto.
    clear -Hv. induction items as [|x rest IH]; simpl in Hv; [done|].
    unfold ApiClient.is_named_active in Hv at 1.
    destruct x; simpl in Hv; simplify_eq; eauto;
      repeat (match type of Hv with
              | context [if ?b then _ else _] => destruct b; simpl in Hv
              end); simplify_eq; eauto.
Qed.

Example handleResponse_conflict :
  ApiClient.handleResponse
    {| Http.ok := false; Http.status := 409; Http.statusText := "Conflict";
       Http.content_type := Some "application/json";
       Http.json := Resolved (VObj [("detail", VStr "Room already exists")]) |}
  = Rejected (ApiErr {| message := VStr "Room already exists"; status := 409;
                        details := VObj [("detail", VStr "Room already exists")] |}).
Proof. reflexivity. Qed.

Example handleResponse_unavailable :
  ApiClient.handleResponse Sample.unavailable
  = Rejected (ApiErr {| message := VStr "HTTP 503: Service Unavailable"; status := 503;
                        details := VUndefined |}).
Proof. reflexivity. Qed.

Example handleResponse_no_content :
  ApiClient.handleResponse
    {| Http.ok := true; Http.status := 204; Http.statusText := "No Content";
       Http.content_type := None;
       Http.json := Rejected (ErrorObj "SyntaxError" "Unexpected end of JSON input") |}
  = Resolved (VObj []).
Proof. reflexivity. Qed.

(** The options of the client's own operations carry no headers; for
    options with headers the request is the same up to the merged headers. *)
Lemma request_once endpoint options log :
  ∃ req,
    ApiClient.request net baseUrl endpoint options log = (Spec.answer net log req, log ++ [req])
    ∧ Http.url req = baseUrl +:+ endpoint
    ∧ Http.method (Http.init req) = ApiClient.method options
    ∧ Http.body (Http.init req) = ApiClient.body options.
Proof.
  eexists (Http.mkRequest (baseUrl +:+ endpoint)
             (Http.mkInit (ApiClient.method options)
                (spread ApiClient.defaultHeaders
                   (ApiClient.own_properties (ApiClient.headers options)))
                (ApiClient.body options))).
  split; [|done].
  unfold ApiClient.request, Http.async_bind, Http.fetch, Http.async_ret, Spec.answer.
  simpl. destruct (net log _); [|done].
  by rewrite handleResponse_respond.
Qed.

End ApiClientFacts.

(** C5. Every request of the API client performs exactly one fetch: the log
    of fetched requests grows by one request, whatever the network answers,
    so nothing is tried again, and a failure of the network is passed on.
    This holds for [request] with any options and for each operation of the
    client. A response that is not ok rejects with the [ApiError] of
    [Spec.respond]: its [status] is the HTTP status code, its [message] is the
    body's [detail] field, else (when that is absent or falsy, as JavaScript's
    [||] decides) its [message] field, else the text
    "HTTP {status}: {statusText}". An ok response whose content type is not
    JSON resolves to the empty object. *)
Theorem C5_one_fetch_and_error_report (net : Http.network) (baseUrl : string) :
  (∀ endpoint options log,
     ∃ req,
       ApiClient.request net baseUrl endpoint options log
       = (Spec.answer net log req, log ++ [req])
       ∧ Http.url req = baseUrl +:+ endpoint)
  ∧ (∀ call log,
       ∃ req,
         (ApiClient.invoke net baseUrl call log).2 = log ++ [req]
         ∧ match Spec.answer net log req with
           | Rejected err => (ApiClient.invoke net baseUrl call log).1 = Rejected err
           | Resolved _ => True
           end)
  ∧ (∀ response,
       if Http.ok response then
         if Spec.is_json response
         then Spec.respond response = Http.json response
         else Spec.respond response = Resolved (VObj [])
       else
         ∃ e, Spec.respond response = Rejected (ApiErr e)
              ∧ status e = Http.status response
              ∧ message e = Spec.error_message response)
  ∧ (∀ response,
       match Http.json response with
       | Resolved (VObj fields) =>
           match Spec.field "detail" fields, Spec.field "message" fields with
           | Some d, _ => Spec.error_message response = d
           | None, Some m => Spec.error_message response = m
           | None, None => Spec.error_message response = VStr (Spec.default_message response)
           end
       | _ => Spec.error_message response = VStr (Spec.default_message response)
       end).
Proof.
  split; [|split; [|split]].
  - intros endpoint options log.
    destruct (request_once net baseUrl endpoint options log) as (req & Hreq & Hurl & _).
    eauto.
  - intros call log.
    destruct (invoke_request net baseUrl call log) as (endpoint & method & body & k & Hinv & _).
    rewrite Hinv, request_unfold. simpl.
    eexists; split; [done|].
    by destruct (Spec.answer net log _).
  - intros response. unfold Spec.respond.
    destruct (Http.ok response); [by destruct (Spec.is_json response)|].
    eauto.
  - intros response. unfold Spec.error_message.
    destruct (Http.json response) as [[| | | | | |fields]|]; try done.
    by destruct (Spec.field "detail" fields), (Spec.field "message" fields).
Qed.


(** C7. [holdCall(callId, hold)] issues one POST to
    [/api/calls/{callId}/hold] whose JSON body is [{hold: flag}]; the flag is
    [true] when the argument is left out; the caller receives what the
    request settles to, with nothing done to it, so that the body of a
    successful JSON response arrives as it was parsed. The same holds for the
    wrapper [api.calls.hold]. *)
Theorem C7_hold_call (net : Http.network) (baseUrl callId : string) (hold : option bool)
    (log : list Http.Request) :
  let flag := default true hold in
  let arg := from_option VBool VUndefined hold in
  let req := Spec.api_request baseUrl ("/api/calls/" +:+ callId +:+ "/hold")
               (Some "POST") (Some (JObj [("hold", JBool flag)])) in
  ApiClient.holdCall net baseUrl (VStr callId) arg log = (Spec.answer net log req, log ++ [req])
  ∧ Api.calls_hold net baseUrl (VStr callId) arg log = (Spec.answer net log req, log ++ [req])
  ∧ ∀ v, Spec.respond (Spec.success v) = Resolved v.
Proof.
  split; [|split]; [| |done].
  - unfold ApiClient.holdCall, ApiClient.post. rewrite request_unfold.
    by destruct hold as [b|].
  - unfold Api.calls_hold, ApiClient.holdCall, ApiClient.post. rewrite request_unfold.
    by destruct hold as [b|].
Qed.

(** ** The convenience wrappers *)



(** ** Searching a room by name *)

Section FindRoomByName.

Context (n : string).

Lemma is_named_active_room (r : Spec.Room) :
  ApiClient.is_named_active (VStr n) (Spec.Room_value r)
  = Resolved (String.eqb (Spec.room_name r) n && Spec.is_active r).
Proof.
  unfold ApiClient.is_named_active, Spec.Room_value. simpl.
  by destruct (String.eqb (Spec.room_name r) n).
Qed.

Lemma array_find_rooms (rooms : list Spec.Room) :
  array_find (ApiClient.is_named_active (VStr n)) (map Spec.Room_value rooms)
  = Resolved (from_option Spec.Room_value VUndefined
                (List.find (fun r => String.eqb (Spec.room_name r) n && Spec.is_active r) rooms)).
Proof.
  induction rooms as [|r rest IH]; [done|].
  cbn [map array_find List.find]. rewrite is_named_active_room. simpl.
  by destruct (String.eqb (Spec.room_name r) n && Spec.is_active r).
Qed.

Lemma named_active_test (r : Spec.Room) :
  String.eqb (Spec.room_name r) n && Spec.is_active r = true ↔ Spec.named_active n r.
Proof.
  unfold Spec.named_active. rewrite andb_true_iff, String.eqb_eq. done.
Qed.

End FindRoomByName.

Lemma Room_value_inj (r1 r2 : Spec.Room) : Spec.Room_value r1 = Spec.Room_value r2 → r1 = r2.
Proof. destruct r1, r2. unfold Spec.Room_value. simpl. intros [=]. by subst. Qed.

(** C4. When the listing endpoint answers with the rooms [rooms],
    [findRoomByName(n)] resolves; to a room of the list that is named exactly
    [n] and is active, when the list has one, and to [undefined] when it has
    none. What it returns is never an inactive room, nor a room with another
    name. *)
Theorem C4_findRoomByName (net : Http.network) (baseUrl : string) (rooms : list Spec.Room)
    (n : string) (log : list Http.Request) :
  Spec.lists_rooms net baseUrl log rooms →
  ∃ result,
    (ApiClient.findRoomByName net baseUrl (VStr n) log).1 = Resolved result
    ∧ ((∃ r, r ∈ rooms ∧ Spec.named_active n r) →
       ∃ r, result = Spec.Room_value r ∧ r ∈ rooms ∧ Spec.named_active n r)
    ∧ ((∀ r, r ∈ rooms → ¬ Spec.named_active n r) → result = VUndefined)
    ∧ (∀ r, result = Spec.Room_value r → r ∈ rooms ∧ Spec.named_active n r).
Proof.
  intros (response & Hnet & Hok & Hjson & Hbody).
  unfold ApiClient.findRoomByName, ApiClient.listRooms, ApiClient.no_options, Http.async_bind.
  rewrite request_unfold. unfold Spec.answer, Spec.respond.
  rewrite Hnet, Hok, Hjson, Hbody. cbn [Http.async_ret fst].
  rewrite array_find_rooms. eexists; split; [reflexivity|].
  destruct (List.find _ rooms) as [r|] eqn:Hfind; cbn [from_option].
  - apply find_some in Hfind as [Hin Htest].
    apply named_active_test in Htest. apply list_elem_of_In in Hin.
    split; [eauto|]. split.
    + intros Hnone. by destruct (Hnone r Hin).
    + by intros r' ->%Room_value_inj.
  - split; [|split; [done|by intros r' [=]]].
    intros (r & Hin & Hr).
    apply list_elem_of_In in Hin. apply named_active_test in Hr.
    pose proof (find_none _ _ Hfind r Hin) as Hno. simpl in Hno. congruence.
Qed.

Lemma C4_witness :
  Spec.lists_rooms (Spec.always (Spec.success (VArr (map Spec.Room_value Sample.rooms))))
    Sample.base [] Sample.rooms
  ∧ ∃ result,
      (ApiClient.findRoomByName (Spec.always (Spec.success (VArr (map Spec.Room_value Sample.rooms))))
         Sample.base (VStr "call-123") []).1 = Resolved result
      ∧ (∀ r, result = Spec.Room_value r → r ∈ Sample.rooms ∧ Spec.named_active "call-123" r).
Proof.
  assert (Hlist : Spec.lists_rooms
                    (Spec.always (Spec.success (VArr (map Spec.Room_value Sample.rooms))))
                    Sample.base [] Sample.rooms).
  { eexists. split; [reflexivity|]. split; [reflexivity|]. split; reflexivity. }
  split; [exact Hlist|].
  destruct (C4_findRoomByName _ _ _ "call-123" _ Hlist) as (result & Hres & _ & _ & Honly).
  exists result. split; [exact Hres | exact Honly].
Defined.

Example findRoomByName_sample :
  (ApiClient.findRoomByName (Spec.always (Spec.success (VArr (map Spec.Room_value Sample.rooms))))
     Sample.base (VStr "call-123") []).1
  = Resolved (Spec.Room_value Sample.open_room).
Proof. reflexivity. Qed.

(** ** Transfer requests *)

Section TransferRequests.

Context (net : Http.network) (baseUrl : string).

(** [ApiClient.transferCall] and the wrapper [api.rooms.transfer] send the
    field names of the endpoint. *)
Lemma transferCall_request (roomId targetAgentId : string) (callSummary : option string) log :
  let req := Spec.transfer_request baseUrl roomId targetAgentId callSummary in
  ApiClient.transferCall net baseUrl
    {| ApiClient.td_targetAgentId := VStr targetAgentId;
       ApiClient.td_roomId := VStr roomId;
       ApiClient.td_callSummary := opt_str callSummary |} log
  = (Spec.answer net log req, log ++ [req]).
Proof.
  unfold ApiClient.transferCall, ApiClient.post. rewrite request_unfold.
  by destruct callSummary.
Qed.

Lemma rooms_transfer_request (roomId targetAgentId : string) (callSummary : option string) log :
  let req := Spec.transfer_request baseUrl roomId targetAgentId callSummary in
  Api.rooms_transfer net baseUrl (VStr targetAgentId) (VStr roomId) (opt_str callSummary) log
  = (Spec.answer net log req, log ++ [req]).
Proof. apply transferCall_request. Qed.

(** A successful answer of the endpoint reaches the caller as the record
    it is. *)
Lemma transfer_response_delivered (r : Spec.TransferResponse) :
  Spec.respond (Spec.success (Spec.TransferResponse_value r))
  = Resolved (Spec.TransferResponse_value r).
Proof. reflexivity. Qed.

(** The stand-alone [initiateTransfer] of livekit.ts sends its argument as
    it is. *)
Lemma standalone_initiateTransfer_request (roomId targetAgentId : string)
    (callSummary : option string) log :
  let req := Spec.page_post "/api/rooms/transfer"
               (Some (JObj ([("targetAgentId", JStr targetAgentId)]
                            ++ Spec.optional_member "callSummary" callSummary
                            ++ [("roomId", JStr roomId)]))) in
  (LiveKit.initiateTransfer net
     {| LiveKit.targetAgentId := VStr targetAgentId;
        LiveKit.callSummary := opt_str callSummary;
        LiveKit.roomId := VStr roomId |} log).2
  = log ++ [req].
Proof.
  unfold LiveKit.initiateTransfer, Http.async_bind, Http.fetch, LiveKit.post,
    LiveKit.json_headers, Spec.page_post.
  simpl. destruct callSummary; simpl; by destruct (net log _).
Qed.

End TransferRequests.

Example standalone_initiateTransfer_sample :
  (LiveKit.initiateTransfer (Spec.always (Spec.success (Spec.TransferResponse_value Sample.transfer_response)))
     {| LiveKit.targetAgentId := VStr "agent-b"; LiveKit.callSummary := VUndefined;
        LiveKit.roomId := VStr "room-1" |} []).2
  = [Spec.page_post "/api/rooms/transfer"
       (Some (JObj [("targetAgentId", JStr "agent-b"); ("roomId", JStr "room-1")]))].
Proof. reflexivity. Qed.

Example transferCall_sample :
  (ApiClient.transferCall (Spec.always (Spec.success (Spec.TransferResponse_value Sample.transfer_response)))
     Sample.base
     {| ApiClient.td_targetAgentId := VStr "agent-b"; ApiClient.td_roomId := VStr "room-1";
        ApiClient.td_callSummary := VUndefined |} [])
  = (Resolved (Spec.TransferResponse_value Sample.transfer_response),
     [Spec.api_request Sample.base "/api/rooms/transfer" (Some "POST")
        (Some (JObj [("room_id", JStr "room-1"); ("target_agent_id", JStr "agent-b")]))]).
Proof. reflexivity. Qed.

(** C1, where the code departs from it. The stand-alone [initiateTransfer] of
    livekit.ts posts to [/api/rooms/transfer], but the members of its JSON
    body are named [targetAgentId], [callSummary] and [roomId]: no member is
    named [room_id] or [target_agent_id], whatever the arguments are.
    ([transferCall_request] and [initiateTransfer_request] show that
    [ApiClient.transferCall] and the hook's [initiateTransfer] do send
    [room_id], [target_agent_id] and [call_summary].) *)
Theorem C1_standalone_initiateTransfer_body (net : Http.network) (roomId targetAgentId : string)
    (callSummary : option string) (log : list Http.Request) :
  ∃ members,
    (LiveKit.initiateTransfer net
       {| LiveKit.targetAgentId := VStr targetAgentId;
          LiveKit.callSummary := opt_str callSummary;
          LiveKit.roomId := VStr roomId |} log).2
    = log ++ [Spec.page_post "/api/rooms/transfer" (Some (JObj members))]
    ∧ assoc "targetAgentId" members = Some (JStr targetAgentId)
    ∧ assoc "roomId" members = Some (JStr roomId)
    ∧ assoc "room_id" members = None
    ∧ assoc "target_agent_id" members = None
    ∧ assoc "call_summary" members = None.
Proof.
  eexists. split; [apply standalone_initiateTransfer_request|].
  by destruct callSummary.
Qed.

(** ** Token requests *)

Section TokenRequests.

Context (net : Http.network) (baseUrl : string).

Lemma generateJoinToken_request (roomId identity name : string) (role : option string)
    (meta : value) log :
  let req := Spec.token_request baseUrl roomId identity name role meta in
  ApiClient.generateJoinToken net baseUrl
    {| ApiClient.jt_room_id := VStr roomId;
       ApiClient.jt_identity := VStr identity;
       ApiClient.jt_name := VStr name;
       ApiClient.jt_role := opt_str role;
       ApiClient.jt_metadata := meta |} log
  = (Spec.answer net log req, log ++ [req]).
Proof.
  unfold ApiClient.generateJoinToken, ApiClient.post, ApiClient.JoinTokenData_obj.
  rewrite request_unfold, stringify_obj.
  unfold Spec.token_request, Spec.token_body, Spec.any_member.
  cbn [stringify_members ApiClient.jt_room_id ApiClient.jt_identity ApiClient.jt_name
       ApiClient.jt_role ApiClient.jt_metadata].
  destruct role; simpl; by destruct (stringify meta).
Qed.

(** The wrapper without options, as the hook calls it. *)
Lemma participants_getToken_request (roomId identity name : string) log :
  let req := Spec.token_request baseUrl roomId identity name (Some "caller") VUndefined in
  Api.participants_getToken net baseUrl (VStr roomId) (VStr identity) (VStr name) VUndefined log
  = (Spec.answer net log req, log ++ [req]).
Proof.
  apply (generateJoinToken_request roomId identity name (Some "caller") VUndefined).
Qed.

Lemma token_response_delivered (r : Spec.TokenResponse) :
  Spec.respond (Spec.success (Spec.TokenResponse_value r))
  = Resolved (Spec.TokenResponse_value r).
Proof. reflexivity. Qed.

(** The stand-alone [getJoinToken] of livekit.ts: where it posts, and what
    it makes of an ok response. *)
Lemma standalone_getJoinToken (roomId identity name : value) log :
  ∃ body,
    let req := Spec.page_post "/api/participants/token" body in
    LiveKit.getJoinToken net roomId identity name log
    = (match net log req with
       | Resolved response =>
           if Http.ok response
           then try! data <- Http.json response; get_prop data "token"
           else Rejected (ErrorObj "Error" "Failed to get join token")
       | Rejected err => Rejected err
       end, log ++ [req]).
Proof.
  exists (stringify (VObj [("roomId", roomId); ("identity", identity); ("name", name)])).
  unfold LiveKit.getJoinToken, Http.async_bind, Http.fetch, Http.async_ret,
    LiveKit.post, LiveKit.json_headers, Spec.page_post.
  cbv zeta. destruct (net log _) as [response|]; [|done].
  by destruct (Http.ok response).
Qed.

End TokenRequests.

(** ** The hook *)

Section HookFacts.

Context (net : Http.network) (baseUrl : string).
Context (manager_connect : LiveKit.LiveKitConfig → settled exn unit).

Lemma truthy_VStr (s : string) : truthy (VStr s) = true ↔ s ≠ ""%string.
Proof.
  simpl. rewrite negb_true_iff. split.
  - intros H ->. done.
  - intros H. by destruct s.
Qed.

(** What the hook's [initiateTransfer] does once its guard is passed. *)
Lemma initiateTransfer_run (targetAgentId : value) (s : Hook.State) log :
  Hook.manager s = true → truthy (Hook.actualRoomId s) = true →
  let started := Hook.setTransferError VNull (Hook.setIsTransferring true s) in
  Hook.initiateTransfer net baseUrl targetAgentId s log
  = match Api.rooms_transfer net baseUrl targetAgentId (Hook.actualRoomId s) VUndefined log with
    | (Resolved response, log') =>
        (Resolved response, Hook.setIsTransferring false started, log')
    | (Rejected err, log') =>
        let errorMessage := or_else (exn_message err) (VStr "Transfer failed") in
        (Rejected (ErrorObj "Error" (to_string errorMessage)),
         Hook.setIsTransferring false (Hook.setTransferError errorMessage started), log')
    end.
Proof.
  intros Hm Hroom. unfold Hook.initiateTransfer. rewrite Hm, Hroom. reflexivity.
Qed.

(** The hook's [initiateTransfer] sends the field names of the endpoint,
    and hands a successful answer to its caller as it is. *)
Lemma initiateTransfer_request (roomId targetAgentId : string) (s : Hook.State) log :
  Hook.manager s = true → Hook.actualRoomId s = VStr roomId → roomId ≠ ""%string →
  let req := Spec.transfer_request baseUrl roomId targetAgentId None in
  let run := Hook.initiateTransfer net baseUrl (VStr targetAgentId) s log in
  run.2 = log ++ [req]
  ∧ ∀ response, Spec.answer net log req = Resolved response → run.1.1 = Resolved response.
Proof.
  intros Hm Hroom Hne. cbv zeta.
  rewrite initiateTransfer_run by (rewrite ?Hroom; by try apply truthy_VStr).
  rewrite Hroom.
  rewrite (rooms_transfer_request net baseUrl roomId targetAgentId None).
  destruct (Spec.answer net log _) as [v|err]; simpl; split; congruence.
Qed.

End HookFacts.

(** C8. Called while [actualRoomId] is [null], the hook's [initiateTransfer]
    rejects with the error 'Not connected to a room'; it issues no request
    and leaves every state cell, [transferError] among them, as it was. When
    its guard is passed (the manager exists and [actualRoomId] holds a room
    id), it issues one request, and once it has settled [isTransferring] is
    false and [transferError] is not [null] exactly when the request failed;
    it resolves exactly when the request did. *)
Theorem C8_initiateTransfer_guard_and_flags (net : Http.network) (baseUrl : string)
    (targetAgentId : value) (s : Hook.State) (log : list Http.Request) :
  (Hook.actualRoomId s = VNull →
   Hook.initiateTransfer net baseUrl targetAgentId s log
   = (Rejected (ErrorObj "Error" "Not connected to a room"), s, log))
  ∧ (Hook.manager s = true → truthy (Hook.actualRoomId s) = true →
     ∃ req result s',
       Hook.initiateTransfer net baseUrl targetAgentId s log = (result, s', log ++ [req])
       ∧ Hook.isTransferring s' = false
       ∧ (Hook.transferError s' ≠ VNull ↔ ∃ err, Spec.answer net log req = Rejected err)
       ∧ is_resolved result = is_resolved (Spec.answer net log req)).
Proof.
  split.
  - intros Hnull. unfold Hook.initiateTransfer. rewrite Hnull. simpl.
    by rewrite orb_true_r.
  - intros Hm Hroom. rewrite initiateTransfer_run by done.
    unfold Api.rooms_transfer, ApiClient.transferCall, ApiClient.post.
    rewrite request_unfold.
    match goal with |- context [Spec.answer net log ?r] => set (req := r) end.
    exists req. destruct (Spec.answer net log req) as [response|err].
    + do 2 eexists. split; [reflexivity|]. split; [done|]. split; [|done].
      simpl. split; [done|]. by intros [err [=]].
    + do 2 eexists. split; [reflexivity|]. split; [done|]. split; [|done].
      simpl. split; [eauto|]. intros _ Heq.
      assert (Ht : truthy (or_else (exn_message err) (VStr "Transfer failed")) = true)
        by by apply or_else_truthy.
      by rewrite Heq in Ht.
Qed.

Lemma C8_witness :
  let s := Hook.setActualRoomId (VStr "room-2") (Hook.mount Hook.initial) in
  Hook.manager s = true ∧ truthy (Hook.actualRoomId s) = true
  ∧ Hook.actualRoomId Hook.initial = VNull
  ∧ Hook.initiateTransfer (Spec.always Sample.unavailable) Sample.base (VStr "agent-b")
      Hook.initial []
    = (Rejected (ErrorObj "Error" "Not connected to a room"), Hook.initial, [])
  ∧ ∃ req result s',
      Hook.initiateTransfer (Spec.always Sample.unavailable) Sample.base (VStr "agent-b") s []
      = (result, s', [req])
      ∧ Hook.isTransferring s' = false
      ∧ Hook.transferError s' ≠ VNull.
Proof.
  cbv zeta. split; [reflexivity|]. split; [reflexivity|]. split; [reflexivity|].
  destruct (C8_initiateTransfer_guard_and_flags (Spec.always Sample.unavailable) Sample.base
              (VStr "agent-b") Hook.initial []) as [Hguard _].
  split; [apply Hguard; reflexivity|].
  destruct (C8_initiateTransfer_guard_and_flags (Spec.always Sample.unavailable) Sample.base
              (VStr "agent-b")
              (Hook.setActualRoomId (VStr "room-2") (Hook.mount Hook.initial)) [])
    as [_ Hrun].
  destruct Hrun as (req & result & s' & Hrun & Hflag & Herr & _); [reflexivity|reflexivity|].
  exists req, result, s'. split; [exact Hrun|]. split; [exact Hflag|].
  apply Herr. eexists. reflexivity.
Defined.

Example initiateTransfer_failure_sample :
  Hook.transferError
    (Hook.initiateTransfer (Spec.always Sample.unavailable) Sample.base (VStr "agent-b")
       (Hook.setActualRoomId (VStr "room-2") (Hook.mount Hook.initial)) []).1.2
  = VStr "HTTP 503: Service Unavailable".
Proof. reflexivity. Qed.

(** What the auto-connect path of the hook does with its options set. *)
Lemma handleAutoConnect_run (net : Http.network) (baseUrl : string)
    (manager_connect : LiveKit.LiveKitConfig → settled exn unit) (options : Hook.Options)
    (roomId identity name : string) (s : Hook.State) (log : list Http.Request) :
  Hook.opt_roomId options = VStr roomId → Hook.opt_identity options = VStr identity →
  Hook.opt_name options = VStr name →
  roomId ≠ ""%string → identity ≠ ""%string → name ≠ ""%string →
  let req := Spec.token_request baseUrl roomId identity name (Some "caller") VUndefined in
  let started := Hook.setError VNull (Hook.setIsConnecting true s) in
  Hook.handleAutoConnect net baseUrl manager_connect options s log
  = (Resolved tt,
     match Spec.answer net log req with
     | Resolved response =>
         match get_prop response "room_id" with
         | Resolved room_id =>
             Hook.connect manager_connect
               {| LiveKit.cfg_url := get_prop_opt response "url";
                  LiveKit.cfg_token := get_prop_opt response "token" |}
               (Hook.setActualRoomId room_id started)
         | Rejected err =>
             Hook.setIsConnecting false
               (Hook.setError (or_else (exn_message err) (VStr "Failed to auto-connect")) started)
         end
     | Rejected err =>
         Hook.setIsConnecting false
           (Hook.setError (or_else (exn_message err) (VStr "Failed to auto-connect")) started)
     end,
     log ++ [req]).
Proof.
  intros Hr Hi Hn Hr' Hi' Hn'. cbv zeta. unfold Hook.handleAutoConnect.
  rewrite Hr, Hi, Hn.
  apply truthy_VStr in Hr', Hi', Hn'. rewrite Hr', Hi', Hn'. cbn [negb orb].
  rewrite participants_getToken_request.
  destruct (Spec.answer net log _) as [response|err]; [|done].
  by destruct (get_prop response "room_id").
Qed.

(** C2, as the code has it. [ApiClient.generateJoinToken] issues one POST to
    [/api/participants/token] whose JSON body carries [room_id], [identity]
    and [name], and [role] and [metadata] when given, and hands the answer to
    its caller as it is, so that a successful answer arrives as the record
    with [token], [url], [room_id], [identity] and [expires_at]. The hook's
    auto-connect path issues that request through [api.participants.getToken]
    with the role 'caller', and on a successful answer stores the record's
    [room_id] and connects with its [url] and [token]. The stand-alone
    [getJoinToken] of livekit.ts also posts once to [/api/participants/token];
    of a successful answer it hands to its caller the [token] string only. *)
Theorem C2_token_requests (net : Http.network) (baseUrl : string)
    (manager_connect : LiveKit.LiveKitConfig → settled exn unit) :
  (∀ (roomId identity name : string) (role : option string) (meta : value) log,
     let req := Spec.token_request baseUrl roomId identity name role meta in
     ApiClient.generateJoinToken net baseUrl
       {| ApiClient.jt_room_id := VStr roomId;
          ApiClient.jt_identity := VStr identity;
          ApiClient.jt_name := VStr name;
          ApiClient.jt_role := opt_str role;
          ApiClient.jt_metadata := meta |} log
     = (Spec.answer net log req, log ++ [req]))
  ∧ (∀ r, Spec.respond (Spec.success (Spec.TokenResponse_value r))
          = Resolved (Spec.TokenResponse_value r))
  ∧ (∀ options (roomId identity name : string) s log,
       Hook.opt_roomId options = VStr roomId → Hook.opt_identity options = VStr identity →
       Hook.opt_name options = VStr name →
       roomId ≠ ""%string → identity ≠ ""%string → name ≠ ""%string →
       let req := Spec.token_request baseUrl roomId identity name (Some "caller") VUndefined in
       let run := Hook.handleAutoConnect net baseUrl manager_connect options s log in
       run.2 = log ++ [req]
       ∧ ∀ r, Spec.answer net log req = Resolved (Spec.TokenResponse_value r) →
              run.1.2 = Hook.connect manager_connect
                          {| LiveKit.cfg_url := VStr (Spec.token_url r);
                             LiveKit.cfg_token := VStr (Spec.token r) |}
                          (Hook.setActualRoomId (VStr (Spec.token_room_id r))
                             (Hook.setError VNull (Hook.setIsConnecting true s))))
  ∧ (∀ (roomId identity name : value) log,
       ∃ body,
         let req := Spec.page_post "/api/participants/token" body in
         let run := LiveKit.getJoinToken net roomId identity name log in
         run.2 = log ++ [req]
         ∧ ∀ r, net log req = Resolved (Spec.success (Spec.TokenResponse_value r)) →
                run.1 = Resolved (VStr (Spec.token r))).
Proof.
  split; [|split; [|split]].
  - intros. apply generateJoinToken_request.
  - done.
  - intros options roomId identity name s log Hr Hi Hn Hr' Hi' Hn'. cbv zeta.
    rewrite (handleAutoConnect_run net baseUrl manager_connect options roomId identity name)
      by done.
    split; [done|]. intros r Hanswer. cbn [fst snd]. by rewrite Hanswer.
  - intros roomId identity name log.
    destruct (standalone_getJoinToken net roomId identity name log) as [body Hrun].
    exists body. cbv zeta in *. rewrite Hrun. split; [done|].
    intros r Hnet. by rewrite Hnet.
Qed.

Lemma C2_witness :
  let net := Spec.always (Spec.success (Spec.TokenResponse_value Sample.token_response)) in
  let options := {| Hook.opt_roomId := VStr "call-123"; Hook.opt_identity := VStr "alice";
                    Hook.opt_name := VStr "Alice"; Hook.opt_autoConnect := true |} in
  let run := Hook.handleAutoConnect net Sample.base (fun _ => Resolved tt) options
               (Hook.mount Hook.initial) [] in
  run.2 = [Spec.token_request Sample.base "call-123" "alice" "Alice" (Some "caller") VUndefined]
  ∧ Hook.actualRoomId run.1.2 = VStr "room-2"
  ∧ (LiveKit.getJoinToken net (VStr "call-123") (VStr "alice") (VStr "Alice") []).1
    = Resolved (VStr "jwt").
Proof.
  cbv zeta.
  destruct (C2_token_requests
              (Spec.always (Spec.success (Spec.TokenResponse_value Sample.token_response)))
              Sample.base (fun _ => Resolved tt)) as (_ & _ & Hhook & Hlone).
  destruct (Hhook {| Hook.opt_roomId := VStr "call-123"; Hook.opt_identity := VStr "alice";
                     Hook.opt_name := VStr "Alice"; Hook.opt_autoConnect := true |}
              "call-123"%string "alice"%string "Alice"%string (Hook.mount Hook.initial) [])
    as [Hlog Hstate]; [reflexivity|reflexivity|reflexivity|discriminate|discriminate|discriminate|].
  split; [exact Hlog|].
  split; [rewrite (Hstate Sample.token_response); reflexivity|].
  destruct (Hlone (VStr "call-123") (VStr "alice") (VStr "Alice") []) as (body & _ & Htoken).
  apply (Htoken Sample.token_response). reflexivity.
Defined.

(** C2 as it is stated fails on the stand-alone [getJoinToken]: it sends the
    room id under the name [roomId], and of the answer its caller receives the
    token string, not the record. *)
Lemma C2_counterexample :
  let net := Spec.always (Spec.success (Spec.TokenResponse_value Sample.token_response)) in
  let run := LiveKit.getJoinToken net (VStr "room-2") (VStr "alice") (VStr "Alice") [] in
  run.1 = Resolved (VStr "jwt")
  ∧ run.1 ≠ Resolved (Spec.TokenResponse_value Sample.token_response)
  ∧ run.2 = [Spec.page_post "/api/participants/token"
               (Some (JObj [("roomId", JStr "room-2"); ("identity", JStr "alice");
                            ("name", JStr "Alice")]))]
  ∧ run.2 ≠ [Spec.page_post "/api/participants/token"
               (Some (Spec.token_body "room-2" "alice" "Alice" None VUndefined))].
Proof. cbv zeta. split; [reflexivity|]. split; [discriminate|]. split; [reflexivity|discriminate]. Qed.

(** ** Data packets *)

Lemma strict_eq_VStr (v : value) (t : string) : strict_eq v (VStr t) = true ↔ v = VStr t.
Proof.
  destruct v; simpl; try (split; [done|by intros [=]]).
  rewrite String.eqb_eq. split; [by intros ->|by intros [=]].
Qed.

Lemma transcript_text_Some (parsed : settled exn value) (text : value) :
  Spec.transcript_text parsed = Some text
  ↔ ∃ data, parsed = Resolved data
            ∧ get_prop data "type" = Resolved (VStr "transcript")
            ∧ get_prop data "text" = Resolved text.
Proof.
  unfold Spec.transcript_text. split.
  - destruct parsed as [[| | | | | |fields]|]; try done.
    destruct (strict_eq _ _) eqn:Heq; [|done].
    apply strict_eq_VStr in Heq. intros [= <-]. eexists. split; [done|].
    simpl. by rewrite Heq.
  - intros (data & -> & Htype & Htext).
    destruct data as [| | | | | |fields]; cbn [get_prop] in Htype, Htext; try done.
    injection Htype as Htype. injection Htext as <-.
    by rewrite Htype.
Qed.

Lemma speaker_of_or_else (participant : option LiveKit.RemoteParticipant) :
  or_else (match participant with
           | Some p => VStr (LiveKit.rp_identity p)
           | None => VUndefined
           end) (VStr "Unknown")
  = Spec.speaker_of participant.
Proof.
  destruct participant as [p|]; [|done]. unfold Spec.speaker_of, or_else.
  destruct (decide (LiveKit.rp_identity p = ""%string)) as [->|Hne]; [done|].
  apply truthy_VStr in Hne. by rewrite Hne.
Qed.

Section DataPackets.

Context (decode : list Byte.byte → string) (JSON_parse : string → settled exn value).
Context {S : Type}.

(** What the listener does, case by case: it completes; it calls the
    callback, once, exactly when one is registered and the payload is a
    transcript message; otherwise it leaves the state of the callback as it
    was. *)
Lemma onDataReceived_run (cb : option (LiveKit.TranscriptCallback (S := S)))
    payload participant (fx : LiveKit.Effects) :
  ∃ errors,
    LiveKit.onDataReceived decode JSON_parse cb payload participant fx
    = (Resolved tt,
       match cb, Spec.transcript_text (JSON_parse (decode payload)) with
       | Some callback, Some text =>
           LiveKit.mkEffects
             (LiveKit.calls fx ++ [(text, Spec.speaker_of participant)])
             (LiveKit.logged fx ++ errors)
             (callback text (Spec.speaker_of participant) (LiveKit.listener fx)).2
       | _, _ =>
           LiveKit.mkEffects (LiveKit.calls fx) (LiveKit.logged fx ++ errors) (LiveKit.listener fx)
       end).
Proof.
  unfold LiveKit.onDataReceived, LiveKit.try_catch, LiveKit.sync_bind, LiveKit.lift,
    LiveKit.console_error, LiveKit.call_back, Spec.transcript_text.
  rewrite speaker_of_or_else.
  destruct (JSON_parse (decode payload)) as [data|err]; cbn [fst snd].
  - destruct data as [| |b|n|t|items|fields]; cbn [get_prop strict_eq].
    1,2: by (eexists [_]; destruct cb).
    1,2,3,4: by (exists []; rewrite app_nil_r; destruct fx, cb).
    destruct (strict_eq _ _).
    + destruct cb as [callback|]; [|by (exists []; rewrite app_nil_r; destruct fx)].
      destruct (callback _ _ _) as [[[]|err] s']; cbn [fst snd LiveKit.calls
        LiveKit.logged LiveKit.listener].
      * exists []. by rewrite app_nil_r.
      * by eexists [_].
    + exists []. rewrite app_nil_r. by destruct fx, cb.
  - eexists [_]. by destruct cb.
Qed.

End DataPackets.

(** C9. The listener for data packets completes whatever the payload is: no
    exception leaves it. It calls the transcript callback at most once, and
    only when the payload parses to a value whose [type] is 'transcript'; the
    speaker it passes is, for every sender, [Spec.speaker_of]: the sender's
    identity when there is a sender and its identity is not empty, and
    'Unknown' otherwise (no sender, or a sender whose identity is the empty
    string). A payload that does not parse, or whose type is another, leads to
    no call and leaves the state of the callback as it was. *)
Theorem C9_data_listener (decode : list Byte.byte → string)
    (JSON_parse : string → settled exn value) (S : Type)
    (callback : option (LiveKit.TranscriptCallback (S := S)))
    (payload : list Byte.byte) (participant : option LiveKit.RemoteParticipant)
    (fx : LiveKit.Effects) :
  let run := LiveKit.onDataReceived decode JSON_parse callback payload participant fx in
  run.1 = Resolved tt
  ∧ (LiveKit.calls run.2 = LiveKit.calls fx
     ∨ ∃ text speaker,
         LiveKit.calls run.2 = LiveKit.calls fx ++ [(text, speaker)]
         ∧ (∃ data, JSON_parse (decode payload) = Resolved data
                    ∧ get_prop data "type" = Resolved (VStr "transcript")
                    ∧ get_prop data "text" = Resolved text)
         ∧ speaker = Spec.speaker_of participant)
  ∧ ((∀ data, JSON_parse (decode payload) = Resolved data →
              get_prop data "type" ≠ Resolved (VStr "transcript")) →
     LiveKit.calls run.2 = LiveKit.calls fx ∧ LiveKit.listener run.2 = LiveKit.listener fx).
Proof.
  cbv zeta.
  destruct (onDataReceived_run decode JSON_parse callback payload participant fx)
    as [errors ->]. cbn [fst snd].
  split; [done|].
  destruct (Spec.transcript_text (JSON_parse (decode payload))) as [text|] eqn:Htext.
  - apply transcript_text_Some in Htext as (data & Hparse & Htype & Htext).
    split.
    + destruct callback as [f|]; [right|by left].
      exists text, (Spec.speaker_of participant). split; [done|]. split; [eauto|]. done.
    + intros Hno. by destruct (Hno data Hparse).
  - split; [left|intros _]; by destruct callback.
Qed.

Lemma C9_witness :
  let run := LiveKit.onDataReceived Sample.decode Sample.parse
               (Some (Hook.onTranscript 9)) [Byte.x68; Byte.x69] (Some Sample.agent_a)
               (LiveKit.mkEffects [] [] (Hook.mount Hook.initial)) in
  LiveKit.rp_identity Sample.agent_a ≠ ""%string
  ∧ run.1 = Resolved tt
  ∧ LiveKit.calls run.2 = [(VStr "hi", VStr "agent-a")]
  ∧ (LiveKit.onDataReceived Sample.decode (fun _ => Rejected (ErrorObj "SyntaxError" "Unexpected token"))
       (Some (Hook.onTranscript 9)) [Byte.x68; Byte.x69] (Some Sample.agent_a)
       (LiveKit.mkEffects [] [] (Hook.mount Hook.initial))).2
    = LiveKit.mkEffects [] [ErrorObj "SyntaxError" "Unexpected token"] (Hook.mount Hook.initial).
Proof.
  cbv zeta. split; [discriminate|].
  destruct (C9_data_listener Sample.decode Sample.parse Hook.State
              (Some (Hook.onTranscript 9)) [Byte.x68; Byte.x69] (Some Sample.agent_a)
              (LiveKit.mkEffects [] [] (Hook.mount Hook.initial))) as (Hdone & Hcalls & _).
  split; [exact Hdone|]. split; [reflexivity|].
  destruct (C9_data_listener Sample.decode
              (fun _ => Rejected (ErrorObj "SyntaxError" "Unexpected token")) Hook.State
              (Some (Hook.onTranscript 9)) [Byte.x68; Byte.x69] (Some Sample.agent_a)
              (LiveKit.mkEffects [] [] (Hook.mount Hook.initial))) as (_ & _ & Hignored).
  destruct Hignored as [Hc Hl]; [intros data; discriminate|].
  reflexivity.
Defined.

(** A sender is present and its identity is the empty string: the speaker
    that the callback receives is 'Unknown', not the sender's identity. *)
Lemma C9_counterexample :
  let nameless := {| LiveKit.rp_identity := "" |} in
  let run := LiveKit.onDataReceived Sample.decode Sample.parse
               (Some (Hook.onTranscript 9)) [Byte.x68; Byte.x69] (Some nameless)
               (LiveKit.mkEffects [] [] (Hook.mount Hook.initial)) in
  LiveKit.calls run.2 = [(VStr "hi", VStr "Unknown")]
  ∧ VStr "Unknown" ≠ VStr (LiveKit.rp_identity nameless).
Proof. cbv zeta. split; [reflexivity|discriminate]. Qed.

(** ** The transcript of the hook *)


Lemma string_app_assoc (s t u : string) : (s +:+ t) +:+ u = s +:+ t +:+ u.
Proof.
  induction s as [|a s IH]; [reflexivity|].
  change (String a ((s +:+ t) +:+ u) = String a (s +:+ t +:+ u)). by rewrite IH.
Qed.



Section Transcript.

Context (net : Http.network) (baseUrl : string).
Context (manager_connect : LiveKit.LiveKitConfig → settled exn unit).
Context (decode : list Byte.byte → string) (JSON_parse : string → settled exn value).
Context (options : Hook.Options).

Abbreviation step := (Hook.step net baseUrl manager_connect decode JSON_parse options).






(** What a speech-recognition result event does to the transcript. *)
Lemma onresult_transcript now event s :
  Hook.transcript (Hook.recognition_onresult options now event s)
  = Hook.transcript s
    ++ match Hook.final_text (drop (Hook.resultIndex event) (Hook.results event)) "" with
       | Resolved finalTranscript =>
           if decide (finalTranscript = ""%string) then []
           else [{| Hook.speaker := or_else (Hook.opt_identity options) (VStr "You");
                    Hook.text := VStr (Hook.trim finalTranscript);
                    Hook.timestamp := now |}]
       | Rejected _ => []
       end.
Proof.
  unfold Hook.recognition_onresult.
  destruct (Hook.final_text _ _) as [finalTranscript|err]; [|by rewrite app_nil_r].
  destruct (decide (finalTranscript = ""%string)) as [->|Hne]; [by rewrite app_nil_r|].
  apply truthy_VStr in Hne. by rewrite Hne.
Qed.


End Transcript.




(** ** The transfer registry *)

Section RegistryFacts.

Import Registry.

Lemma busy_true room reg :
  busy room reg = true ↔ ∃ i t, transfers reg !! i = Some t ∧ in_flight room t.
Proof.
  unfold busy. rewrite bool_decide_eq_true. apply map_Exists_lookup.
Qed.

Lemma busy_false room reg i t :
  busy room reg = false → transfers reg !! i = Some t → source_room t = room →
  terminal (state t) = true.
Proof.
  intros Hidle Hi Hroom. destruct (terminal (state t)) eqn:Hterm; [done|].
  assert (busy room reg = true) by (apply busy_true; by exists i, t).
  congruence.
Qed.

Lemma empty_well_formed : well_formed empty.
Proof. split; intros i; intros; simplify_map_eq. Qed.

(** An accepted [initiate] returns the next id and leaves the room busy. *)
Lemma initiate_idle room agent target_agent caller_id reg :
  busy room reg = false →
  ∃ reg', initiate room agent target_agent caller_id reg = (Resolved (next_id reg), reg')
          ∧ busy room reg' = true
          ∧ (well_formed reg → well_formed reg').
Proof.
  intros Hidle. unfold initiate. rewrite Hidle. eexists; split; [done|]. split.
  - apply busy_true. eexists _, _. split; [apply lookup_insert_eq|done].
  - intros [Hone Hids]. split.
    + intros i j ti tj Hi Hj Hroom Hti Htj. cbn [transfers] in Hi, Hj.
      apply lookup_insert_Some in Hi as [[<- <-]|[Hni Hi]];
        apply lookup_insert_Some in Hj as [[<- <-]|[Hnj Hj]]; try done.
      * simpl in Hroom. pose proof (busy_false room reg j tj Hidle Hj (eq_sym Hroom)).
        congruence.
      * simpl in Hroom. pose proof (busy_false room reg i ti Hidle Hi Hroom).
        congruence.
      * by apply (Hone i j ti tj).
    + intros i t Hi. cbn [transfers next_id] in *.
      apply lookup_insert_Some in Hi as [[<- <-]|[Hni Hi]]; [lia|].
      apply Hids in Hi. lia.
Qed.

Lemma initiate_busy room agent target_agent caller_id reg :
  busy room reg = true →
  initiate room agent target_agent caller_id reg = (Rejected TransferConflict, reg).
Proof. intros Hbusy. unfold initiate. by rewrite Hbusy. Qed.

(** A transfer that is not in a terminal state changes its state: the
    invariant is kept, and so is the room of every transfer. *)
Lemma update_well_formed id t st reason reg :
  transfers reg !! id = Some t → terminal (state t) = false →
  well_formed reg →
  well_formed (mkRegistry (<[id := with_state st reason t]> (transfers reg)) (next_id reg)).
Proof.
  intros Hid Hlive [Hone Hids].
  assert (Hback : ∀ k t', <[id := with_state st reason t]> (transfers reg) !! k = Some t' →
                          terminal (state t') = false →
                          ∃ t0, transfers reg !! k = Some t0
                                ∧ source_room t0 = source_room t'
                                ∧ terminal (state t0) = false).
  { intros k t' Hk Hlive'.
    apply lookup_insert_Some in Hk as [[<- <-]|[Hne Hk]]; eauto. }
  split.
  - intros i j ti tj Hi Hj Hroom Hti Htj. cbn [transfers] in Hi, Hj.
    destruct (Hback i ti Hi Hti) as (ti0 & Hi0 & Hri & Hli).
    destruct (Hback j tj Hj Htj) as (tj0 & Hj0 & Hrj & Hlj).
    apply (Hone i j ti0 tj0); congruence.
  - intros i t' Hi. cbn [transfers next_id] in *.
    apply lookup_insert_Some in Hi as [[<- <-]|[Hne Hi]]; eauto.
Qed.

Lemma next_states_live st to : to ∈ next_states st → terminal st = false.
Proof. destruct st; simpl; try done; by intros ?%elem_of_nil. Qed.

Lemma cancellable_live st : cancellable st = true → terminal st = false.
Proof. by destruct st. Qed.

Lemma apply_well_formed op reg : well_formed reg → well_formed (apply op reg).
Proof.
  intros Hwf. destruct op as [room agent target_agent caller_id|id to|id|id reason]; simpl.
  - destruct (busy room reg) eqn:Hbusy.
    + by rewrite initiate_busy.
    + destruct (initiate_idle room agent target_agent caller_id reg Hbusy)
        as (reg' & -> & _ & Hwf'). by apply Hwf'.
  - unfold advance. destruct (transfers reg !! id) as [t|] eqn:Hid; [|done].
    case_bool_decide as Hnext; [|done].
    apply update_well_formed; [done| |done]. by eapply next_states_live.
  - unfold cancel. destruct (transfers reg !! id) as [t|] eqn:Hid; [|done].
    destruct (cancellable (state t)) eqn:Hc.
    + apply update_well_formed; [done| |done]. by apply cancellable_live.
    + by destruct (terminal (state t)).
  - unfold fail. destruct (transfers reg !! id) as [t|] eqn:Hid; [|done].
    destruct (terminal (state t)) eqn:Hterm; [done|].
    by apply update_well_formed.
Qed.

Lemma run_well_formed ops reg : well_formed reg → well_formed (run ops reg).
Proof.
  revert reg. induction ops as [|op ops IH]; intros reg Hwf; [done|].
  apply IH. by apply apply_well_formed.
Qed.

(** Calls that race on a busy room all receive the conflict. *)
Lemma race_busy room calls reg :
  busy room reg = true →
  race room calls reg = (replicate (length calls) (Rejected TransferConflict), reg).
Proof.
  intros Hbusy. induction calls as [|[[agent target_agent] caller_id] rest IH]; [done|].
  cbn [race]. rewrite initiate_busy by done. by rewrite IH.
Qed.

End RegistryFacts.

(** C3. In every registry that a history of requests leads to, each source
    room has at most one transfer in a non-terminal state. When [initiate]
    calls race on one room (they take the room's lock one after the other,
    in any order), the invariant holds afterwards; on a room with no transfer
    in flight exactly one call, the first to take the lock, succeeds and returns the
    id of the new transfer, and every other call receives [TransferConflict];
    on a room that has a transfer in flight they all receive it. *)
Theorem C3_at_most_one_transfer_in_flight (ops : list Registry.Op) (room : string)
    (calls : list (string * string * string)) :
  let reg := Registry.run ops Registry.empty in
  let results := (Registry.race room calls reg).1 in
  let reg' := (Registry.race room calls reg).2 in
  Registry.at_most_one reg
  ∧ Registry.at_most_one reg'
  ∧ (Registry.busy room reg = true →
     results = replicate (length calls) (Rejected Registry.TransferConflict))
  ∧ (Registry.busy room reg = false → calls ≠ [] →
     results = Resolved (Registry.next_id reg)
               :: replicate (length calls - 1) (Rejected Registry.TransferConflict)
     ∧ Registry.busy room reg' = true).
Proof.
  cbv zeta.
  pose proof (run_well_formed ops Registry.empty empty_well_formed) as Hwf.
  set (reg := Registry.run ops Registry.empty) in *.
  split; [apply Hwf|]. split; [|split].
  - destruct (Registry.busy room reg) eqn:Hbusy.
    + rewrite race_busy by done. apply Hwf.
    + destruct calls as [|[[agent target_agent] caller_id] rest]; [apply Hwf|].
      cbn [Registry.race].
      destruct (initiate_idle room agent target_agent caller_id reg Hbusy)
        as (reg1 & -> & Hbusy1 & Hwf1).
      rewrite race_busy by done. by apply Hwf1.
  - intros Hbusy. by rewrite race_busy.
  - intros Hidle Hcalls.
    destruct calls as [|[[agent target_agent] caller_id] rest]; [done|].
    cbn [Registry.race].
    destruct (initiate_idle room agent target_agent caller_id reg Hidle)
      as (reg1 & -> & Hbusy1 & _).
    rewrite race_busy by done. cbn [fst snd length]. simpl. by rewrite ?Nat.sub_0_r.
Qed.

Lemma C3_witness :
  let reg := Registry.run Sample.history Registry.empty in
  Registry.busy "room-1" reg = false ∧ Registry.busy "room-2" reg = true
  ∧ Sample.racing_calls ≠ []
  ∧ (Registry.race "room-1" Sample.racing_calls reg).1
    = [Resolved 2%nat; Rejected Registry.TransferConflict]
  ∧ (Registry.race "room-2" Sample.racing_calls reg).1
    = [Rejected Registry.TransferConflict; Rejected Registry.TransferConflict].
Proof.
  cbv zeta.
  assert (Hidle : Registry.busy "room-1" (Registry.run Sample.history Registry.empty) = false)
    by (vm_compute; reflexivity).
  assert (Hbusy : Registry.busy "room-2" (Registry.run Sample.history Registry.empty) = true)
    by (vm_compute; reflexivity).
  split; [exact Hidle|]. split; [exact Hbusy|]. split; [discriminate|]. split.
  - destruct (C3_at_most_one_transfer_in_flight Sample.history "room-1" Sample.racing_calls)
      as (_ & _ & _ & Hrace).
    destruct (Hrace Hidle) as [Hresults _]; [discriminate|]. exact Hresults.
  - destruct (C3_at_most_one_transfer_in_flight Sample.history "room-2" Sample.racing_calls)
      as (_ & _ & Hrace & _).
    exact (Hrace Hbusy).
Defined.

(** * Further properties of the client *)

(** ** Requests of the API client *)

Lemma assoc_set_prop {V : Type} (k k' : string) (v : V) (ps : list (string * V)) :
  assoc k (set_prop k' v ps) = if String.eqb k' k then Some v else assoc k ps.
Proof.
  induction ps as [|[k0 v0] rest IH]; simpl.
  - by destruct (String.eqb k' k).
  - destruct (String.eqb k0 k') eqn:Hk0; simpl.
    + apply String.eqb_eq in Hk0 as ->. by destruct (String.eqb k' k).
    + destruct (String.eqb k0 k) eqn:Hk; [|done].
      apply String.eqb_eq in Hk as ->. by rewrite String.eqb_sym, Hk0.
Qed.

(** [{...a, ...b}]: a key takes the value that [b] gives it last, and the
    value of [a] when [b] has none. *)
Lemma assoc_spread {V : Type} (k : string) (a b : list (string * V)) :
  assoc k (spread a b) = match assoc k (rev b) with
                         | Some v => Some v
                         | None => assoc k a
                         end.
Proof.
  unfold spread. induction b as [|[k' v'] b IH] using rev_ind; [done|].
  rewrite fold_left_app, rev_unit. simpl. rewrite assoc_set_prop.
  by destruct (String.eqb k' k).
Qed.

(** The decimal digits of an index are no name of a header that the client
    sets. *)
Lemma pretty_N_go_ne_C (x : N) (s s' : string) :
  s ≠ String "C" s' → pretty_N_go x s ≠ String "C" s'.
Proof.
  revert s. induction (N.lt_wf_0 x) as [x _ IH]; intros s Hs.
  assert (x = 0 ∨ 0 < x)%N as [->|Hx] by lia.
  - by rewrite pretty_N_go_0.
  - rewrite pretty_N_go_step by done. apply IH.
    { by apply N.div_lt. }
    unfold pretty_N_char. by repeat case_match.
Qed.

Lemma pretty_index_ne_content_type (i : nat) : pretty i ≠ "Content-Type"%string.
Proof.
  unfold pretty, pretty_nat, pretty, pretty_N. case_decide; [done|].
  by apply pretty_N_go_ne_C.
Qed.

Section ArrayOfPairs.

Context (value_of : string * string → string).

Lemma assoc_index (pairs : list (string * string)) (i : nat) (pair : string * string) :
  pairs !! i = Some pair →
  assoc (pretty i) (rev (imap (fun (i : nat) pair => (pretty i, value_of pair)) pairs))
  = Some (value_of pair).
Proof.
  revert i. induction pairs as [|x l IH] using rev_ind; intros i Hi; [done|].
  rewrite imap_app, rev_app_distr. cbn [imap rev app assoc fst snd].
  rewrite Nat.add_0_r.
  destruct (decide (i = length l)) as [->|Hne].
  - rewrite String.eqb_refl. rewrite list_lookup_middle in Hi by done. by simplify_eq.
  - assert (Hlt : (i < length l)%nat).
    { apply lookup_lt_Some in Hi. rewrite length_app in Hi. simpl in Hi. lia. }
    rewrite lookup_app_l in Hi by done.
    destruct (String.eqb (pretty (length l)) (pretty i)) eqn:Heq; [|by apply IH].
    apply String.eqb_eq in Heq. apply (inj pretty) in Heq. lia.
Qed.

Lemma assoc_no_index (pairs : list (string * string)) :
  assoc "Content-Type"
    (rev (imap (fun (i : nat) pair => (pretty i, value_of pair)) pairs)) = None.
Proof.
  induction pairs as [|x l IH] using rev_ind; [done|].
  rewrite imap_app, rev_app_distr. cbn [imap rev app assoc fst snd].
  destruct (String.eqb (pretty (length l + 0)%nat) "Content-Type") eqn:Heq; [|done].
  apply String.eqb_eq in Heq. by apply pretty_index_ne_content_type in Heq.
Qed.

End ArrayOfPairs.

(** X1. The headers object that [request] hands to [fetch] is the default
    JSON content type overridden by the own enumerable properties of
    [options.headers]. For a plain object it has every property the caller
    set, with the caller's value, the content type is JSON when the caller
    set none, and it has no other property. For a [Headers] object, which
    holds its headers in no property, and without headers, the JSON content
    type is its only property: what the [Headers] object holds is dropped.
    For an array of pairs the content type stays JSON and each pair is a
    property named by its index, with the name, a comma and the value as its
    value. *)
Theorem X1_request_merges_headers (net : Http.network) (baseUrl endpoint : string)
    (options : ApiClient.Options) (log : list Http.Request) :
  ∃ req,
    (ApiClient.request net baseUrl endpoint options log).2 = log ++ [req]
    ∧ (∀ entries, ApiClient.headers options = Some (ApiClient.HeadersRecord entries) →
         ∀ k, assoc k (Http.headers (Http.init req))
              = match assoc k (rev entries) with
                | Some v => Some v
                | None => if String.eqb "Content-Type" k
                          then Some "application/json"%string else None
                end)
    ∧ (ApiClient.headers options = None
       ∨ (∃ entries, ApiClient.headers options = Some (ApiClient.HeadersObject entries)) →
       Http.headers (Http.init req) = [("Content-Type", "application/json")]%string)
    ∧ (∀ pairs, ApiClient.headers options = Some (ApiClient.HeadersPairs pairs) →
         assoc "Content-Type" (Http.headers (Http.init req)) = Some "application/json"%string
         ∧ ∀ (i : nat) name value, pairs !! i = Some (name, value) →
             assoc (pretty i) (Http.headers (Http.init req))
             = Some (name +:+ "," +:+ value)%string).
Proof.
  eexists (Http.mkRequest (baseUrl +:+ endpoint)
             (Http.mkInit (ApiClient.method options)
                (spread ApiClient.defaultHeaders
                   (ApiClient.own_properties (ApiClient.headers options)))
                (ApiClient.body options))).
  split.
  { unfold ApiClient.request, Http.async_bind, Http.fetch, Http.async_ret. simpl.
    by destruct (net log _). }
  cbn [Http.init Http.headers]. split; [|split].
  - intros entries -> k. cbn [ApiClient.own_properties]. by rewrite assoc_spread.
  - by intros [->|[entries ->]].
  - intros pairs ->. cbn [ApiClient.own_properties]. split.
    + rewrite assoc_spread. by rewrite (assoc_no_index (fun pair => pair.1 +:+ "," +:+ pair.2)).
    + intros i name value Hi. rewrite assoc_spread.
      by rewrite (assoc_index (fun pair => pair.1 +:+ "," +:+ pair.2) pairs i (name, value) Hi).
Qed.

Lemma X1_witness :
  let sent (h : ApiClient.HeadersInit) :=
    map (fun req => Http.headers (Http.init req))
      (ApiClient.request (Spec.always Sample.unavailable) Sample.base "/api/health"
         (ApiClient.mkOptions None (Some h) None) []).2 in
  sent (ApiClient.HeadersObject [("X-Trace", "1")])
  = [[("Content-Type", "application/json")]]%string
  ∧ sent (ApiClient.HeadersRecord [("Content-Type", "text/plain"); ("X-Trace", "1")])
    = [[("Content-Type", "text/plain"); ("X-Trace", "1")]]%string
  ∧ sent (ApiClient.HeadersPairs [("X-Trace", "1")])
    = [[("Content-Type", "application/json"); ("0", "X-Trace,1")]]%string.
Proof.
  cbv zeta.
  destruct (X1_request_merges_headers (Spec.always Sample.unavailable) Sample.base "/api/health"
              (ApiClient.mkOptions None (Some (ApiClient.HeadersObject [("X-Trace", "1")])) None)
              []) as (req & Hlog & _ & Hdropped & _).
  rewrite Hlog. cbn [app map]. rewrite Hdropped by (right; by eexists).
  split; [reflexivity|]. split; reflexivity.
Defined.

Lemma prefix_app (a b c : string) : String.prefix (a +:+ b) (a +:+ c) = String.prefix b c.
Proof.
  induction a as [|x a IH]; [done|].
  change (String.prefix (String x (a +:+ b)) (String x (a +:+ c)) = String.prefix b c).
  simpl. destruct (ascii_dec x x); [done|congruence].
Qed.

(** X2. Whatever operation of the client is invoked, the one request it
    issues goes to a path under [/api/] of the base URL, its only header is
    the JSON content type, its method is GET (none given), POST or DELETE, and
    it carries a body only when it is a POST. *)
Theorem X2_operations_shape (net : Http.network) (baseUrl : string) (call : ApiClient.Call)
    (log : list Http.Request) :
  ∃ req,
    (ApiClient.invoke net baseUrl call log).2 = log ++ [req]
    ∧ String.prefix (baseUrl +:+ "/api/") (Http.url req) = true
    ∧ Http.headers (Http.init req) = [("Content-Type", "application/json")]%string
    ∧ Http.method (Http.init req) ∈ [None; Some "POST"; Some "DELETE"]%string
    ∧ (is_Some (Http.body (Http.init req)) → Http.method (Http.init req) = Some "POST"%string).
Proof.
  destruct call as [ |data| |roomName|data|tid agent|data|ident rid|cid|cid|cid hold];
    cbn [ApiClient.invoke];
    cbv [ApiClient.healthCheck ApiClient.createRoom ApiClient.listRooms
         ApiClient.findRoomByName ApiClient.transferCall ApiClient.completeConsultation
         ApiClient.generateJoinToken ApiClient.removeParticipant
         ApiClient.generateCallSummary ApiClient.getCallTranscript
         ApiClient.holdCall ApiClient.no_options ApiClient.post Http.async_bind];
    rewrite request_unfold;
    try (destruct (Spec.answer net log _));
    (eexists; split; [reflexivity|]);
    cbn [Spec.api_request Http.url Http.init Http.headers Http.method Http.body];
    rewrite prefix_app;
    (split; [reflexivity|]); (split; [reflexivity|]);
    (split; [set_solver|]);
    try done; by intros [? [=]].
Qed.

Lemma X2_witness :
  ∃ req,
    (ApiClient.invoke (Spec.always Sample.unavailable) Sample.base
       (ApiClient.HoldCall (VStr "call-1") VUndefined) []).2 = [req]
    ∧ is_Some (Http.body (Http.init req))
    ∧ Http.method (Http.init req) = Some "POST"%string.
Proof.
  destruct (X2_operations_shape (Spec.always Sample.unavailable) Sample.base
              (ApiClient.HoldCall (VStr "call-1") VUndefined) [])
    as (req & Hlog & _ & _ & _ & Hpost).
  exists req. split; [exact Hlog|].
  assert (Hbody : is_Some (Http.body (Http.init req))).
  { simpl in Hlog. injection Hlog as <-. simpl. eexists. reflexivity. }
  split; [exact Hbody | exact (Hpost Hbody)].
Defined.

(** X3. The other operations of the client each issue the one request of
    their endpoint and return what it settles to: [completeConsultation]
    posts [{agent_identity}] to the transfer's [complete-consultation] path;
    [removeParticipant] sends a DELETE without body, with the identity in the
    path and the room id in the query, both as they are (nothing is
    percent-encoded); [generateCallSummary] posts without body;
    [getCallTranscript], [healthCheck] and [listRooms] send a GET. *)
Theorem X3_other_endpoints (net : Http.network) (baseUrl : string) (a b : string)
    (log : list Http.Request) :
  let sends (m : Http.Async value) (req : Http.Request) :=
    m log = (Spec.answer net log req, log ++ [req]) in
  sends (ApiClient.completeConsultation net baseUrl (VStr a) (VStr b))
    (Spec.api_request baseUrl ("/api/rooms/transfer/" +:+ a +:+ "/complete-consultation")
       (Some "POST") (Some (JObj [("agent_identity", JStr b)])))
  ∧ sends (ApiClient.removeParticipant net baseUrl (VStr a) (VStr b))
      (Spec.api_request baseUrl ("/api/participants/" +:+ a +:+ "?room_id=" +:+ b)
         (Some "DELETE") None)
  ∧ sends (ApiClient.generateCallSummary net baseUrl (VStr a))
      (Spec.api_request baseUrl ("/api/calls/" +:+ a +:+ "/summary") (Some "POST") None)
  ∧ sends (ApiClient.getCallTranscript net baseUrl (VStr a))
      (Spec.api_request baseUrl ("/api/calls/" +:+ a +:+ "/transcript") None None)
  ∧ sends (ApiClient.healthCheck net baseUrl) (Spec.api_request baseUrl "/api/health" None None)
  ∧ sends (ApiClient.listRooms net baseUrl) (Spec.api_request baseUrl "/api/rooms/" None None).
Proof.
  cbv zeta.
  unfold ApiClient.completeConsultation, ApiClient.removeParticipant,
    ApiClient.generateCallSummary, ApiClient.getCallTranscript, ApiClient.healthCheck,
    ApiClient.listRooms, ApiClient.post, ApiClient.no_options.
  by rewrite !request_unfold.
Qed.

Example removeParticipant_not_encoded :
  (ApiClient.removeParticipant (Spec.always Sample2.no_content) Sample.base
     (VStr "agent a/b") (VStr "room&x=1") [])
  = (Resolved (VObj []),
     [Spec.api_request Sample.base "/api/participants/agent a/b?room_id=room&x=1"
        (Some "DELETE") None]).
Proof. reflexivity. Qed.

(** ** Searching a room by name, continued *)

Lemma find_first {A : Type} (p : A → bool) (pre post : list A) (x : A) :
  p x = true → (∀ y, y ∈ pre → p y = false) → List.find p (pre ++ x :: post) = Some x.
Proof.
  intros Hx Hpre. induction pre as [|y pre IH]; simpl.
  - by rewrite Hx.
  - rewrite (Hpre y) by set_solver. apply IH. intros z Hz. apply Hpre. set_solver.
Qed.

(** X4. When several rooms of the listing are active and named [n],
    [findRoomByName(n)] resolves to the one that comes first in the
    listing. *)
Theorem X4_findRoomByName_first (net : Http.network) (baseUrl : string)
    (pre post : list Spec.Room) (r : Spec.Room) (n : string) (log : list Http.Request) :
  Spec.lists_rooms net baseUrl log (pre ++ r :: post) →
  Spec.named_active n r →
  (∀ r', r' ∈ pre → ¬ Spec.named_active n r') →
  (ApiClient.findRoomByName net baseUrl (VStr n) log).1 = Resolved (Spec.Room_value r).
Proof.
  intros (response & Hnet & Hok & Hjson & Hbody) Hr Hpre.
  unfold ApiClient.findRoomByName, ApiClient.listRooms, ApiClient.no_options, Http.async_bind.
  rewrite request_unfold. unfold Spec.answer, Spec.respond.
  rewrite Hnet, Hok, Hjson, Hbody. cbn [Http.async_ret fst].
  rewrite array_find_rooms, (find_first _ pre post r); [done| |].
  - by apply named_active_test.
  - intros r' Hin. specialize (Hpre r' Hin).
    destruct (_ && _) eqn:Ht; [|done]. by apply named_active_test in Ht.
Qed.

Lemma X4_witness :
  let rooms := [Sample.closed_room; Sample.other_room] ++ Sample.open_room :: [Sample2.second_open_room] in
  let net := Spec.always (Spec.success (VArr (map Spec.Room_value rooms))) in
  Spec.lists_rooms net Sample.base [] rooms
  ∧ Spec.named_active "call-123" Sample.open_room
  ∧ Spec.named_active "call-123" Sample2.second_open_room
  ∧ (ApiClient.findRoomByName net Sample.base (VStr "call-123") []).1
    = Resolved (Spec.Room_value Sample.open_room).
Proof.
  cbv zeta.
  assert (Hlist : Spec.lists_rooms
            (Spec.always (Spec.success (VArr (map Spec.Room_value
               ([Sample.closed_room; Sample.other_room]
                ++ Sample.open_room :: [Sample2.second_open_room])))))
            Sample.base []
            ([Sample.closed_room; Sample.other_room]
             ++ Sample.open_room :: [Sample2.second_open_room])).
  { eexists. split; [reflexivity|]. split; [reflexivity|]. split; reflexivity. }
  assert (Hopen : Spec.named_active "call-123" Sample.open_room) by (split; reflexivity).
  split; [exact Hlist|]. split; [exact Hopen|]. split; [split; reflexivity|].
  apply (X4_findRoomByName_first _ _ _ _ _ _ _ Hlist Hopen).
  intros r' Hin [Hname Hactive].
  apply elem_of_cons in Hin as [->|Hin]; [discriminate|].
  apply elem_of_cons in Hin as [->|Hin]; [discriminate|].
  by apply elem_of_nil in Hin.
Defined.

(** X5. [findRoomByName] does not tell a failed lookup from a room that is
    not there by its result: a listing that fails rejects with the error of
    the request, after that one request; an ok answer that is not JSON (which
    [request] turns into an empty object) rejects with a TypeError, since an
    object has no [find]. *)
Theorem X5_findRoomByName_failures (net : Http.network) (baseUrl : string) (roomName : value)
    (log : list Http.Request) :
  let req := Spec.api_request baseUrl "/api/rooms/" None None in
  let run := ApiClient.findRoomByName net baseUrl roomName log in
  run.2 = log ++ [req]
  ∧ (∀ err, Spec.answer net log req = Rejected err → run.1 = Rejected err)
  ∧ (∀ response, net log req = Resolved response → Http.ok response = true →
       Spec.is_json response = false →
       ∃ msg, run.1 = Rejected (ErrorObj "TypeError" msg)).
Proof.
  cbv zeta.
  unfold ApiClient.findRoomByName, ApiClient.listRooms, ApiClient.no_options, Http.async_bind.
  rewrite request_unfold. split; [by destruct (Spec.answer net log _)|]. split.
  - by intros err ->.
  - intros response Hnet Hok Hjson. unfold Spec.answer, Spec.respond.
    rewrite Hnet, Hok, Hjson. simpl. eauto.
Qed.

Lemma X5_witness :
  let req := Spec.api_request Sample.base "/api/rooms/" None None in
  Spec.always Sample2.no_content [] req = Resolved Sample2.no_content
  ∧ Http.ok Sample2.no_content = true ∧ Spec.is_json Sample2.no_content = false
  ∧ (∃ msg, (ApiClient.findRoomByName (Spec.always Sample2.no_content) Sample.base
               (VStr "call-123") []).1 = Rejected (ErrorObj "TypeError" msg))
  ∧ (ApiClient.findRoomByName (Spec.always Sample.unavailable) Sample.base (VStr "call-123") []).1
    = Rejected (ApiErr {| message := VStr "HTTP 503: Service Unavailable"; status := 503;
                          details := VUndefined |}).
Proof.
  cbv zeta. split; [reflexivity|]. split; [reflexivity|]. split; [reflexivity|]. split.
  - destruct (X5_findRoomByName_failures (Spec.always Sample2.no_content) Sample.base
                (VStr "call-123") []) as (_ & _ & Htype).
    apply (Htype Sample2.no_content); reflexivity.
  - destruct (X5_findRoomByName_failures (Spec.always Sample.unavailable) Sample.base
                (VStr "call-123") []) as (_ & Hfail & _).
    apply Hfail. reflexivity.
Defined.

(** ** The stand-alone request functions of livekit.ts *)

Section Standalone.

Context (net : Http.network).

(** What the four functions have in common: one POST to a path of the page's
    origin, and the same way with its answer, up to what is made of an ok
    answer. *)
Lemma standalone_createRoom roomName log :
  let req := Spec.page_post "/api/rooms/create" (stringify (VObj [("roomName", roomName)])) in
  LiveKit.createRoom net roomName log
  = (match net log req with
     | Resolved response =>
         if Http.ok response then Http.json response
         else Rejected (ErrorObj "Error" "Failed to create room")
     | Rejected err => Rejected err
     end, log ++ [req]).
Proof.
  unfold LiveKit.createRoom, Http.async_bind, Http.fetch, Http.async_ret, LiveKit.post,
    LiveKit.json_headers, Spec.page_post.
  cbv zeta. destruct (net log _) as [response|]; [|done]. by destruct (Http.ok response).
Qed.

Lemma standalone_initiateTransfer request log :
  let req := Spec.page_post "/api/rooms/transfer" (stringify (LiveKit.TransferRequest_obj request)) in
  LiveKit.initiateTransfer net request log
  = (match net log req with
     | Resolved response =>
         if Http.ok response then Http.json response
         else Rejected (ErrorObj "Error" "Failed to initiate transfer")
     | Rejected err => Rejected err
     end, log ++ [req]).
Proof.
  unfold LiveKit.initiateTransfer, Http.async_bind, Http.fetch, Http.async_ret, LiveKit.post,
    LiveKit.json_headers, Spec.page_post.
  cbv zeta. destruct (net log _) as [response|]; [|done]. by destruct (Http.ok response).
Qed.

Lemma standalone_generateCallSummary roomId log :
  let req := Spec.page_post ("/api/calls/" +:+ to_string roomId +:+ "/summary") None in
  LiveKit.generateCallSummary net roomId log
  = (match net log req with
     | Resolved response =>
         if Http.ok response then Http.json response
         else Rejected (ErrorObj "Error" "Failed to generate call summary")
     | Rejected err => Rejected err
     end, log ++ [req]).
Proof.
  unfold LiveKit.generateCallSummary, Http.async_bind, Http.fetch, Http.async_ret, LiveKit.post,
    LiveKit.json_headers, Spec.page_post.
  cbv zeta. destruct (net log _) as [response|]; [|done]. by destruct (Http.ok response).
Qed.

End Standalone.

(** X6. The stand-alone functions of livekit.ts drop what the server says
    about a failure: whatever the status and the body of a response that is
    not ok, each of them rejects with its own fixed error, after one POST to
    its path; a failure of the network is passed on as it is. *)
Theorem X6_standalone_fixed_errors (net : Http.network) (v1 v2 v3 : value)
    (request : LiveKit.TransferRequest) (log : list Http.Request) :
  let fails (m : Http.Async value) (path msg : string) :=
    ∃ body,
      let req := Spec.page_post path body in
      (m log).2 = log ++ [req]
      ∧ match net log req with
        | Rejected err => (m log).1 = Rejected err
        | Resolved response =>
            if Http.ok response then True
            else (m log).1 = Rejected (ErrorObj "Error" msg)
        end in
  fails (LiveKit.createRoom net v1) "/api/rooms/create" "Failed to create room"
  ∧ fails (LiveKit.getJoinToken net v1 v2 v3) "/api/participants/token" "Failed to get join token"
  ∧ fails (LiveKit.initiateTransfer net request) "/api/rooms/transfer" "Failed to initiate transfer"
  ∧ fails (LiveKit.generateCallSummary net v1) ("/api/calls/" +:+ to_string v1 +:+ "/summary")
      "Failed to generate call summary".
Proof.
  cbv zeta. split; [|split; [|split]].
  - eexists. rewrite standalone_createRoom. split; [done|]. cbn [fst].
    destruct (net log _) as [response|]; [|done]. by destruct (Http.ok response).
  - destruct (standalone_getJoinToken net v1 v2 v3 log) as [body Hrun].
    exists body. cbv zeta in Hrun. rewrite Hrun. split; [done|]. cbn [fst].
    destruct (net log _) as [response|]; [|done]. by destruct (Http.ok response).
  - eexists. rewrite standalone_initiateTransfer. split; [done|]. cbn [fst].
    destruct (net log _) as [response|]; [|done]. by destruct (Http.ok response).
  - eexists. rewrite standalone_generateCallSummary. split; [done|]. cbn [fst].
    destruct (net log _) as [response|]; [|done]. by destruct (Http.ok response).
Qed.

Example standalone_createRoom_conflict :
  (LiveKit.createRoom (Spec.always Sample2.conflict) (VStr "call-123") []).1
  = Rejected (ErrorObj "Error" "Failed to create room").
Proof. reflexivity. Qed.

(** X7. The stand-alone functions read the body of every ok response as
    JSON, whatever its content type: where the API client resolves to an empty
    object for an ok answer without JSON, [createRoom], [initiateTransfer] and
    [generateCallSummary] settle as [response.json()] does, and reject when
    the body does not parse. [getJoinToken] resolves to the [token] of the
    body, and to [undefined], without an error, when the body is an object
    that has none. *)
Theorem X7_standalone_ok_answers (response : Http.Response)
    (v1 v2 v3 : value) (request : LiveKit.TransferRequest) :
  Http.ok response = true →
  let net := Spec.always response in
  (LiveKit.createRoom net v1 []).1 = Http.json response
  ∧ (LiveKit.initiateTransfer net request []).1 = Http.json response
  ∧ (LiveKit.generateCallSummary net v1 []).1 = Http.json response
  ∧ (∀ fields, Http.json response = Resolved (VObj fields) →
       (LiveKit.getJoinToken net v1 v2 v3 []).1
       = Resolved (default VUndefined (assoc "token" fields)))
  ∧ (∀ err, Http.json response = Rejected err →
       (LiveKit.getJoinToken net v1 v2 v3 []).1 = Rejected err)
  ∧ (Spec.is_json response = false → Spec.respond response = Resolved (VObj [])).
Proof.
  intros Hok. cbv zeta.
  rewrite standalone_createRoom, standalone_initiateTransfer, standalone_generateCallSummary.
  unfold Spec.always. cbn [fst]. rewrite Hok.
  split; [done|]. split; [done|]. split; [done|].
  destruct (standalone_getJoinToken (fun _ _ => Resolved response) v1 v2 v3 []) as [body Hrun].
  cbv zeta in Hrun. rewrite Hrun. cbn [fst]. rewrite Hok.
  split; [by intros fields ->|]. split; [by intros err ->|].
  intros Hjson. unfold Spec.respond. by rewrite Hok, Hjson.
Qed.

Lemma X7_witness :
  Http.ok Sample2.no_content = true ∧ Spec.is_json Sample2.no_content = false
  ∧ (LiveKit.createRoom (Spec.always Sample2.no_content) (VStr "call-123") []).1
    = Rejected (ErrorObj "SyntaxError" "Unexpected end of JSON input")
  ∧ Spec.respond Sample2.no_content = Resolved (VObj [])
  ∧ (LiveKit.getJoinToken (Spec.always (Spec.success (VObj [("url", VStr "wss://x")])))
       (VStr "room-1") (VStr "alice") (VStr "Alice") []).1
    = Resolved VUndefined.
Proof.
  split; [reflexivity|]. split; [reflexivity|].
  destruct (X7_standalone_ok_answers Sample2.no_content
              (VStr "call-123") VNull VNull
              {| LiveKit.targetAgentId := VNull; LiveKit.callSummary := VNull;
                 LiveKit.roomId := VNull |}) as (Hcreate & _ & _ & _ & _ & Hclient);
    [reflexivity|].
  split; [exact Hcreate|]. split; [apply Hclient; reflexivity|].
  destruct (X7_standalone_ok_answers
              (Spec.success (VObj [("url", VStr "wss://x")]))
              (VStr "room-1") (VStr "alice") (VStr "Alice")
              {| LiveKit.targetAgentId := VNull; LiveKit.callSummary := VNull;
                 LiveKit.roomId := VNull |}) as (_ & _ & _ & Htoken & _);
    [reflexivity|].
  apply (Htoken [("url", VStr "wss://x")]). reflexivity.
Defined.

(** ** The manager's map of participants *)

Section ManagerFacts.

Import Manager.

Lemma keys_set_prop {V : Type} (k : string) (v : V) (ps : list (string * V)) :
  map fst (set_prop k v ps)
  = if decide (k ∈ map fst ps) then map fst ps else map fst ps ++ [k].
Proof.
  induction ps as [|[k0 v0] rest IH]; cbn [set_prop map fst].
  - case_decide as Hin; [by apply elem_of_nil in Hin|done].
  - destruct (String.eqb k0 k) eqn:Hk; cbn [map fst].
    + apply String.eqb_eq in Hk as ->.
      destruct (decide (k ∈ k :: map fst rest)) as [|Hn]; [done|].
      exfalso. apply Hn. set_solver.
    + apply String.eqb_neq in Hk. rewrite IH.
      destruct (decide (k ∈ map fst rest)) as [Hin|Hnot],
               (decide (k ∈ k0 :: map fst rest)) as [Hin'|Hnot'];
        try done; exfalso; set_solver.
Qed.

Lemma set_prop_elem {V : Type} (k : string) (v : V) (ps : list (string * V)) (kv : string * V) :
  kv ∈ set_prop k v ps → kv = (k, v) ∨ kv ∈ ps.
Proof.
  induction ps as [|[k0 v0] rest IH]; simpl.
  - intros ->%list_elem_of_singleton. by left.
  - destruct (String.eqb k0 k) eqn:Hk.
    + apply String.eqb_eq in Hk as ->.
      intros [->|Hin]%elem_of_cons; [by left|right; set_solver].
    + intros [->|Hin]%elem_of_cons; [right; set_solver|].
      destruct (IH Hin); [by left|right; set_solver].
Qed.

Lemma identities_keys st : consistent st → identities st = map fst (participants st).
Proof.
  intros [_ Hkeyed]. unfold identities, participantList.
  induction Hkeyed as [|[k v] rest Hkv _ IH]; [done|].
  simpl in *. by rewrite Hkv, IH.
Qed.

Lemma updateParticipantInfo_consistent now participant st :
  consistent st → consistent (updateParticipantInfo now participant st).1.
Proof.
  intros [Hnodup Hkeyed]. split; simpl.
  - rewrite keys_set_prop. case_decide; [done|].
    apply NoDup_app. split; [done|]. split; [|apply NoDup_singleton].
    intros k Hk ->%list_elem_of_singleton. done.
  - apply Forall_forall. intros kv [->|Hin]%set_prop_elem; [done|].
    by apply (proj1 (Forall_forall _ _) Hkeyed).
Qed.

Lemma keys_filter {V : Type} (P : string * V → Prop) `{∀ kv, Decision (P kv)}
    (ps : list (string * V)) :
  NoDup (map fst ps) → NoDup (map fst (filter P ps)).
Proof.
  induction ps as [|kv rest IH]; [done|].
  intros [Hnot Hrest]%NoDup_cons. rewrite filter_cons.
  destruct (decide (P kv)); [|by apply IH].
  simpl. apply NoDup_cons. split; [|by apply IH].
  intros Hin. apply Hnot.
  apply list_elem_of_fmap in Hin as (kv' & -> & Hin').
  apply list_elem_of_fmap. exists kv'. split; [done|].
  by apply list_elem_of_filter in Hin' as [_ ?].
Qed.

Lemma map_delete_consistent k st :
  consistent st → consistent (with_participants (map_delete k (participants st)) st).
Proof.
  intros [Hnodup Hkeyed]. unfold map_delete. split; simpl.
  - by apply keys_filter.
  - apply Forall_forall. intros kv [_ Hin]%list_elem_of_filter.
    by apply (proj1 (Forall_forall _ _) Hkeyed).
Qed.

Lemma perform_consistent op st : consistent st → consistent (perform op st).1.
Proof.
  intros Hst. pose proof Hst as [Hnodup Hkeyed].
  destruct op as [now ev|now outcome lp|outcome|now outcome lp| |]; simpl; try done.
  - destruct ev; simpl; try done; try by apply updateParticipantInfo_consistent.
    + by apply map_delete_consistent.
    + split; simpl.
      * rewrite map_map. by rewrite (map_ext _ fst) by (by intros []).
      * apply Forall_forall. intros kv Hin.
        apply list_elem_of_In, in_map_iff in Hin as ([k v] & <- & Hin). simpl.
        apply list_elem_of_In in Hin.
        by apply (proj1 (Forall_forall _ _) Hkeyed (k, v)).
  - destruct outcome; [|done]. destruct lp as [p|]; [|done].
    by apply updateParticipantInfo_consistent.
  - destruct outcome; [|done]. split; simpl; constructor.
  - destruct lp as [p|]; [|done]. destruct outcome; [|done].
    by apply updateParticipantInfo_consistent.
Qed.

(** Every notification of a change of participants carries the list as it is
    after the operation. *)
Lemma perform_notifies op st l :
  ParticipantUpdate l ∈ (perform op st).2 → l = participantList (perform op st).1.
Proof.
  assert (Hnotify : ∀ st', ParticipantUpdate l ∈ notifyParticipantUpdate st' → l = participantList st').
  { intros st'. unfold notifyParticipantUpdate. destruct (onParticipantUpdate st').
    - by intros [=]%list_elem_of_singleton.
    - by intros ?%elem_of_nil. }
  destruct op as [now ev|now outcome lp|outcome|now outcome lp| |]; simpl;
    try by intros ?%elem_of_nil.
  - destruct ev; simpl; try apply Hnotify.
    + destruct (onConnectionStateChange st); [|by intros ?%elem_of_nil].
      by intros [=]%list_elem_of_singleton.
    + destruct (onConnectionStateChange st); [|by intros ?%elem_of_nil].
      by intros [=]%list_elem_of_singleton.
  - destruct outcome; [|by intros ?%elem_of_nil]. destruct lp as [p|]; [|by intros ?%elem_of_nil].
    apply Hnotify.
  - destruct outcome; [|by intros ?%elem_of_nil]. apply Hnotify.
  - destruct lp as [p|]; [|by intros ?%elem_of_nil]. destruct outcome; [|by intros ?%elem_of_nil].
    apply Hnotify.
Qed.

Lemma run_consistent ops st :
  consistent st →
  consistent (run ops st).1
  ∧ ∀ l, ParticipantUpdate l ∈ (run ops st).2 → NoDup (map LiveKit.pi_identity l).
Proof.
  revert st. induction ops as [|op ops IH]; intros st Hst; simpl.
  - split; [done|]. by intros l ?%elem_of_nil.
  - pose proof (perform_consistent op st Hst) as Hst1.
    pose proof (perform_notifies op st) as Hn.
    destruct (perform op st) as [st1 ns1]. simpl in *.
    destruct (IH st1 Hst1) as [Hst2 Hns2].
    destruct (run ops st1) as [st2 ns2]. simpl in *.
    split; [done|]. intros l [Hin|Hin]%elem_of_app; [|by apply Hns2].
    rewrite (Hn l Hin). fold (identities st1). rewrite identities_keys by done. apply Hst1.
Qed.

End ManagerFacts.

(** X8. Whatever happens to a manager (room events, [connect], [disconnect],
    the media switches), no identity occurs twice among its participants, and
    no list it hands to the participants callback names an identity twice. *)
Theorem X8_participants_unique (ops : list Manager.Op) :
  NoDup (Manager.identities (Manager.run ops Manager.create).1)
  ∧ ∀ l, Manager.ParticipantUpdate l ∈ (Manager.run ops Manager.create).2 →
         NoDup (map LiveKit.pi_identity l).
Proof.
  assert (Hinit : Manager.consistent Manager.create) by (split; constructor).
  destruct (run_consistent ops Manager.create Hinit) as [Hst Hns].
  split; [|done]. rewrite identities_keys by done. apply Hst.
Qed.

Lemma X8_witness :
  let ops := [Manager.RegisterParticipants;
              Manager.Event 1 (Manager.ParticipantConnected Sample2.me);
              Manager.Event 2 (Manager.TrackMuted Sample2.me)] in
  ∃ l, last (Manager.run ops Manager.create).2 = Some (Manager.ParticipantUpdate l)
       ∧ length l = 1%nat
       ∧ NoDup (map LiveKit.pi_identity l).
Proof.
  cbv zeta.
  destruct (X8_participants_unique
              [Manager.RegisterParticipants;
               Manager.Event 1 (Manager.ParticipantConnected Sample2.me);
               Manager.Event 2 (Manager.TrackMuted Sample2.me)]) as [_ Hlists].
  eexists. split; [reflexivity|]. split; [reflexivity|].
  apply Hlists. vm_compute. apply list_elem_of_further, list_elem_of_here.
Defined.

Section ManagerLists.

Import Manager.

Lemma participantList_delete id (ps : list (string * LiveKit.ParticipantInfo)) :
  Forall (fun kv => LiveKit.pi_identity kv.2 = kv.1) ps →
  map snd (map_delete id ps)
  = filter (fun info => LiveKit.pi_identity info ≠ id) (map snd ps).
Proof.
  unfold map_delete. induction 1 as [|[k v] rest Hkv _ IH]; [done|].
  simpl in Hkv. cbn [map snd]. rewrite !filter_cons. cbn [fst]. subst k.
  destruct (decide (LiveKit.pi_identity v ≠ id)); simpl; by rewrite IH.
Qed.

End ManagerLists.

(** X9. When a participant leaves, the manager's list loses the entry of that
    identity and nothing else: the other participants stay, in their order,
    and the identity is no longer in the list. *)
Theorem X9_participant_disconnected (ops : list Manager.Op) (now : Z)
    (participant : Manager.SdkParticipant) :
  let st := (Manager.run ops Manager.create).1 in
  let st' := (Manager.on now (Manager.ParticipantDisconnected participant) st).1 in
  Manager.participantList st'
  = filter (fun info => LiveKit.pi_identity info ≠ Manager.sdk_identity participant)
      (Manager.participantList st)
  ∧ Manager.sdk_identity participant ∉ Manager.identities st'.
Proof.
  cbv zeta.
  assert (Hinit : Manager.consistent Manager.create) by (split; constructor).
  destruct (run_consistent ops Manager.create Hinit) as [[Hnodup Hkeyed] _].
  set (st := (Manager.run ops Manager.create).1) in *.
  assert (Hlist : Manager.participantList
                    (Manager.on now (Manager.ParticipantDisconnected participant) st).1
                  = filter (fun info => LiveKit.pi_identity info ≠ Manager.sdk_identity participant)
                      (Manager.participantList st)).
  { simpl. unfold Manager.participantList. simpl. by apply participantList_delete. }
  split; [done|]. unfold Manager.identities. rewrite Hlist.
  intros Hin. apply list_elem_of_In, in_map_iff in Hin as (info & Hid & Hin).
  apply list_elem_of_In, list_elem_of_filter in Hin as [Hne _]. done.
Qed.



(** X11. An update of a participant the manager knows keeps the list as long
    as it is and every identity at its place; a participant it does not know
    is added at the end. *)
Theorem X11_update_keeps_order (ops : list Manager.Op) (now : Z)
    (participant : Manager.SdkParticipant) :
  let st := (Manager.run ops Manager.create).1 in
  let st' := (Manager.updateParticipantInfo now participant st).1 in
  Manager.identities st'
  = if decide (Manager.sdk_identity participant ∈ Manager.identities st)
    then Manager.identities st
    else Manager.identities st ++ [Manager.sdk_identity participant].
Proof.
  cbv zeta.
  assert (Hinit : Manager.consistent Manager.create) by (split; constructor).
  destruct (run_consistent ops Manager.create Hinit) as [Hst _].
  set (st := (Manager.run ops Manager.create).1) in *.
  rewrite (identities_keys st Hst).
  rewrite (identities_keys _ (updateParticipantInfo_consistent now participant st Hst)).
  simpl. apply keys_set_prop.
Qed.

(** ** The hook and the manager *)

Section Mirror.

Import Manager.

Lemma deliver_app ns1 ns2 s : deliver (ns1 ++ ns2) s = deliver ns2 (deliver ns1 s).
Proof. apply fold_left_app. Qed.

Lemma notify_mirrors s st st' :
  onParticipantUpdate st' = true → isConnected st' = isConnected st →
  mirrors s st → mirrors (deliver (notifyParticipantUpdate st') s) st'.
Proof.
  intros Hreg Hconn [Hp Hc]. unfold notifyParticipantUpdate. rewrite Hreg.
  split; simpl; [done|congruence].
Qed.

Lemma perform_mirrors op s st :
  onParticipantUpdate st = true → onConnectionStateChange st = true →
  mirrors s st →
  onParticipantUpdate (perform op st).1 = true
  ∧ onConnectionStateChange (perform op st).1 = true
  ∧ mirrors (deliver (perform op st).2 s) (perform op st).1.
Proof.
  intros Hp Hc Hm. pose proof Hm as [Hmp Hmc].
  destruct op as [now ev|now outcome lp|outcome|now outcome lp| |]; simpl; try done.
  - destruct ev; simpl; rewrite ?Hp, ?Hc; simpl;
      (split; [done|split; [done|]]);
      try (by apply (notify_mirrors s st)).
    + split; simpl; [by destruct Hm|done].
    + split; simpl; [by destruct Hm|done].
  - destruct outcome; [|done]. destruct lp as [p|]; [|done]. simpl.
    split; [done|split; [done|]]. by apply (notify_mirrors s st).
  - destruct outcome; [|done]. simpl.
    split; [done|split; [done|]]. by apply (notify_mirrors s st).
  - destruct lp as [p|]; [|done]. destruct outcome; [|done]. simpl.
    split; [done|split; [done|]]. by apply (notify_mirrors s st).
Qed.

Lemma run_mirrors ops s st :
  onParticipantUpdate st = true → onConnectionStateChange st = true →
  mirrors s st → mirrors (deliver (run ops st).2 s) (run ops st).1.
Proof.
  revert s st. induction ops as [|op ops IH]; intros s st Hp Hc Hm; [done|].
  simpl. destruct (perform_mirrors op s st Hp Hc Hm) as (Hp1 & Hc1 & Hm1).
  destruct (perform op st) as [st1 ns1]. simpl in *.
  specialize (IH _ _ Hp1 Hc1 Hm1).
  destruct (run ops st1) as [st2 ns2]. simpl in *.
  by rewrite deliver_app.
Qed.

End Mirror.

(** X12. The hook shows what the manager holds: from the mount on, after any
    history of room events and manager calls, the hook's [participants] is the
    manager's list of participants and its [isConnected] is the manager's,
    once the notifications of the history have run the hook's callbacks. *)
Theorem X12_hook_mirrors_manager (ops : list Manager.Op) :
  let st := (Manager.run ops Manager.mounted).1 in
  let ns := (Manager.run ops Manager.mounted).2 in
  let s := Manager.deliver ns (Hook.mount Hook.initial) in
  Hook.participants s = Manager.participantList st
  ∧ Hook.isConnected s = Manager.isConnected st.
Proof.
  cbv zeta. by apply (run_mirrors ops (Hook.mount Hook.initial) Manager.mounted).
Qed.

(** ** Chat messages and the transcript *)

Lemma chat_message_type now message :
  ∃ rest, Manager.chat_message now message = Some (JObj (("type"%string, JStr "chat") :: rest)).
Proof.
  unfold Manager.chat_message. rewrite stringify_obj. cbn [stringify_members stringify].
  destruct (stringify message); eauto.
Qed.

(** X13. A chat message never reaches the transcript: the packet that
    [sendMessage] publishes (reliably, and only with a local participant),
    once it is decoded and parsed back to the message by the receiving side,
    makes the data listener call no transcript callback, log no error, and
    leave the callback's state as it was. *)
Theorem X13_chat_is_no_transcript (JSON_text : json → string) (encode : string → list Byte.byte)
    (decode : list Byte.byte → string) (JSON_parse : string → settled exn value)
    (S : Type) (callback : option (LiveKit.TranscriptCallback (S := S)))
    (now : Z) (message : value) (localParticipant : option Manager.SdkParticipant)
    (sender : option LiveKit.RemoteParticipant) (fx : LiveKit.Effects) (packet : Manager.Packet) :
  packet ∈ Manager.sendMessage JSON_text encode now message localParticipant →
  (∀ data, Manager.chat_message now message = Some data →
           JSON_parse (decode (encode (JSON_text data))) = Resolved (of_json data)) →
  let run := LiveKit.onDataReceived decode JSON_parse callback
               (Manager.packet_payload packet) sender fx in
  Manager.packet_reliable packet = true
  ∧ is_Some localParticipant
  ∧ run.1 = Resolved tt
  ∧ LiveKit.calls run.2 = LiveKit.calls fx
  ∧ LiveKit.logged run.2 = LiveKit.logged fx
  ∧ LiveKit.listener run.2 = LiveKit.listener fx.
Proof.
  intros Hin Hround. cbv zeta.
  destruct (chat_message_type now message) as [rest Hchat].
  unfold Manager.sendMessage in Hin. rewrite Hchat in Hin.
  destruct localParticipant as [p|]; [|by apply elem_of_nil in Hin].
  apply list_elem_of_singleton in Hin as ->. cbn [Manager.packet_payload Manager.packet_reliable].
  assert (Hrun : LiveKit.onDataReceived decode JSON_parse callback
                   (encode (JSON_text (JObj (("type"%string, JStr "chat") :: rest)))) sender fx
                 = (Resolved tt, fx)).
  { unfold LiveKit.onDataReceived, LiveKit.try_catch, LiveKit.sync_bind, LiveKit.lift.
    rewrite (Hround _ Hchat). reflexivity. }
  rewrite Hrun. cbn [fst snd]. eauto 10.
Qed.

Lemma X13_witness :
  let text (j : json) : string := "chat"%string in
  let parse (s : string) : settled exn value :=
    Resolved (VObj [("type", VStr "chat"); ("message", VStr "hello"); ("timestamp", VNum 7)]) in
  let packet := {| Manager.packet_payload := list_byte_of_string "chat";
                   Manager.packet_reliable := true |} in
  packet ∈ Manager.sendMessage text list_byte_of_string 7 (VStr "hello") (Some Sample2.me)
  ∧ LiveKit.calls
      (LiveKit.onDataReceived Sample.decode parse (Some (Hook.onTranscript 9))
         (Manager.packet_payload packet) (Some Sample.agent_a)
         (LiveKit.mkEffects [] [] (Hook.mount Hook.initial))).2 = []
  ∧ LiveKit.logged
      (LiveKit.onDataReceived Sample.decode parse (Some (Hook.onTranscript 9))
         (Manager.packet_payload packet) (Some Sample.agent_a)
         (LiveKit.mkEffects [] [] (Hook.mount Hook.initial))).2 = [].
Proof.
  cbv zeta.
  assert (Hin : {| Manager.packet_payload := list_byte_of_string "chat";
                   Manager.packet_reliable := true |}
                ∈ Manager.sendMessage (fun _ => "chat"%string) list_byte_of_string 7
                    (VStr "hello") (Some Sample2.me)).
  { apply list_elem_of_singleton. reflexivity. }
  split; [exact Hin|].
  destruct (X13_chat_is_no_transcript (fun _ => "chat"%string) list_byte_of_string Sample.decode
              (fun _ => Resolved (VObj [("type", VStr "chat"); ("message", VStr "hello");
                                        ("timestamp", VNum 7)]))
              Hook.State (Some (Hook.onTranscript 9)) 7 (VStr "hello") (Some Sample2.me)
              (Some Sample.agent_a) (LiveKit.mkEffects [] [] (Hook.mount Hook.initial))
              _ Hin) as (_ & _ & _ & Hcalls & Hlogged & _).
  - intros data [= <-]. reflexivity.
  - split; [exact Hcalls|exact Hlogged].
Defined.

(** ** The hook, continued *)

Section HookMore.

Context (net : Http.network) (baseUrl : string).
Context (manager_connect : LiveKit.LiveKitConfig → settled exn unit).
Context (decode : list Byte.byte → string) (JSON_parse : string → settled exn value).
Context (options : Hook.Options).

Abbreviation hook_step := (Hook.step net baseUrl manager_connect decode JSON_parse options).

Ltac hook_unfold :=
  cbn [Hook.step fst snd];
  unfold Hook.onConnectionChanged, Hook.onParticipantsChanged, Hook.onData, Hook.connect,
    Hook.handleAutoConnect, Hook.disconnect, Hook.toggleMicrophone, Hook.toggleCamera,
    Hook.toggleScreenShare, Hook.initiateTransfer, Hook.generateSummary,
    Hook.recognition_onstart, Hook.recognition_onend, Hook.recognition_onerror,
    Hook.recognition_onresult.

Ltac hook_cases :=
  repeat match goal with
         | |- context [match ?x with _ => _ end] => destruct x
         end.

Lemma onData_frame now payload participant s :
  ∃ t, Hook.onData decode JSON_parse now payload participant s = Hook.setTranscript (fun _ => t) s.
Proof.
  unfold Hook.onData.
  destruct (onDataReceived_run decode JSON_parse
              (if Hook.manager s then Some (Hook.onTranscript now) else None)
              payload participant (LiveKit.mkEffects [] [] s)) as [errors ->].
  cbn [snd].
  destruct (Hook.manager s) eqn:Hm; [destruct (Spec.transcript_text _)|]; simpl;
    try (exists (Hook.transcript s); by destruct s); eauto.
Qed.

Lemma connect_frame config s :
  Hook.manager (Hook.connect manager_connect config s) = Hook.manager s
  ∧ Hook.actualRoomId (Hook.connect manager_connect config s) = Hook.actualRoomId s
  ∧ Hook.transferError (Hook.connect manager_connect config s) = Hook.transferError s
  ∧ Hook.isTransferring (Hook.connect manager_connect config s) = Hook.isTransferring s
  ∧ Hook.participants (Hook.connect manager_connect config s) = Hook.participants s
  ∧ Hook.isConnected (Hook.connect manager_connect config s) = Hook.isConnected s.
Proof.
  unfold Hook.connect. destruct (Hook.manager s) eqn:Hm; [|done].
  by destruct (manager_connect config).
Qed.

Lemma handleAutoConnect_frame s log :
  let s' := (Hook.handleAutoConnect net baseUrl manager_connect options s log).1.2 in
  Hook.manager s' = Hook.manager s
  ∧ Hook.transferError s' = Hook.transferError s
  ∧ Hook.isTransferring s' = Hook.isTransferring s
  ∧ Hook.participants s' = Hook.participants s
  ∧ Hook.isConnected s' = Hook.isConnected s.
Proof.
  cbv zeta. unfold Hook.handleAutoConnect.
  destruct (_ || _); [done|].
  destruct (Api.participants_getToken _ _ _ _ _ _ _) as [[response|err] log']; [|done].
  destruct (get_prop response "room_id"); [|done].
  cbn [fst snd].
  match goal with |- context [Hook.connect _ ?c ?s0] =>
    destruct (connect_frame c s0) as (-> & _ & -> & -> & -> & ->) end.
  done.
Qed.

Lemma initiateTransfer_frame targetAgentId s log :
  let s' := (Hook.initiateTransfer net baseUrl targetAgentId s log).1.2 in
  Hook.manager s' = Hook.manager s
  ∧ Hook.actualRoomId s' = Hook.actualRoomId s
  ∧ Hook.participants s' = Hook.participants s
  ∧ Hook.isConnected s' = Hook.isConnected s.
Proof.
  cbv zeta. unfold Hook.initiateTransfer.
  destruct (_ || _); [done|].
  by destruct (Api.rooms_transfer _ _ _ _ _ _) as [[response|err] log'].
Qed.

Lemma generateSummary_state s log :
  (Hook.generateSummary net baseUrl s log).1.2 = s.
Proof.
  unfold Hook.generateSummary.
  destruct (negb _); [done|].
  by destruct (Api.calls_getSummary _ _ _ _) as [[response|err] log'].
Qed.

(** The cells that an event leaves alone. *)
Lemma step_frame ev s log :
  let s' := (hook_step ev (s, log)).1 in
  Hook.manager s' = Hook.manager s
  ∧ (ev ≠ Hook.AutoConnect → Hook.actualRoomId s' = Hook.actualRoomId s)
  ∧ ((∀ t, ev ≠ Hook.InitiateTransfer t) →
     Hook.transferError s' = Hook.transferError s
     ∧ Hook.isTransferring s' = Hook.isTransferring s)
  ∧ ((∀ l, ev ≠ Hook.ParticipantsChanged l) → Hook.participants s' = Hook.participants s)
  ∧ ((∀ c, ev ≠ Hook.ConnectionChanged c) → Hook.isConnected s' = Hook.isConnected s).
Proof.
  cbv zeta.
  destruct ev as [connected|participantList|now payload participant|config| |outcome|outcome
                 |outcome|outcome|targetAgentId| | | | |now event].
  3: { cbn [Hook.step fst].
       destruct (onData_frame now payload participant s) as [t ->]. by repeat split. }
  3: { cbn [Hook.step fst].
       destruct (connect_frame config s) as (-> & -> & -> & -> & -> & ->). by repeat split. }
  3: { cbn [Hook.step].
       pose proof (handleAutoConnect_frame s log) as Hf. cbv zeta in Hf.
       destruct (Hook.handleAutoConnect _ _ _ _ _ _) as [[r s'] log']. cbn [fst snd] in *.
       destruct Hf as (-> & -> & -> & -> & ->). by repeat split. }
  7: { cbn [Hook.step].
       pose proof (initiateTransfer_frame targetAgentId s log) as Hf. cbv zeta in Hf.
       destruct (Hook.initiateTransfer _ _ _ _ _) as [[r s'] log']. cbn [fst snd] in *.
       destruct Hf as (-> & -> & -> & ->). repeat split; try done.
       all: match goal with Hne : ∀ t, _ ≠ _ |- _ => by destruct (Hne targetAgentId) end. }
  7: { cbn [Hook.step].
       pose proof (generateSummary_state s log) as Hf.
       destruct (Hook.generateSummary _ _ _ _) as [[r s'] log']. cbn [fst snd] in *.
       subst s'. by repeat split. }
  all: hook_unfold; hook_cases; cbn [fst snd]; try done.
  all: repeat split; try done; intros Hne; try done.
  all: try (by edestruct Hne).
Qed.

(** The requests an event issues. *)
Lemma step_requests ev s log :
  ∃ reqs, (hook_step ev (s, log)).2 = log ++ reqs
          ∧ (length reqs ≤ 1)%nat
          ∧ (reqs ≠ [] →
             ev = Hook.AutoConnect ∨ ev = Hook.GenerateSummary
             ∨ ∃ t, ev = Hook.InitiateTransfer t).
Proof.
  assert (Hnone : ∃ reqs, log = log ++ reqs ∧ (length reqs ≤ 1)%nat
                          ∧ (reqs ≠ [] → ev = Hook.AutoConnect ∨ ev = Hook.GenerateSummary
                                         ∨ ∃ t, ev = Hook.InitiateTransfer t)).
  { exists []. rewrite app_nil_r. split; [done|]. split; [simpl; lia|done]. }
  destruct ev; cbn [Hook.step snd]; try done.
  - unfold Hook.handleAutoConnect.
    destruct (_ || _); [done|].
    unfold Api.participants_getToken, ApiClient.generateJoinToken, ApiClient.post.
    rewrite request_unfold.
    eexists [_]. split; [|split; [simpl; lia|eauto]].
    destruct (Spec.answer net log _) as [response|]; [|done].
    by destruct (get_prop response "room_id").
  - unfold Hook.initiateTransfer.
    destruct (_ || _); [done|].
    unfold Api.rooms_transfer, ApiClient.transferCall, ApiClient.post.
    rewrite request_unfold.
    eexists [_]. split; [|split; [simpl; lia|eauto]].
    by destruct (Spec.answer net log _).
  - unfold Hook.generateSummary.
    destruct (negb _); [done|].
    unfold Api.calls_getSummary, ApiClient.generateCallSummary, ApiClient.post.
    rewrite request_unfold.
    eexists [_]. split; [|split; [simpl; lia|eauto]].
    by destruct (Spec.answer net log _).
Qed.

End HookMore.

(** X14. What the events of the hook leave alone: no event changes whether
    the manager exists; [actualRoomId] changes only by auto-connect;
    [transferError] and [isTransferring] change only by [initiateTransfer];
    [participants] only by the manager's participants callback; [isConnected]
    only by its connection callback. *)
Theorem X14_hook_frame (net : Http.network) (baseUrl : string)
    (manager_connect : LiveKit.LiveKitConfig → settled exn unit)
    (decode : list Byte.byte → string) (JSON_parse : string → settled exn value)
    (options : Hook.Options) (ev : Hook.Event) (s : Hook.State) (log : list Http.Request) :
  let s' := (Hook.step net baseUrl manager_connect decode JSON_parse options ev (s, log)).1 in
  Hook.manager s' = Hook.manager s
  ∧ (ev ≠ Hook.AutoConnect → Hook.actualRoomId s' = Hook.actualRoomId s)
  ∧ ((∀ t, ev ≠ Hook.InitiateTransfer t) →
     Hook.transferError s' = Hook.transferError s
     ∧ Hook.isTransferring s' = Hook.isTransferring s)
  ∧ ((∀ l, ev ≠ Hook.ParticipantsChanged l) → Hook.participants s' = Hook.participants s)
  ∧ ((∀ c, ev ≠ Hook.ConnectionChanged c) → Hook.isConnected s' = Hook.isConnected s).
Proof. apply step_frame. Qed.

Lemma X14_witness :
  Hook.actualRoomId
    (Sample.after (Hook.InitiateTransfer (VStr "agent-b"))
       (Hook.setActualRoomId (VStr "room-2") (Hook.mount Hook.initial)))
  = VStr "room-2"
  ∧ Hook.transferError
      (Sample.after (Hook.Disconnect (Resolved tt))
         (Hook.setTransferError (VStr "Transfer failed") (Hook.mount Hook.initial)))
    = VStr "Transfer failed".
Proof.
  split.
  - destruct (X14_hook_frame (Spec.always Sample.unavailable) Sample.base (fun _ => Resolved tt)
                Sample.decode Sample.parse Sample.anonymous
                (Hook.InitiateTransfer (VStr "agent-b"))
                (Hook.setActualRoomId (VStr "room-2") (Hook.mount Hook.initial)) [])
      as (_ & Hroom & _).
    apply Hroom. discriminate.
  - destruct (X14_hook_frame (Spec.always Sample.unavailable) Sample.base (fun _ => Resolved tt)
                Sample.decode Sample.parse Sample.anonymous
                (Hook.Disconnect (Resolved tt))
                (Hook.setTransferError (VStr "Transfer failed") (Hook.mount Hook.initial)) [])
      as (_ & _ & Herr & _).
    apply Herr. intros t. discriminate.
Defined.

(** X15. An event of the hook issues at most one request, after the requests
    made before, which stay as they are; only auto-connect, [initiateTransfer]
    and [generateSummary] issue one. *)
Theorem X15_hook_requests (net : Http.network) (baseUrl : string)
    (manager_connect : LiveKit.LiveKitConfig → settled exn unit)
    (decode : list Byte.byte → string) (JSON_parse : string → settled exn value)
    (options : Hook.Options) (ev : Hook.Event) (s : Hook.State) (log : list Http.Request) :
  ∃ reqs,
    (Hook.step net baseUrl manager_connect decode JSON_parse options ev (s, log)).2 = log ++ reqs
    ∧ (length reqs ≤ 1)%nat
    ∧ (reqs ≠ [] →
       ev = Hook.AutoConnect ∨ ev = Hook.GenerateSummary ∨ ∃ t, ev = Hook.InitiateTransfer t).
Proof. apply step_requests. Qed.

Lemma X15_witness :
  ∃ reqs,
    (Hook.step (Spec.always Sample.unavailable) Sample.base (fun _ => Resolved tt)
       Sample.decode Sample.parse Sample.anonymous Hook.GenerateSummary
       (Hook.setActualRoomId (VStr "room-2") (Hook.mount Hook.initial), [])).2 = reqs
    ∧ reqs ≠ []
    ∧ (Hook.GenerateSummary = Hook.AutoConnect ∨ Hook.GenerateSummary = Hook.GenerateSummary
       ∨ ∃ t, Hook.GenerateSummary = Hook.InitiateTransfer t).
Proof.
  destruct (X15_hook_requests (Spec.always Sample.unavailable) Sample.base (fun _ => Resolved tt)
              Sample.decode Sample.parse Sample.anonymous Hook.GenerateSummary
              (Hook.setActualRoomId (VStr "room-2") (Hook.mount Hook.initial)) [])
    as (reqs & Hlog & _ & Hwho).
  exists reqs. split; [exact Hlog|].
  assert (Hne : reqs ≠ []).
  { simpl in Hlog. rewrite <- Hlog. discriminate. }
  split; [exact Hne | exact (Hwho Hne)].
Defined.



(** X17. The auto-connect path of the hook never rejects. Without a room id,
    an identity or a name it does nothing at all. When the token request
    fails, the room id the hook holds stays as it was, [isConnecting] is
    false again and [error] is the message of the failure (or 'Failed to
    auto-connect' when it has none), never [null]. When the request
    succeeds, the hook takes the [room_id] of the answer as it is:
    [undefined] when the answer has none. *)
Theorem X17_auto_connect_outcomes (net : Http.network) (baseUrl : string)
    (manager_connect : LiveKit.LiveKitConfig → settled exn unit) (options : Hook.Options)
    (s : Hook.State) (log : list Http.Request) :
  let run := Hook.handleAutoConnect net baseUrl manager_connect options s log in
  run.1.1 = Resolved tt
  ∧ (truthy (Hook.opt_roomId options) && truthy (Hook.opt_identity options)
     && truthy (Hook.opt_name options) = false → run = (Resolved tt, s, log))
  ∧ (∀ roomId identity name : string,
       Hook.opt_roomId options = VStr roomId → Hook.opt_identity options = VStr identity →
       Hook.opt_name options = VStr name →
       roomId ≠ ""%string → identity ≠ ""%string → name ≠ ""%string →
       let req := Spec.token_request baseUrl roomId identity name (Some "caller") VUndefined in
       (∀ err, Spec.answer net log req = Rejected err →
          Hook.actualRoomId run.1.2 = Hook.actualRoomId s
          ∧ Hook.isConnecting run.1.2 = false
          ∧ Hook.error run.1.2 = or_else (exn_message err) (VStr "Failed to auto-connect")
          ∧ Hook.error run.1.2 ≠ VNull)
       ∧ (∀ fields, Spec.answer net log req = Resolved (VObj fields) →
            Hook.actualRoomId run.1.2 = default VUndefined (assoc "room_id" fields))).
Proof.
  cbv zeta. split; [|split].
  - unfold Hook.handleAutoConnect. destruct (_ || _); [done|].
    destruct (Api.participants_getToken _ _ _ _ _ _ _) as [[response|err] log']; [|done].
    by destruct (get_prop response "room_id").
  - intros Hmissing. unfold Hook.handleAutoConnect.
    destruct (truthy (Hook.opt_roomId options)), (truthy (Hook.opt_identity options)),
      (truthy (Hook.opt_name options)); done.
  - intros roomId identity name Hr Hi Hn Hr' Hi' Hn'.
    rewrite (handleAutoConnect_run net baseUrl manager_connect options roomId identity name)
      by done.
    cbn [fst snd]. split.
    + intros err ->. cbn. repeat split.
      intros Heq.
      assert (Ht : truthy (or_else (exn_message err) (VStr "Failed to auto-connect")) = true)
        by by apply or_else_truthy.
      by rewrite Heq in Ht.
    + intros fields ->. cbn [get_prop].
      match goal with |- context [Hook.connect _ ?c ?s0] =>
        destruct (connect_frame manager_connect c s0) as (_ & -> & _) end.
      done.
Qed.

Lemma X17_witness :
  let options := {| Hook.opt_roomId := VStr "call-123"; Hook.opt_identity := VStr "alice";
                    Hook.opt_name := VStr "Alice"; Hook.opt_autoConnect := true |} in
  Hook.handleAutoConnect (Spec.always Sample.unavailable) Sample.base (fun _ => Resolved tt)
    Sample.anonymous (Hook.mount Hook.initial) []
  = (Resolved tt, Hook.mount Hook.initial, [])
  ∧ Hook.error
      (Hook.handleAutoConnect (Spec.always Sample.unavailable) Sample.base (fun _ => Resolved tt)
         options (Hook.mount Hook.initial) []).1.2
    = VStr "HTTP 503: Service Unavailable"
  ∧ Hook.actualRoomId
      (Hook.handleAutoConnect (Spec.always Sample2.no_content) Sample.base (fun _ => Resolved tt)
         options (Hook.mount Hook.initial) []).1.2
    = VUndefined.
Proof.
  cbv zeta. split; [|split].
  - destruct (X17_auto_connect_outcomes (Spec.always Sample.unavailable) Sample.base
                (fun _ => Resolved tt) Sample.anonymous (Hook.mount Hook.initial) [])
      as (_ & Hnothing & _).
    apply Hnothing. reflexivity.
  - destruct (X17_auto_connect_outcomes (Spec.always Sample.unavailable) Sample.base
                (fun _ => Resolved tt)
                {| Hook.opt_roomId := VStr "call-123"; Hook.opt_identity := VStr "alice";
                   Hook.opt_name := VStr "Alice"; Hook.opt_autoConnect := true |}
                (Hook.mount Hook.initial) []) as (_ & _ & Hrun).
    destruct (Hrun "call-123"%string "alice"%string "Alice"%string) as [Hfail _];
      [reflexivity|reflexivity|reflexivity|discriminate|discriminate|discriminate|].
    destruct (Hfail (ApiErr {| message := VStr "HTTP 503: Service Unavailable"; status := 503;
                               details := VUndefined |})) as (_ & _ & Herr & _);
      [reflexivity|]. exact Herr.
  - destruct (X17_auto_connect_outcomes (Spec.always Sample2.no_content) Sample.base
                (fun _ => Resolved tt)
                {| Hook.opt_roomId := VStr "call-123"; Hook.opt_identity := VStr "alice";
                   Hook.opt_name := VStr "Alice"; Hook.opt_autoConnect := true |}
                (Hook.mount Hook.initial) []) as (_ & _ & Hrun).
    destruct (Hrun "call-123"%string "alice"%string "Alice"%string) as [_ Hok];
      [reflexivity|reflexivity|reflexivity|discriminate|discriminate|discriminate|].
    apply (Hok []). reflexivity.
Defined.

(** X18. [generateSummary] of the hook changes no state cell. Without a room
    id it rejects with 'No active room' and issues no request; with one it
    posts once to the summary path of that room, resolves to the answer as it
    is, and on a failure rejects with an [Error] whose message is the text of
    the failure's message (or 'Summary generation failed'). *)
Theorem X18_generateSummary (net : Http.network) (baseUrl : string) (s : Hook.State)
    (log : list Http.Request) :
  let run := Hook.generateSummary net baseUrl s log in
  run.1.2 = s
  ∧ (truthy (Hook.actualRoomId s) = false →
     run = (Rejected (ErrorObj "Error" "No active room"), s, log))
  ∧ (∀ roomId : string, Hook.actualRoomId s = VStr roomId → roomId ≠ ""%string →
       let req := Spec.api_request baseUrl ("/api/calls/" +:+ roomId +:+ "/summary")
                    (Some "POST") None in
       run.2 = log ++ [req]
       ∧ run.1.1 = match Spec.answer net log req with
                   | Resolved response => Resolved response
                   | Rejected err =>
                       Rejected (ErrorObj "Error"
                                   (to_string (or_else (exn_message err)
                                                 (VStr "Summary generation failed"))))
                   end).
Proof.
  cbv zeta. split; [apply generateSummary_state|]. split.
  - intros Hnone. unfold Hook.generateSummary. by rewrite Hnone.
  - intros roomId Hroom Hne. unfold Hook.generateSummary.
    rewrite Hroom. apply truthy_VStr in Hne. rewrite Hne. cbn [negb].
    unfold Api.calls_getSummary, ApiClient.generateCallSummary, ApiClient.post.
    rewrite request_unfold. cbn [to_string].
    by destruct (Spec.answer net log _).
Qed.

Lemma X18_witness :
  let s := Hook.setActualRoomId (VStr "room-2") (Hook.mount Hook.initial) in
  truthy (Hook.actualRoomId Hook.initial) = false
  ∧ Hook.generateSummary (Spec.always Sample.unavailable) Sample.base Hook.initial []
    = (Rejected (ErrorObj "Error" "No active room"), Hook.initial, [])
  ∧ (Hook.generateSummary (Spec.always Sample.unavailable) Sample.base s []).1.1
    = Rejected (ErrorObj "Error" "HTTP 503: Service Unavailable").
Proof.
  cbv zeta. split; [reflexivity|]. split.
  - destruct (X18_generateSummary (Spec.always Sample.unavailable) Sample.base Hook.initial [])
      as (_ & Hguard & _).
    apply Hguard. reflexivity.
  - destruct (X18_generateSummary (Spec.always Sample.unavailable) Sample.base
                (Hook.setActualRoomId (VStr "room-2") (Hook.mount Hook.initial)) [])
      as (_ & _ & Hrun).
    destruct (Hrun "room-2"%string) as [_ Hres]; [reflexivity|discriminate|].
    exact Hres.
Defined.

(** X19. Connecting, as the hook sees it. With a manager, [connect] that
    fails ends with [isConnecting] false and the error stored; [connect] that
    succeeds leaves [isConnecting] true until the manager reports the
    connection, and then the hook is connected, no longer connecting, and
    without error. A report of a lost connection clears the error, whatever
    it was. *)
Theorem X19_connecting (manager_connect : LiveKit.LiveKitConfig → settled exn unit)
    (config : LiveKit.LiveKitConfig) (s : Hook.State) :
  Hook.manager s = true →
  let s1 := Hook.connect manager_connect config s in
  (∀ err, manager_connect config = Rejected err →
     Hook.isConnecting s1 = false ∧ Hook.error s1 = Hook.error_text err "Connection failed")
  ∧ (∀ o, manager_connect config = Resolved o →
       Hook.isConnecting s1 = true ∧ Hook.error s1 = VNull
       ∧ Hook.isConnected s1 = Hook.isConnected s
       ∧ let s2 := Hook.onConnectionChanged true s1 in
         Hook.isConnected s2 = true ∧ Hook.isConnecting s2 = false ∧ Hook.error s2 = VNull)
  ∧ (let s3 := Hook.onConnectionChanged false s1 in
     Hook.isConnected s3 = false ∧ Hook.isConnecting s3 = false ∧ Hook.error s3 = VNull).
Proof.
  intros Hm. cbv zeta. unfold Hook.connect. rewrite Hm. cbn [negb].
  split; [|split].
  - by intros err ->.
  - by intros o ->.
  - by destruct (manager_connect config).
Qed.

Lemma X19_witness :
  let refuse (_ : LiveKit.LiveKitConfig) : settled exn unit :=
    Rejected (ErrorObj "Error" "could not establish signal connection") in
  let config := {| LiveKit.cfg_url := VStr "wss://livekit.example"; LiveKit.cfg_token := VStr "jwt" |} in
  Hook.manager (Hook.mount Hook.initial) = true
  ∧ Hook.error (Hook.connect refuse config (Hook.mount Hook.initial))
    = VStr "could not establish signal connection"
  ∧ Hook.error (Hook.onConnectionChanged false (Hook.connect refuse config (Hook.mount Hook.initial)))
    = VNull.
Proof.
  cbv zeta. split; [reflexivity|].
  destruct (X19_connecting
              (fun _ => Rejected (ErrorObj "Error" "could not establish signal connection"))
              {| LiveKit.cfg_url := VStr "wss://livekit.example"; LiveKit.cfg_token := VStr "jwt" |}
              (Hook.mount Hook.initial)) as (Hfail & _ & Hlost); [reflexivity|].
  split.
  - destruct (Hfail (ErrorObj "Error" "could not establish signal connection")) as [_ Herr];
      [reflexivity|]. exact Herr.
  - destruct Hlost as (_ & _ & Hclear). exact Hclear.
Defined.

(** ** Trimming *)

Section Trimming.

Import Text.

Lemma app_cons (c : ascii) (r t : string) : String c r +:+ t = String c (r +:+ t).
Proof. reflexivity. Qed.

Lemma skip_shorter (s r : string) :
  skip s = Some r → (String.length r < String.length s)%nat.
Proof.
  destruct s as [|c1 r1]; [done|]. simpl.
  destruct (one_byte c1); [intros [= <-]; lia|].
  destruct r1 as [|c2 r2]; [done|]. simpl.
  destruct (two_bytes c1 c2); [intros [= <-]; lia|].
  destruct r2 as [|c3 r3]; [done|]. simpl.
  destruct (three_bytes c1 c2 c3); [intros [= <-]; lia|done].
Qed.

Lemma trim_start_skip (s : string) :
  trim_start s = match skip s with
                 | Some r => trim_start r
                 | None => s
                 end.
Proof.
  destruct s as [|c1 r1]; [done|]. simpl.
  destruct (one_byte c1); [done|].
  destruct r1 as [|c2 r2]; [done|].
  destruct (two_bytes c1 c2); [done|].
  destruct r2 as [|c3 r3]; [done|].
  by destruct (three_bytes c1 c2 c3).
Qed.

Lemma all_space_skip (s : string) :
  all_space s = match s with
                | EmptyString => true
                | String _ _ => match skip s with
                                | Some r => all_space r
                                | None => false
                                end
                end.
Proof.
  destruct s as [|c1 r1]; [done|]. simpl.
  destruct (one_byte c1); [done|].
  destruct r1 as [|c2 r2]; [done|].
  destruct (two_bytes c1 c2); [done|].
  destruct r2 as [|c3 r3]; [done|].
  by destruct (three_bytes c1 c2 c3).
Qed.

(** Induction along [skip]. *)
Lemma skip_ind (P : string → Prop) :
  (∀ s, (∀ r, skip s = Some r → P r) → P s) → ∀ s, P s.
Proof.
  intros Hstep s. remember (String.length s) as n eqn:Hn. revert s Hn.
  induction n as [n IH] using lt_wf_ind. intros s ->.
  apply Hstep. intros r Hr. apply (IH (String.length r)); [by apply skip_shorter|done].
Qed.

Lemma head_space_trim_start (s : string) : head_space (trim_start s) = false.
Proof.
  induction s as [s IH] using skip_ind. rewrite trim_start_skip. unfold head_space in *.
  destruct (skip s) as [r|] eqn:Hs; [by apply IH|by rewrite Hs].
Qed.

Lemma all_space_trim_start (s : string) : all_space (trim_start s) = all_space s.
Proof.
  induction s as [s IH] using skip_ind. rewrite trim_start_skip, (all_space_skip s).
  destruct (skip s) as [r|] eqn:Hs.
  - rewrite (IH r) by done. destruct s; [done|]. done.
  - rewrite (all_space_skip s), Hs. done.
Qed.

Lemma trim_start_empty (s : string) : trim_start s = ""%string ↔ all_space s = true.
Proof.
  induction s as [s IH] using skip_ind. rewrite trim_start_skip, (all_space_skip s).
  destruct (skip s) as [r|] eqn:Hs.
  - rewrite (IH r) by done. by destruct s.
  - by destruct s.
Qed.

(** A white space at the head of a string is one at the head of every
    string that it begins. *)
Lemma skip_app (p t r : string) : skip p = Some r → skip (p +:+ t) = Some (r +:+ t).
Proof.
  destruct p as [|c1 r1]; [done|]. rewrite app_cons. simpl.
  destruct (one_byte c1); [by intros [= <-]|].
  destruct r1 as [|c2 r2]; [done|]. rewrite app_cons.
  destruct (two_bytes c1 c2); [by intros [= <-]|].
  destruct r2 as [|c3 r3]; [done|]. rewrite app_cons.
  destruct (three_bytes c1 c2 c3); [by intros [= <-]|done].
Qed.

(** What [skip] takes from the head is one white space. *)
Lemma skip_split (s r : string) : skip s = Some r → ∃ w, s = w +:+ r ∧ white w = true.
Proof.
  unfold white.
  destruct s as [|c1 r1]; [done|]. simpl.
  destruct (one_byte c1) eqn:H1.
  { intros [= <-]. exists (String c1 ""). simpl. by rewrite H1. }
  destruct r1 as [|c2 r2]; [done|].
  destruct (two_bytes c1 c2) eqn:H2.
  { intros [= <-]. exists (String c1 (String c2 "")). simpl. by rewrite H1, H2. }
  destruct r2 as [|c3 r3]; [done|].
  destruct (three_bytes c1 c2 c3) eqn:H3; [|done].
  intros [= <-]. exists (String c1 (String c2 (String c3 ""))). simpl. by rewrite H1, H2, H3.
Qed.

Lemma white_all_space (w t : string) :
  white w = true → all_space t = true → all_space (w +:+ t) = true.
Proof.
  unfold white. intros Hw Ht. destruct (skip w) as [[|]|] eqn:Hs; try done.
  rewrite all_space_skip. rewrite (skip_app w t "" Hs).
  destruct w as [|c w]; [done|]. rewrite app_cons. exact Ht.
Qed.

(** [trim_start] takes a string of white space from the head. *)
Lemma trim_start_split (s : string) : ∃ a, s = a +:+ trim_start s ∧ all_space a = true.
Proof.
  induction s as [s IH] using skip_ind.
  rewrite trim_start_skip. destruct (skip s) as [r|] eqn:Hs; [|by exists ""%string].
  destruct (IH r eq_refl) as (a & Hr & Ha).
  destruct (skip_split s r Hs) as (w & -> & Hw).
  exists (w +:+ a). split; [|by apply white_all_space].
  rewrite string_app_assoc. by rewrite <- Hr.
Qed.

(** [trim_end] takes a string of white space from the end. *)
Lemma trim_end_split (s : string) : ∃ t, s = trim_end s +:+ t ∧ all_space t = true.
Proof.
  induction s as [|c rest (t & IH & Ht)]; [by exists ""%string|].
  cbn [trim_end]. destruct (all_space (String c rest)) eqn:Hs.
  - by exists (String c rest).
  - exists t. split; [|done]. rewrite app_cons. by rewrite <- IH.
Qed.

Lemma trim_end_empty (s : string) : trim_end s = ""%string ↔ all_space s = true.
Proof.
  destruct s as [|c rest]; [done|]. cbn [trim_end].
  destruct (all_space (String c rest)); [done|]. split; discriminate.
Qed.

Lemma last_space_trim_end (s : string) : last_space (trim_end s) = false.
Proof.
  induction s as [|c rest IH]; [done|]. cbn [trim_end].
  destruct (all_space (String c rest)) eqn:Hs; [done|].
  cbn [last_space]. rewrite IH, orb_false_r.
  destruct (white (String c (trim_end rest))) eqn:Hw; [|done].
  destruct (trim_end_split rest) as (t & Hrest & Ht).
  pose proof (white_all_space _ t Hw Ht) as Hall.
  rewrite app_cons, <- Hrest in Hall. congruence.
Qed.

(** [trim] gives the empty string exactly for a string of white space. *)
Lemma trim_empty (s : string) : Hook.trim s = ""%string ↔ all_space s = true.
Proof. unfold Hook.trim. by rewrite trim_end_empty, all_space_trim_start. Qed.

(** What [trim] returns neither begins nor ends with white space. *)
Lemma trim_edges (s : string) :
  head_space (Hook.trim s) = false ∧ last_space (Hook.trim s) = false.
Proof.
  unfold Hook.trim. split; [|apply last_space_trim_end].
  destruct (trim_end_split (trim_start s)) as (t & Hs & _).
  pose proof (head_space_trim_start s) as Hhead. rewrite Hs in Hhead.
  unfold head_space in *.
  destruct (skip (trim_end (trim_start s))) as [r|] eqn:Hr; [|done].
  by rewrite (skip_app _ t r Hr) in Hhead.
Qed.

(** [trim] takes nothing but white space. *)
Lemma trim_split (s : string) :
  ∃ a b, s = a +:+ Hook.trim s +:+ b ∧ all_space a = true ∧ all_space b = true.
Proof.
  unfold Hook.trim.
  destruct (trim_start_split s) as (a & Hs & Ha).
  destruct (trim_end_split (trim_start s)) as (b & Hb & Hspace).
  exists a, b. split; [|done]. by rewrite <- Hb.
Qed.

End Trimming.

(** The white space of ECMAScript, each code point once, and three code
    points that are none: U+0085, U+180E and U+200B. *)
Example white_space_table :
  Text.all_space
    (Text.of_bytes [0x09; 0x0A; 0x0B; 0x0C; 0x0D; 0x20; 0xC2; 0xA0; 0xE1; 0x9A; 0x80;
                    0xE2; 0x80; 0x80; 0xE2; 0x80; 0x81; 0xE2; 0x80; 0x82; 0xE2; 0x80; 0x83;
                    0xE2; 0x80; 0x84; 0xE2; 0x80; 0x85; 0xE2; 0x80; 0x86; 0xE2; 0x80; 0x87;
                    0xE2; 0x80; 0x88; 0xE2; 0x80; 0x89; 0xE2; 0x80; 0x8A; 0xE2; 0x80; 0xA8;
                    0xE2; 0x80; 0xA9; 0xE2; 0x80; 0xAF; 0xE2; 0x81; 0x9F; 0xE3; 0x80; 0x80;
                    0xEF; 0xBB; 0xBF]%N) = true
  ∧ Hook.trim (Text.of_bytes [0xC2; 0x85]%N) = Text.of_bytes [0xC2; 0x85]%N
  ∧ Hook.trim (Text.of_bytes [0xE1; 0xA0; 0x8E]%N) = Text.of_bytes [0xE1; 0xA0; 0x8E]%N
  ∧ Hook.trim (Text.of_bytes [0xE2; 0x80; 0x8B]%N) = Text.of_bytes [0xE2; 0x80; 0x8B]%N.
Proof. by vm_compute. Qed.

Example trim_wide_spaces :
  Hook.trim (Sample2.nbsp +:+ "hello" +:+ Sample2.ideographic_space) = "hello"%string
  ∧ Hook.trim (" a b" +:+ Sample2.nbsp +:+ " ") = "a b"%string
  ∧ Hook.trim Sample2.ideographic_space = ""%string.
Proof. by vm_compute. Qed.

(** X20. The text of an entry that speech recognition adds to the transcript
    neither begins nor ends with white space (of Unicode, as [trim] takes
    it), and is the joined final results but for white space at the two
    ends. It can be empty: final results that consist of white space only are
    not empty, so an entry is added, and its text is the empty string. *)
Theorem X20_speech_text_trimmed (options : Hook.Options) (now : Z)
    (event : Hook.SpeechRecognitionEvent) (s : Hook.State) (finalTranscript : string) :
  Hook.final_text (drop (Hook.resultIndex event) (Hook.results event)) "" = Resolved finalTranscript →
  finalTranscript ≠ ""%string →
  ∃ t,
    Hook.transcript (Hook.recognition_onresult options now event s)
    = Hook.transcript s
      ++ [{| Hook.speaker := or_else (Hook.opt_identity options) (VStr "You");
             Hook.text := VStr t; Hook.timestamp := now |}]
    ∧ Text.head_space t = false ∧ Text.last_space t = false
    ∧ (t = ""%string ↔ Text.all_space finalTranscript = true)
    ∧ ∃ a b, finalTranscript = a +:+ t +:+ b
             ∧ Text.all_space a = true ∧ Text.all_space b = true.
Proof.
  intros Hft Hne. exists (Hook.trim finalTranscript).
  rewrite onresult_transcript, Hft. rewrite decide_False by done.
  split; [done|]. destruct (trim_edges finalTranscript) as [Hhead Hlast].
  split; [done|]. split; [done|]. split; [apply trim_empty|apply trim_split].
Qed.

Lemma X20_witness :
  Hook.final_text (drop (Hook.resultIndex Sample2.pause) (Hook.results Sample2.pause)) ""
  = Resolved "  "%string
  ∧ Hook.transcript
      (Hook.recognition_onresult Sample.anonymous 7 Sample2.pause (Hook.mount Hook.initial))
    = [{| Hook.speaker := VStr "You"; Hook.text := VStr ""; Hook.timestamp := 7 |}]
  ∧ Hook.transcript
      (Hook.recognition_onresult Sample.anonymous 8 Sample2.wide_hello (Hook.mount Hook.initial))
    = [{| Hook.speaker := VStr "You"; Hook.text := VStr "hello"; Hook.timestamp := 8 |}].
Proof.
  split; [reflexivity|].
  destruct (X20_speech_text_trimmed Sample.anonymous 7 Sample2.pause (Hook.mount Hook.initial)
              "  "%string) as (t & Hentry & _ & _ & Hempty & _); [reflexivity|discriminate|].
  rewrite Hentry. assert (Ht : t = ""%string) by (apply Hempty; reflexivity).
  rewrite Ht. split; reflexivity.
Defined.

(** ** The home page *)

(** X21. [handleJoinRoom] navigates only with a name and a meeting id that
    each have a character that is no white space; then it stores the name and
    opens the room of the meeting id, both as they were typed, untrimmed. A
    blank name gives the alert for the name, whatever the meeting id is; a
    blank meeting id with a name gives the alert for the id; an alert is never
    followed by anything. *)
Theorem X21_handleJoinRoom (name meetingId : string) :
  HomePage.handleJoinRoom name meetingId
  = (if Text.all_space name then [HomePage.Alert "Please enter your name"]
     else if Text.all_space meetingId then [HomePage.Alert "Please enter a meeting ID"]
     else [HomePage.SetItem "userName" name; HomePage.Push ("/room/" +:+ meetingId)])
  ∧ (∀ route, HomePage.Push route ∈ HomePage.handleJoinRoom name meetingId →
       Text.all_space name = false ∧ Text.all_space meetingId = false
       ∧ route = ("/room/" +:+ meetingId)%string).
Proof.
  assert (Htrim : ∀ s, truthy (VStr (Hook.trim s)) = negb (Text.all_space s)).
  { intros s. destruct (Text.all_space s) eqn:Hs.
    - apply trim_empty in Hs. by rewrite Hs.
    - apply truthy_VStr. intros Ht%trim_empty. congruence. }
  assert (Hrun : HomePage.handleJoinRoom name meetingId
    = (if Text.all_space name then [HomePage.Alert "Please enter your name"]
       else if Text.all_space meetingId then [HomePage.Alert "Please enter a meeting ID"]
       else [HomePage.SetItem "userName" name; HomePage.Push ("/room/" +:+ meetingId)])).
  { unfold HomePage.handleJoinRoom. rewrite !Htrim, !negb_involutive. done. }
  split; [done|]. rewrite Hrun. intros route.
  destruct (Text.all_space name), (Text.all_space meetingId);
    intros Hin; repeat (apply elem_of_cons in Hin as [Hin|Hin]; try discriminate);
    try (by apply elem_of_nil in Hin).
  by injection Hin as ->.
Qed.

Lemma X21_witness :
  HomePage.Push "/room/ 12 " ∈ HomePage.handleJoinRoom " Alice" " 12 "
  ∧ HomePage.handleJoinRoom " Alice" " 12 "
    = [HomePage.SetItem "userName" " Alice"; HomePage.Push "/room/ 12 "]
  ∧ HomePage.handleJoinRoom "   " "1234" = [HomePage.Alert "Please enter your name"]
  ∧ HomePage.handleJoinRoom Sample2.ideographic_space "1234"
    = [HomePage.Alert "Please enter your name"].
Proof.
  assert (Hin : HomePage.Push "/room/ 12 " ∈ HomePage.handleJoinRoom " Alice" " 12 ").
  { apply elem_of_cons. right. apply list_elem_of_singleton. reflexivity. }
  split; [exact Hin|].
  destruct (X21_handleJoinRoom " Alice" " 12 ") as [Hrun Hpush].
  destruct (Hpush _ Hin) as (_ & _ & _).
  split; [exact Hrun|].
  destruct (X21_handleJoinRoom "   " "1234") as [Hblank _].
  destruct (X21_handleJoinRoom Sample2.ideographic_space "1234") as [Hwide _].
  split; [exact Hblank|exact Hwide].
Defined.

(** ** The chat of the demonstration page *)

(** X22. [sendMessage] of the chat never removes or changes a message. A
    draft with a character that is no white space is added at the end, as it
    was typed (untrimmed), under the user's name, and the draft is cleared; a
    blank draft changes nothing, and stays in the input. A key other than
    Enter sends nothing. *)
Theorem X22_chat_sendMessage (now : Z) (userName key : string) (c : DemoRoom.Chat) :
  (Text.all_space (DemoRoom.chatMessage c) = true → DemoRoom.sendMessage now userName c = c)
  ∧ (Text.all_space (DemoRoom.chatMessage c) = false →
     DemoRoom.sendMessage now userName c
     = {| DemoRoom.chatMessage := "";
          DemoRoom.chatMessages :=
            DemoRoom.chatMessages c
            ++ [{| DemoRoom.id := pretty now; DemoRoom.sender := userName;
                   DemoRoom.message := DemoRoom.chatMessage c;
                   DemoRoom.timestamp := now |}] |})
  ∧ (∃ more, DemoRoom.chatMessages (DemoRoom.sendMessage now userName c)
             = DemoRoom.chatMessages c ++ more)
  ∧ DemoRoom.sendMessage now userName (DemoRoom.sendMessage now userName c)
    = DemoRoom.sendMessage now userName c
  ∧ (key ≠ "Enter"%string → DemoRoom.handleKeyDown now userName key c = c).
Proof.
  unfold DemoRoom.handleKeyDown, DemoRoom.sendMessage.
  destruct (Text.all_space (DemoRoom.chatMessage c)) eqn:Hs.
  - pose proof Hs as Ht. apply trim_empty in Ht. rewrite Ht. simpl.
    rewrite Ht. simpl.
    split; [done|]. split; [done|]. split; [exists []; by rewrite app_nil_r|].
    split; [done|]. intros Hk. apply String.eqb_neq in Hk. by rewrite Hk.
  - assert (Ht : truthy (VStr (Hook.trim (DemoRoom.chatMessage c))) = true).
    { apply truthy_VStr. intros Ht%trim_empty. congruence. }
    rewrite Ht. simpl.
    split; [done|]. split; [done|]. split; [eauto|].
    split; [done|]. intros Hk. apply String.eqb_neq in Hk. by rewrite Hk.
Qed.

Lemma X22_witness :
  let c := {| DemoRoom.chatMessage := " hi "; DemoRoom.chatMessages := [] |} in
  Text.all_space (DemoRoom.chatMessage c) = false
  ∧ DemoRoom.sendMessage 5 "Alice" c
    = {| DemoRoom.chatMessage := "";
         DemoRoom.chatMessages := [{| DemoRoom.id := "5"; DemoRoom.sender := "Alice";
                                      DemoRoom.message := " hi "; DemoRoom.timestamp := 5 |}] |}
  ∧ DemoRoom.handleKeyDown 5 "Alice" "a" c = c
  ∧ DemoRoom.sendMessage 5 "Alice"
      {| DemoRoom.chatMessage := Sample2.nbsp; DemoRoom.chatMessages := [] |}
    = {| DemoRoom.chatMessage := Sample2.nbsp; DemoRoom.chatMessages := [] |}.
Proof.
  cbv zeta. split; [reflexivity|].
  destruct (X22_chat_sendMessage 5 "Alice" "a"
              {| DemoRoom.chatMessage := " hi "; DemoRoom.chatMessages := [] |})
    as (_ & Hsend & _ & _ & Hkey).
  destruct (X22_chat_sendMessage 5 "Alice" "a"
              {| DemoRoom.chatMessage := Sample2.nbsp; DemoRoom.chatMessages := [] |})
    as (Hblank & _).
  split; [apply Hsend; reflexivity|]. split; [apply Hkey; discriminate|].
  apply Hblank. reflexivity.
Defined.

(** ** The room page *)

Lemma two_digits (x : Z) :
  0 ≤ x < 60 → String.length (padStart 2 "0" (pretty x)) = 2%nat.
Proof.
  intros Hx. rewrite <- (Z2Nat.id x) by lia.
  assert (Hn : (Z.to_nat x < 60)%nat) by lia.
  generalize dependent (Z.to_nat x). clear. intros n Hn.
  do 60 (destruct n as [|n]; [reflexivity|]). lia.
Qed.

(** X23. [formatDuration] shows a duration of [h] hours, [m] minutes and [s]
    seconds ([m] and [s] below 60, the whole below 2^53 seconds, where the
    arithmetic of doubles is exact) as [m:ss] during the first hour and as
    [h:mm:ss] afterwards; the fields after the first are always two
    characters long, with a leading zero when needed. *)
Theorem X23_formatDuration (h m s : Z) :
  0 ≤ h → 0 ≤ m < 60 → 0 ≤ s < 60 → 3600 * h + 60 * m + s < 2 ^ 53 →
  let two (x : Z) := padStart 2 "0" (pretty x) in
  RoomPage.formatDuration (3600 * h + 60 * m + s)
  = Some (if decide (h = 0) then pretty m +:+ ":" +:+ two s
          else pretty h +:+ ":" +:+ two m +:+ ":" +:+ two s)
  ∧ String.length (two m) = 2%nat ∧ String.length (two s) = 2%nat.
Proof.
  intros Hh Hm Hs Hsafe. cbv zeta. split; [|split; by apply two_digits].
  unfold RoomPage.formatDuration, RoomPage.isSafeInteger.
  assert (Hlt : (Z.abs (3600 * h + 60 * m + s) <? 2 ^ 53) = true).
  { apply Z.ltb_lt. rewrite Z.abs_eq by lia. exact Hsafe. }
  rewrite Hlt.
  assert (Hhours : (3600 * h + 60 * m + s) `div` 3600 = h).
  { symmetry. apply (Z.div_unique _ _ _ (60 * m + s)); lia. }
  assert (Hrem : (3600 * h + 60 * m + s) `rem` 3600 = 60 * m + s).
  { rewrite Z.rem_mod_nonneg by lia. symmetry. apply (Z.mod_unique _ _ h); lia. }
  assert (Hmin : (60 * m + s) `div` 60 = m).
  { symmetry. apply (Z.div_unique _ _ _ s); lia. }
  assert (Hsec : (3600 * h + 60 * m + s) `rem` 60 = s).
  { rewrite Z.rem_mod_nonneg by lia. symmetry. apply (Z.mod_unique _ _ (60 * h + m)); lia. }
  rewrite Hhours, Hrem, Hmin, Hsec.
  destruct (decide (h = 0)) as [->|Hne]; [done|].
  assert (Hpos : (0 <? h) = true) by (apply Z.ltb_lt; lia). by rewrite Hpos.
Qed.

Lemma X23_witness :
  RoomPage.formatDuration 3909 = Some "1:05:09"%string
  ∧ RoomPage.formatDuration 65 = Some "1:05"%string
  ∧ RoomPage.formatDuration 0 = Some "0:00"%string.
Proof.
  split; [|split].
  - destruct (X23_formatDuration 1 5 9) as [Hfmt _]; [lia|lia|lia|reflexivity|]. exact Hfmt.
  - destruct (X23_formatDuration 0 1 5) as [Hfmt _]; [lia|lia|lia|reflexivity|]. exact Hfmt.
  - destruct (X23_formatDuration 0 0 0) as [Hfmt _]; [lia|lia|lia|reflexivity|]. exact Hfmt.
Defined.

Section RoomPageFacts.

Context (net : Http.network) (baseUrl : string) (livekit_url : value).

Lemma findByName_run (rooms : list Spec.Room) (n : string) log :
  Spec.lists_rooms net baseUrl log rooms →
  Api.rooms_findByName net baseUrl (VStr n) log
  = (Resolved (from_option Spec.Room_value VUndefined
                 (List.find (fun r => String.eqb (Spec.room_name r) n && Spec.is_active r) rooms)),
     log ++ [RoomSpec.list_request baseUrl]).
Proof.
  intros (response & Hnet & Hok & Hjson & Hbody).
  unfold Api.rooms_findByName, ApiClient.findRoomByName, ApiClient.listRooms,
    ApiClient.no_options, Http.async_bind.
  rewrite request_unfold. unfold Spec.answer, Spec.respond.
  rewrite Hnet, Hok, Hjson, Hbody. cbn [Http.async_ret]. by rewrite array_find_rooms.
Qed.

Lemma findByName_failed (n : value) err log :
  Spec.answer net log (RoomSpec.list_request baseUrl) = Rejected err →
  Api.rooms_findByName net baseUrl n log = (Rejected err, log ++ [RoomSpec.list_request baseUrl]).
Proof.
  intros Hfail.
  unfold Api.rooms_findByName, ApiClient.findRoomByName, ApiClient.listRooms,
    ApiClient.no_options, Http.async_bind.
  rewrite request_unfold. fold (RoomSpec.list_request baseUrl). by rewrite Hfail.
Qed.

Lemma rooms_create_run (roomCode : string) log :
  Api.rooms_create net baseUrl (VStr roomCode)
    (VObj [("roomType", VStr "call"); ("maxParticipants", VNum 10)]) log
  = (Spec.answer net log (RoomSpec.create_request baseUrl roomCode),
     log ++ [RoomSpec.create_request baseUrl roomCode]).
Proof.
  unfold Api.rooms_create, ApiClient.createRoom, ApiClient.post. by rewrite request_unfold.
Qed.

(** What [connectToRoom] does once the room id is settled. *)
Lemma connectToRoom_run (roomCode : value) (userIdentity userName : string)
    (details : RoomPage.ConnectionDetails) log :
  userName ≠ ""%string → RoomPage.shouldConnect details = false →
  RoomPage.connectToRoom net baseUrl livekit_url roomCode (VStr userIdentity) (VStr userName)
    details log
  = let '(actualRoomId, toasts, log1) := RoomPage.resolveRoom net baseUrl roomCode log in
    let failed := toasts ++ [RoomPage.ToastError "Failed to connect to room"] in
    match Api.participants_getToken net baseUrl actualRoomId (VStr userIdentity) (VStr userName)
            VUndefined log1 with
    | (Resolved response, log2) =>
        if negb (truthy livekit_url) then (details, failed, log2)
        else
          match get_prop response "token" with
          | Resolved token =>
              ({| RoomPage.wsUrl := livekit_url; RoomPage.token := token;
                  RoomPage.shouldConnect := true |}, toasts, log2)
          | Rejected _ => (details, failed, log2)
          end
    | (Rejected _, log2) => (details, failed, log2)
    end.
Proof.
  intros Hname Hidle. unfold RoomPage.connectToRoom.
  apply truthy_VStr in Hname. by rewrite Hname, Hidle.
Qed.

End RoomPageFacts.

(** X24. The room page joins an open room of its code rather than creating
    one: when the listing has an active room named as the room code, the page
    issues two requests, the listing and the token request for the id of the
    first such room, and no request to create a room; when the token arrives
    and the LiveKit URL is configured, the page is set to connect with that
    token, and shows no toast. *)
Theorem X24_room_page_joins_existing (net : Http.network) (baseUrl : string) (livekit_url : value)
    (pre post : list Spec.Room) (r : Spec.Room) (roomCode userIdentity userName : string)
    (details : RoomPage.ConnectionDetails) (log : list Http.Request) :
  userName ≠ ""%string → RoomPage.shouldConnect details = false →
  Spec.lists_rooms net baseUrl log (pre ++ r :: post) →
  Spec.named_active roomCode r →
  (∀ r', r' ∈ pre → ¬ Spec.named_active roomCode r') →
  let run := RoomPage.connectToRoom net baseUrl livekit_url (VStr roomCode) (VStr userIdentity)
               (VStr userName) details log in
  let token_req := RoomSpec.token_request baseUrl (Spec.room_id r) userIdentity userName in
  run.2 = log ++ [RoomSpec.list_request baseUrl; token_req]
  ∧ (∀ fields,
       Spec.answer net (log ++ [RoomSpec.list_request baseUrl]) token_req = Resolved (VObj fields) →
       truthy livekit_url = true →
       run.1 = ({| RoomPage.wsUrl := livekit_url;
                   RoomPage.token := default VUndefined (assoc "token" fields);
                   RoomPage.shouldConnect := true |}, [])).
Proof.
  intros Hname Hidle Hlist Hr Hpre. cbv zeta.
  rewrite connectToRoom_run by done. unfold RoomPage.resolveRoom.
  rewrite (findByName_run net baseUrl _ roomCode log Hlist).
  rewrite (find_first _ pre post r).
  - cbn [from_option truthy Spec.Room_value get_prop assoc String.eqb Ascii.eqb Bool.eqb default].
    unfold id. rewrite participants_getToken_request.
    fold (RoomSpec.token_request baseUrl (Spec.room_id r) userIdentity userName).
    split.
    + destruct (Spec.answer net _ _) as [response|]; cbn [snd]; [|by rewrite <- app_assoc].
      destruct (negb (truthy livekit_url)); [by rewrite <- app_assoc|].
      destruct (get_prop response "token"); by rewrite <- app_assoc.
    + intros fields -> ->. done.
  - by apply named_active_test.
  - intros r' Hin. specialize (Hpre r' Hin).
    destruct (_ && _) eqn:Ht; [|done]. by apply named_active_test in Ht.
Qed.

Lemma X24_witness :
  let net := RoomSpec.backend Sample.rooms Sample2.conflict in
  let run := RoomPage.connectToRoom net Sample.base (VStr "wss://livekit.example")
               (VStr "call-123") (VStr "user_1") (VStr "Alice") RoomSpec.idle [] in
  Spec.lists_rooms net Sample.base [] ([Sample.closed_room; Sample.other_room] ++ Sample.open_room :: [])
  ∧ Spec.named_active "call-123" Sample.open_room
  ∧ run.2 = [RoomSpec.list_request Sample.base;
             RoomSpec.token_request Sample.base "room-2" "user_1" "Alice"]
  ∧ run.1 = ({| RoomPage.wsUrl := VStr "wss://livekit.example"; RoomPage.token := VStr "jwt";
                RoomPage.shouldConnect := true |}, []).
Proof.
  cbv zeta.
  assert (Hlist : Spec.lists_rooms (RoomSpec.backend Sample.rooms Sample2.conflict) Sample.base []
            ([Sample.closed_room; Sample.other_room] ++ Sample.open_room :: [])).
  { eexists. split; [reflexivity|]. split; [reflexivity|]. split; reflexivity. }
  assert (Hopen : Spec.named_active "call-123" Sample.open_room) by (split; reflexivity).
  assert (Hpre : ∀ r', r' ∈ [Sample.closed_room; Sample.other_room] →
                       ¬ Spec.named_active "call-123" r').
  { intros r' Hin [Hname Hactive].
    apply elem_of_cons in Hin as [->|Hin]; [discriminate|].
    apply elem_of_cons in Hin as [->|Hin]; [discriminate|].
    by apply elem_of_nil in Hin. }
  split; [exact Hlist|]. split; [exact Hopen|].
  destruct (X24_room_page_joins_existing (RoomSpec.backend Sample.rooms Sample2.conflict)
              Sample.base (VStr "wss://livekit.example")
              [Sample.closed_room; Sample.other_room] [] Sample.open_room
              "call-123" "user_1" "Alice" RoomSpec.idle []) as [Hreqs Hstate];
    [discriminate|reflexivity|exact Hlist|exact Hopen|exact Hpre|].
  split; [exact Hreqs|].
  apply (Hstate [("token", VStr "jwt"); ("url", VStr "wss://livekit.example");
                 ("room_id", VStr "room-2"); ("identity", VStr "alice");
                 ("expires_at", VStr "2025-01-02T11:00:00Z")]); reflexivity.
Defined.

Lemma find_none_of {A : Type} (p : A → bool) (l : list A) :
  (∀ y, y ∈ l → p y = false) → List.find p l = None.
Proof.
  intros Hl. induction l as [|y l IH]; simpl; [done|].
  rewrite (Hl y) by set_solver. apply IH. intros z Hz. apply Hl. set_solver.
Qed.

(** X25. When the listing has no active room named as the room code, the
    room page asks the back end to create one, of type call for at most ten
    participants, before it asks for a token. If the creation answers with a
    room id, the token is requested for that id and the first toast announces
    the new room; if the creation is rejected, the token is requested for the
    room code itself and no room is announced. *)
Theorem X25_room_page_creates_missing (net : Http.network) (baseUrl : string) (livekit_url : value)
    (rooms : list Spec.Room) (roomCode userIdentity userName : string)
    (details : RoomPage.ConnectionDetails) (log : list Http.Request) :
  userName ≠ ""%string → RoomPage.shouldConnect details = false →
  Spec.lists_rooms net baseUrl log rooms →
  (∀ r, r ∈ rooms → ¬ Spec.named_active roomCode r) →
  let run := RoomPage.connectToRoom net baseUrl livekit_url (VStr roomCode) (VStr userIdentity)
               (VStr userName) details log in
  let listed := log ++ [RoomSpec.list_request baseUrl] in
  let create_req := RoomSpec.create_request baseUrl roomCode in
  (∀ fields roomId,
     Spec.answer net listed create_req = Resolved (VObj fields) →
     assoc "room_id" fields = Some (VStr roomId) →
     run.2 = listed ++ [create_req; RoomSpec.token_request baseUrl roomId userIdentity userName]
     ∧ head run.1.2 = Some (RoomPage.ToastSuccess "Room created successfully"))
  ∧ (∀ err,
       Spec.answer net listed create_req = Rejected err →
       run.2 = listed ++ [create_req; RoomSpec.token_request baseUrl roomCode userIdentity userName]
       ∧ RoomPage.ToastSuccess "Room created successfully" ∉ run.1.2).
Proof.
  intros Hname Hidle Hlist Hnone. cbv zeta.
  rewrite connectToRoom_run by done. unfold RoomPage.resolveRoom.
  rewrite (findByName_run net baseUrl _ roomCode log Hlist).
  rewrite find_none_of.
  2:{ intros r Hin. specialize (Hnone r Hin).
      destruct (_ && _) eqn:Ht; [|done]. by apply named_active_test in Ht. }
  cbn [from_option truthy]. rewrite rooms_create_run. split.
  - intros fields roomId -> Hid. cbn [get_prop]. rewrite Hid. cbn [default]. unfold id.
    rewrite participants_getToken_request.
    fold (RoomSpec.token_request baseUrl roomId userIdentity userName).
    destruct (Spec.answer net _ (RoomSpec.token_request _ _ _ _)) as [response|];
      [|by rewrite <- app_assoc].
    destruct (negb (truthy livekit_url)); [by rewrite <- app_assoc|].
    destruct (get_prop response "token"); by rewrite <- app_assoc.
  - intros err ->.
    rewrite participants_getToken_request.
    fold (RoomSpec.token_request baseUrl roomCode userIdentity userName).
    destruct (Spec.answer net _ (RoomSpec.token_request _ _ _ _)) as [response|]; cbn [fst snd].
    2:{ rewrite <- app_assoc. split; [done|]. set_solver. }
    destruct (negb (truthy livekit_url)).
    { rewrite <- app_assoc. split; [done|]. set_solver. }
    destruct (get_prop response "token");
      rewrite <- app_assoc; (split; [done|]); set_solver.
Qed.

Lemma X25_witness :
  let created := Spec.success (VObj [("room_id", VStr "room-9")]) in
  let rooms := [Sample.closed_room; Sample.other_room] in
  let listed := [RoomSpec.list_request Sample.base] in
  let create_req := RoomSpec.create_request Sample.base "call-123" in
  let run (answer : Http.Response) :=
    RoomPage.connectToRoom (RoomSpec.backend rooms answer) Sample.base
      (VStr "wss://livekit.example") (VStr "call-123") (VStr "user_1") (VStr "Alice")
      RoomSpec.idle [] in
  Spec.lists_rooms (RoomSpec.backend rooms created) Sample.base [] rooms
  ∧ ((run created).2
     = listed ++ [create_req; RoomSpec.token_request Sample.base "room-9" "user_1" "Alice"]
     ∧ head (run created).1.2 = Some (RoomPage.ToastSuccess "Room created successfully"))
  ∧ ((run Sample2.conflict).2
     = listed ++ [create_req; RoomSpec.token_request Sample.base "call-123" "user_1" "Alice"]
     ∧ RoomPage.ToastSuccess "Room created successfully" ∉ (run Sample2.conflict).1.2).
Proof.
  cbv zeta.
  assert (Hlist : ∀ answer, Spec.lists_rooms
            (RoomSpec.backend [Sample.closed_room; Sample.other_room] answer) Sample.base []
            [Sample.closed_room; Sample.other_room]).
  { intros answer. eexists. split; [reflexivity|]. split; [reflexivity|]. split; reflexivity. }
  assert (Hnone : ∀ r, r ∈ [Sample.closed_room; Sample.other_room] →
                       ¬ Spec.named_active "call-123" r).
  { intros r' Hin [Hname Hactive].
    apply elem_of_cons in Hin as [->|Hin]; [discriminate|].
    apply elem_of_cons in Hin as [->|Hin]; [discriminate|].
    by apply elem_of_nil in Hin. }
  split; [apply Hlist|]. split.
  - destruct (X25_room_page_creates_missing
                (RoomSpec.backend [Sample.closed_room; Sample.other_room]
                   (Spec.success (VObj [("room_id", VStr "room-9")])))
                Sample.base (VStr "wss://livekit.example")
                [Sample.closed_room; Sample.other_room]
                "call-123" "user_1" "Alice" RoomSpec.idle []) as [Hcreated _];
      [discriminate|reflexivity|apply Hlist|exact Hnone|].
    apply (Hcreated [("room_id", VStr "room-9")] "room-9"%string); reflexivity.
  - destruct (X25_room_page_creates_missing
                (RoomSpec.backend [Sample.closed_room; Sample.other_room] Sample2.conflict)
                Sample.base (VStr "wss://livekit.example")
                [Sample.closed_room; Sample.other_room]
                "call-123" "user_1" "Alice" RoomSpec.idle []) as [_ Hrejected];
      [discriminate|reflexivity|apply Hlist|exact Hnone|].
    eapply Hrejected. reflexivity.
Defined.

(** X26. A failed room lookup is silent on the room page: the page makes no
    attempt to create the room and asks for a token for the room code
    itself; it shows no toast for the lookup, and when the token arrives and
    the LiveKit URL is configured it connects as if the room had been
    found. *)
Theorem X26_room_page_lookup_failed (net : Http.network) (baseUrl : string) (livekit_url : value)
    (roomCode userIdentity userName : string) (details : RoomPage.ConnectionDetails)
    (log : list Http.Request) (err : exn) :
  userName ≠ ""%string → RoomPage.shouldConnect details = false →
  Spec.answer net log (RoomSpec.list_request baseUrl) = Rejected err →
  let run := RoomPage.connectToRoom net baseUrl livekit_url (VStr roomCode) (VStr userIdentity)
               (VStr userName) details log in
  let token_req := RoomSpec.token_request baseUrl roomCode userIdentity userName in
  run.2 = log ++ [RoomSpec.list_request baseUrl; token_req]
  ∧ (∀ fields,
       Spec.answer net (log ++ [RoomSpec.list_request baseUrl]) token_req = Resolved (VObj fields) →
       truthy livekit_url = true →
       run.1 = ({| RoomPage.wsUrl := livekit_url;
                   RoomPage.token := default VUndefined (assoc "token" fields);
                   RoomPage.shouldConnect := true |}, [])).
Proof.
  intros Hname Hidle Hfail. cbv zeta.
  rewrite connectToRoom_run by done. unfold RoomPage.resolveRoom.
  rewrite (findByName_failed net baseUrl _ err log Hfail).
  rewrite participants_getToken_request.
  fold (RoomSpec.token_request baseUrl roomCode userIdentity userName). split.
  - destruct (Spec.answer net _ (RoomSpec.token_request _ _ _ _)) as [response|]; cbn [snd];
      [|by rewrite <- app_assoc].
    destruct (negb (truthy livekit_url)); [by rewrite <- app_assoc|].
    destruct (get_prop response "token"); by rewrite <- app_assoc.
  - by intros fields -> ->.
Qed.

Lemma X26_witness :
  let net : Http.network := fun log req =>
    match log with
    | [] => Resolved Sample.unavailable
    | _ => Resolved (Spec.success (Spec.TokenResponse_value Sample.token_response))
    end in
  let run := RoomPage.connectToRoom net Sample.base (VStr "wss://livekit.example")
               (VStr "call-123") (VStr "user_1") (VStr "Alice") RoomSpec.idle [] in
  run.2 = [RoomSpec.list_request Sample.base;
           RoomSpec.token_request Sample.base "call-123" "user_1" "Alice"]
  ∧ run.1 = ({| RoomPage.wsUrl := VStr "wss://livekit.example"; RoomPage.token := VStr "jwt";
                RoomPage.shouldConnect := true |}, []).
Proof.
  cbv zeta.
  destruct (X26_room_page_lookup_failed
              (fun log req =>
                 match log with
                 | [] => Resolved Sample.unavailable
                 | _ => Resolved (Spec.success (Spec.TokenResponse_value Sample.token_response))
                 end)
              Sample.base (VStr "wss://livekit.example") "call-123" "user_1" "Alice"
              RoomSpec.idle []
              (ApiErr {| message := VStr "HTTP 503: Service Unavailable"; status := 503;
                         details := VUndefined |})) as [Hreqs Hstate];
    [discriminate|reflexivity|reflexivity|].
  split; [exact Hreqs|].
  apply (Hstate [("token", VStr "jwt"); ("url", VStr "wss://livekit.example");
                 ("room_id", VStr "room-2"); ("identity", VStr "alice");
                 ("expires_at", VStr "2025-01-02T11:00:00Z")]); reflexivity.
Defined.

Section RoomPageBounds.

Context (net : Http.network) (baseUrl : string).

Lemma findByName_log (n : value) log :
  (Api.rooms_findByName net baseUrl n log).2 = log ++ [RoomSpec.list_request baseUrl].
Proof.
  unfold Api.rooms_findByName, ApiClient.findRoomByName, ApiClient.listRooms,
    ApiClient.no_options, Http.async_bind.
  rewrite request_unfold. by destruct (Spec.answer net log _).
Qed.

Lemma rooms_create_log (n options : value) log :
  ∃ req, (Api.rooms_create net baseUrl n options log).2 = log ++ [req]
         ∧ Http.url req = baseUrl +:+ "/api/rooms/create".
Proof.
  unfold Api.rooms_create, ApiClient.createRoom, ApiClient.post.
  rewrite request_unfold. eauto.
Qed.

Lemma getToken_log (roomId identity name options : value) log :
  ∃ req, (Api.participants_getToken net baseUrl roomId identity name options log).2 = log ++ [req]
         ∧ Http.url req = baseUrl +:+ "/api/participants/token".
Proof.
  unfold Api.participants_getToken, ApiClient.generateJoinToken, ApiClient.post.
  rewrite request_unfold. eauto.
Qed.

(** The requests of the inner [try]: the listing, then at most the creation
    of the room. *)
Lemma resolveRoom_log (roomCode : value) log :
  ∃ reqs, (RoomPage.resolveRoom net baseUrl roomCode log).2
          = log ++ RoomSpec.list_request baseUrl :: reqs
          ∧ (length reqs ≤ 1)%nat
          ∧ (∀ req, req ∈ reqs → Http.url req = baseUrl +:+ "/api/rooms/create")
          ∧ RoomPage.ToastError "Failed to connect to room"
            ∉ (RoomPage.resolveRoom net baseUrl roomCode log).1.2.
Proof.
  unfold RoomPage.resolveRoom.
  pose proof (findByName_log roomCode log) as Hfind.
  destruct (Api.rooms_findByName net baseUrl roomCode log) as [[existingRoom|err] log1];
    simpl in Hfind; subst log1.
  2:{ exists []. simpl. split; [done|]. split; [lia|]. set_solver. }
  destruct (truthy existingRoom).
  { exists []. destruct (get_prop existingRoom "room_id"); simpl;
      (split; [done|]); (split; [lia|]); set_solver. }
  destruct (rooms_create_log roomCode
              (VObj [("roomType", VStr "call"); ("maxParticipants", VNum 10)])
              (log ++ [RoomSpec.list_request baseUrl])) as (req & Hlog & Hurl).
  exists [req].
  destruct (Api.rooms_create net baseUrl roomCode _ _) as [[createResponse|err] log2];
    simpl in Hlog; subst log2.
  - destruct (get_prop createResponse "room_id"); simpl; rewrite <- app_assoc;
      (split; [done|]); (split; [lia|]); set_solver.
  - simpl. rewrite <- app_assoc. split; [done|]. split; [lia|]. set_solver.
Qed.

End RoomPageBounds.

(** X27. Whatever the back end answers, the room page makes between two and
    three requests to connect: the listing of the rooms first, then at most
    the creation of a room, and the token request last. It either leaves the
    connection details as they were and ends with the toast of a failed
    connection, or is set to connect to the configured LiveKit URL without
    that toast; without a configured URL it never connects, although the
    requests are made all the same. With no user name, or once it is set to
    connect, it does nothing. *)
Theorem X27_room_page_bounds (net : Http.network) (baseUrl : string) (livekit_url : value)
    (roomCode userIdentity userName : value) (details : RoomPage.ConnectionDetails)
    (log : list Http.Request) :
  let run := RoomPage.connectToRoom net baseUrl livekit_url roomCode userIdentity userName
               details log in
  let failed := RoomPage.ToastError "Failed to connect to room" in
  (truthy userName = false ∨ RoomPage.shouldConnect details = true → run = (details, [], log))
  ∧ (truthy userName = true → RoomPage.shouldConnect details = false →
     ∃ reqs token_req,
       run.2 = log ++ RoomSpec.list_request baseUrl :: reqs ++ [token_req]
       ∧ (length reqs ≤ 1)%nat
       ∧ (∀ req, req ∈ reqs → Http.url req = baseUrl +:+ "/api/rooms/create")
       ∧ Http.url token_req = baseUrl +:+ "/api/participants/token"
       ∧ (run.1.1 = details ∧ last run.1.2 = Some failed
          ∨ RoomPage.shouldConnect run.1.1 = true ∧ RoomPage.wsUrl run.1.1 = livekit_url
            ∧ truthy livekit_url = true ∧ failed ∉ run.1.2)
       ∧ (truthy livekit_url = false → run.1.1 = details)).
Proof.
  cbv zeta. split.
  - unfold RoomPage.connectToRoom. intros [-> | ->]; [done|]. by rewrite andb_false_r.
  - intros Hname Hidle. unfold RoomPage.connectToRoom. rewrite Hname, Hidle. cbn [negb andb].
    destruct (resolveRoom_log net baseUrl roomCode log) as (reqs & Hlog & Hlen & Hurls & Htoasts).
    destruct (RoomPage.resolveRoom net baseUrl roomCode log) as [[actualRoomId toasts] log1].
    cbn [fst snd] in Hlog, Htoasts. subst log1.
    destruct (getToken_log net baseUrl actualRoomId userIdentity userName VUndefined
                (log ++ RoomSpec.list_request baseUrl :: reqs)) as (token_req & Hlog & Hurl).
    exists reqs, token_req.
    destruct (Api.participants_getToken net baseUrl actualRoomId _ _ _ _)
      as [[response|err] log2]; cbn [snd] in Hlog; subst log2; cbn [fst snd].
    2:{ rewrite <- app_assoc, last_snoc. simpl. naive_solver. }
    destruct (truthy livekit_url) eqn:Henv; cbn [negb fst snd].
    2:{ rewrite <- app_assoc, last_snoc. simpl. naive_solver. }
    destruct (get_prop response "token"); cbn [fst snd].
    + rewrite <- app_assoc. simpl. naive_solver.
    + rewrite <- app_assoc, last_snoc. simpl. naive_solver.
Qed.

Lemma X27_witness :
  let net := RoomSpec.backend Sample.rooms Sample2.conflict in
  let run (url userName : value) :=
    RoomPage.connectToRoom net Sample.base url (VStr "call-123") (VStr "user_1") userName
      RoomSpec.idle [] in
  (∃ reqs token_req,
     (run VUndefined (VStr "Alice")).2 = [] ++ RoomSpec.list_request Sample.base :: reqs ++ [token_req]
     ∧ (length reqs ≤ 1)%nat
     ∧ Http.url token_req = Sample.base +:+ "/api/participants/token"
     ∧ (run VUndefined (VStr "Alice")).1.1 = RoomSpec.idle)
  ∧ run (VStr "wss://livekit.example") (VStr "") = (RoomSpec.idle, [], []).
Proof.
  cbv zeta.
  destruct (X27_room_page_bounds (RoomSpec.backend Sample.rooms Sample2.conflict) Sample.base
              VUndefined (VStr "call-123") (VStr "user_1") (VStr "Alice") RoomSpec.idle [])
    as [_ Hrun].
  destruct (X27_room_page_bounds (RoomSpec.backend Sample.rooms Sample2.conflict) Sample.base
              (VStr "wss://livekit.example") (VStr "call-123") (VStr "user_1") (VStr "")
              RoomSpec.idle [])
    as [Hguard _].
  split.
  - destruct Hrun as (reqs & token_req & Hlog & Hlen & _ & Hurl & _ & Hoff);
      [reflexivity|reflexivity|].
    exists reqs, token_req. split; [exact Hlog|]. split; [exact Hlen|]. split; [exact Hurl|].
    apply Hoff. reflexivity.
  - apply Hguard. left. reflexivity.
Defined.
